(** * HealBee: turn orchestration and voice-capture state machine

    A shallow embedding of [src/ui.py]: the Streamlit session state, the
    text-submission callback, the follow-up loop, the assessment renderer,
    the voice pipeline and the two persistence helpers, followed by the
    properties of the turn router stated over that embedding.

    Python strings are modelled by [string] (characters with code points
    below 256); [st.session_state] is a record with one field per key the
    orchestration code reads or writes; the NLU engine, response generator,
    translation utility, symptom checker and Supabase client live in other
    modules of the repository and are taken as parameters ([Env]).

    Statements that only draw ([st.markdown], the spinner placeholder, the
    widgets) are left out; [st.error], [st.warning] and [st.rerun] are kept
    as entries of the call log. Dictionaries received from collaborators
    are typed by the keys the code reads. *)

From Stdlib Require Import String Ascii ZArith Lia.
From stdpp Require Import base option list strings gmap.

Local Open Scope string_scope.
Local Open Scope list_scope.

(** ** Python string primitives used by the orchestration code *)

Module Py.

(** [str.isspace] on one character (code points below 256). *)
Definition isspace (c : ascii) : bool :=
  let n := nat_of_ascii c in
  ((9 <=? n)%nat && (n <=? 13)%nat) || ((28 <=? n)%nat && (n <=? 32)%nat)
  || (n =? 133)%nat || (n =? 160)%nat.

Fixpoint lstrip (s : string) : string :=
  match s with
  | EmptyString => EmptyString
  | String c s' => if isspace c then lstrip s' else s
  end.

Fixpoint rstrip (s : string) : string :=
  match s with
  | EmptyString => EmptyString
  | String c s' =>
      match rstrip s' with
      | EmptyString => if isspace c then EmptyString else String c EmptyString
      | r => String c r
      end
  end.

(** [s.strip()] *)
Definition strip (s : string) : string := rstrip (lstrip s).

(** [bool(s)] for a string: non-empty. *)
Definition truthy (s : string) : bool := negb (String.eqb s EmptyString).

(** [s[:n]] *)
Definition slice_to (n : nat) (s : string) : string := substring 0 n s.

(** [s.split('-')[0]] *)
Fixpoint before_dash (s : string) : string :=
  match s with
  | EmptyString => EmptyString
  | String c s' => if Ascii.eqb c "-" then EmptyString else String c (before_dash s')
  end.

(** [sep.join(l)] *)
Fixpoint join (sep : string) (l : list string) : string :=
  match l with
  | [] => EmptyString
  | [x] => x
  | x :: rest => x +:+ sep +:+ join sep rest
  end.

(** [s.lstrip('- ')]: drop leading dashes and blanks. *)
Fixpoint lstrip_dash_space (s : string) : string :=
  match s with
  | EmptyString => EmptyString
  | String c s' =>
      if Ascii.eqb c "-" || Ascii.eqb c " " then lstrip_dash_space s' else s
  end.

Definition is_sentence_end (c : ascii) : bool :=
  Ascii.eqb c "." || Ascii.eqb c "!" || Ascii.eqb c "?".

(** Scanner state of [re.split(r'(?<=[.!?])\s+', s)]: either inside a piece
    (remembering whether the previous character ends a sentence) or inside
    the whitespace run of a separator. *)
Inductive SplitMode := InPiece (after_end : bool) | InSeparator.

Fixpoint split_sentences_from (mode : SplitMode) (piece : string) (s : string)
  : list string :=
  match s with
  | EmptyString => [piece]
  | String c s' =>
      match mode with
      | InSeparator =>
          if isspace c then split_sentences_from InSeparator piece s'
          else split_sentences_from (InPiece (is_sentence_end c))
                 (piece +:+ String c EmptyString) s'
      | InPiece after_end =>
          if after_end && isspace c
          then piece :: split_sentences_from InSeparator EmptyString s'
          else split_sentences_from (InPiece (is_sentence_end c))
                 (piece +:+ String c EmptyString) s'
      end
  end.

Definition split_sentences (s : string) : list string :=
  split_sentences_from (InPiece false) EmptyString s.

Definition newline : string := String (ascii_of_nat 10) EmptyString.

End Py.

(** ** Data model *)

(** A raised Python exception; [str_exn] is [str(e)]. *)
Inductive Exn := Exception (msg : string).

Definition str_exn (e : Exn) : string :=
  match e with Exception msg => msg end.

(** One entry of [st.session_state.conversation]. *)
Record Message := mkMessage {
  role : string;
  content : string;
  lang : option string
}.

Inductive HealthIntent := SYMPTOM_QUERY | OTHER_INTENT (name : string).

Record Entity := mkEntity { text : string; entity_type : string }.

Record NLUResult := mkNLUResult {
  intent : HealthIntent;
  is_emergency : bool;
  entities : list Entity
}.

(** What [get_next_question] returns when a question is left. *)
Record Question := mkQuestion { question : string; symptom_name : string }.

(** One entry of [st.session_state.follow_up_answers]. *)
Record FollowUpAnswer := mkFollowUpAnswer {
  answered_symptom_name : string;
  answered_question : string;
  answer : string
}.

(** The value under ['recommended_next_steps']: a list, a string, or
    something else. *)
Inductive NextSteps :=
| StepsList (steps : list string)
| StepsText (steps : string)
| StepsOther.

(** The assessment dictionary; [None] is a missing key. *)
Record Assessment := mkAssessment {
  assessment_summary : option string;
  suggested_severity : option string;
  recommended_next_steps : option NextSteps;
  potential_warnings : option (list string);
  relevant_kb_triage_points : option (list string);
  disclaimer : option string
}.

Record SttResult := mkSttResult {
  transcription : string;
  language_detected : string
}.

Record SupabaseSession := mkSupabaseSession {
  user_id : option string;
  access_token : string;
  refresh_token : string
}.

Record Chat := mkChat { chat_id : string; chat_title : option string }.

Record JournalEntry := mkJournalEntry {
  journal_title : string;
  journal_content : string;
  journal_datetime : string
}.

(** Stages named in the source; idle is [None]. *)
Inductive VoiceStage := arming | recording | transcribing | processing_stt.

(** The payload handed to the response generator. *)
Record SessionContext := mkSessionContext {
  ctx_extracted_symptoms : list string;
  ctx_follow_up_answers : list FollowUpAnswer;
  ctx_last_advice_given : string;
  ctx_user_profile : option (gmap string string);
  ctx_user_memory : option (gmap string string);
  ctx_past_messages : list Message
}.

(** Calls that leave the orchestrator, in the order they are made. *)
Inductive Event :=
| EvProcessTranscription (text lang : string)
| EvGenerateResponse (text : string)
| EvTranslateText (text lang : string)
| EvTranslateTextToEnglish (text : string)
| EvTranscribeAudio (lang : string)
| EvSfRead
| EvGetCleanedAudio
| EvSymptomChecker
| EvPrepareFollowUpQuestions
| EvGetNextQuestion
| EvRecordAnswer (symptom question answer : string)
| EvGeneratePreliminaryAssessment
| EvChatCreate (title : string)
| EvChatsList
| EvMessageInsert (cid role content : string)
| EvUserMemoryUpsert (key value : string)
| EvGetRecentMessages
| EvUserMemoryGetAll
| EvUserProfileGet
| EvUserProfileUpsert
| EvMessagesList (cid : string)
| EvAuthSetSession
| EvAuthSignOut
| EvStError (msg : string)
| EvStWarning (msg : string)
| EvStRerun.

Section Orchestrator.

(** [W] is the state of everything outside the session (remote services,
    database); [Checker] the state of a symptom-checker object; [Samples]
    a decoded audio array. *)
Context {W Checker Samples : Type}.

(** ** The session state store *)

Record Session := mkSession {
  conversation : list Message;
  current_language_display : string;
  current_language_code : string;
  text_query_input_area : string;
  symptom_checker_active : bool;
  symptom_checker_instance : option Checker;
  pending_symptom_question_data : option Question;
  voice_input_stage : option VoiceStage;
  captured_audio_data : option (list Byte.byte);
  cleaned_audio_data : option Samples;
  captured_audio_sample_rate : Z;
  extracted_symptoms : list string;
  follow_up_answers : list FollowUpAnswer;
  last_advice_given : string;
  user_profile : gmap string string;
  supabase_session : option SupabaseSession;
  chat_list : list Chat;
  current_chat_id : option string;
  persistent_memory : gmap string string;
  journal_entries : list JournalEntry
}.

Definition set_conversation (v : list Message) (s : Session) : Session :=
  mkSession v (current_language_display s) (current_language_code s)
    (text_query_input_area s) (symptom_checker_active s)
    (symptom_checker_instance s) (pending_symptom_question_data s)
    (voice_input_stage s) (captured_audio_data s) (cleaned_audio_data s)
    (captured_audio_sample_rate s) (extracted_symptoms s)
    (follow_up_answers s) (last_advice_given s) (user_profile s)
    (supabase_session s) (chat_list s) (current_chat_id s)
    (persistent_memory s) (journal_entries s).
Definition set_current_language_display (v : string) (s : Session) : Session :=
  mkSession (conversation s) v (current_language_code s)
    (text_query_input_area s) (symptom_checker_active s)
    (symptom_checker_instance s) (pending_symptom_question_data s)
    (voice_input_stage s) (captured_audio_data s) (cleaned_audio_data s)
    (captured_audio_sample_rate s) (extracted_symptoms s)
    (follow_up_answers s) (last_advice_given s) (user_profile s)
    (supabase_session s) (chat_list s) (current_chat_id s)
    (persistent_memory s) (journal_entries s).
Definition set_current_language_code (v : string) (s : Session) : Session :=
  mkSession (conversation s) (current_language_display s) v
    (text_query_input_area s) (symptom_checker_active s)
    (symptom_checker_instance s) (pending_symptom_question_data s)
    (voice_input_stage s) (captured_audio_data s) (cleaned_audio_data s)
    (captured_audio_sample_rate s) (extracted_symptoms s)
    (follow_up_answers s) (last_advice_given s) (user_profile s)
    (supabase_session s) (chat_list s) (current_chat_id s)
    (persistent_memory s) (journal_entries s).
Definition set_text_query_input_area (v : string) (s : Session) : Session :=
  mkSession (conversation s) (current_language_display s)
    (current_language_code s) v (symptom_checker_active s)
    (symptom_checker_instance s) (pending_symptom_question_data s)
    (voice_input_stage s) (captured_audio_data s) (cleaned_audio_data s)
    (captured_audio_sample_rate s) (extracted_symptoms s)
    (follow_up_answers s) (last_advice_given s) (user_profile s)
    (supabase_session s) (chat_list s) (current_chat_id s)
    (persistent_memory s) (journal_entries s).
Definition set_symptom_checker_active (v : bool) (s : Session) : Session :=
  mkSession (conversation s) (current_language_display s)
    (current_language_code s) (text_query_input_area s) v
    (symptom_checker_instance s) (pending_symptom_question_data s)
    (voice_input_stage s) (captured_audio_data s) (cleaned_audio_data s)
    (captured_audio_sample_rate s) (extracted_symptoms s)
    (follow_up_answers s) (last_advice_given s) (user_profile s)
    (supabase_session s) (chat_list s) (current_chat_id s)
    (persistent_memory s) (journal_entries s).
Definition set_symptom_checker_instance (v : option Checker) (s : Session) : Session :=
  mkSession (conversation s) (current_language_display s)
    (current_language_code s) (text_query_input_area s)
    (symptom_checker_active s) v (pending_symptom_question_data s)
    (voice_input_stage s) (captured_audio_data s) (cleaned_audio_data s)
    (captured_audio_sample_rate s) (extracted_symptoms s)
    (follow_up_answers s) (last_advice_given s) (user_profile s)
    (supabase_session s) (chat_list s) (current_chat_id s)
    (persistent_memory s) (journal_entries s).
Definition set_pending_symptom_question_data (v : option Question) (s : Session) : Session :=
  mkSession (conversation s) (current_language_display s)
    (current_language_code s) (text_query_input_area s)
    (symptom_checker_active s) (symptom_checker_instance s) v
    (voice_input_stage s) (captured_audio_data s) (cleaned_audio_data s)
    (captured_audio_sample_rate s) (extracted_symptoms s)
    (follow_up_answers s) (last_advice_given s) (user_profile s)
    (supabase_session s) (chat_list s) (current_chat_id s)
    (persistent_memory s) (journal_entries s).
Definition set_voice_input_stage (v : option VoiceStage) (s : Session) : Session :=
  mkSession (conversation s) (current_language_display s)
    (current_language_code s) (text_query_input_area s)
    (symptom_checker_active s) (symptom_checker_instance s)
    (pending_symptom_question_data s) v (captured_audio_data s)
    (cleaned_audio_data s) (captured_audio_sample_rate s)
    (extracted_symptoms s) (follow_up_answers s) (last_advice_given s)
    (user_profile s) (supabase_session s) (chat_list s) (current_chat_id s)
    (persistent_memory s) (journal_entries s).
Definition set_captured_audio_data (v : option (list Byte.byte)) (s : Session) : Session :=
  mkSession (conversation s) (current_language_display s)
    (current_language_code s) (text_query_input_area s)
    (symptom_checker_active s) (symptom_checker_instance s)
    (pending_symptom_question_data s) (voice_input_stage s) v
    (cleaned_audio_data s) (captured_audio_sample_rate s)
    (extracted_symptoms s) (follow_up_answers s) (last_advice_given s)
    (user_profile s) (supabase_session s) (chat_list s) (current_chat_id s)
    (persistent_memory s) (journal_entries s).
Definition set_cleaned_audio_data (v : option Samples) (s : Session) : Session :=
  mkSession (conversation s) (current_language_display s)
    (current_language_code s) (text_query_input_area s)
    (symptom_checker_active s) (symptom_checker_instance s)
    (pending_symptom_question_data s) (voice_input_stage s)
    (captured_audio_data s) v (captured_audio_sample_rate s)
    (extracted_symptoms s) (follow_up_answers s) (last_advice_given s)
    (user_profile s) (supabase_session s) (chat_list s) (current_chat_id s)
    (persistent_memory s) (journal_entries s).
Definition set_captured_audio_sample_rate (v : Z) (s : Session) : Session :=
  mkSession (conversation s) (current_language_display s)
    (current_language_code s) (text_query_input_area s)
    (symptom_checker_active s) (symptom_checker_instance s)
    (pending_symptom_question_data s) (voice_input_stage s)
    (captured_audio_data s) (cleaned_audio_data s) v (extracted_symptoms s)
    (follow_up_answers s) (last_advice_given s) (user_profile s)
    (supabase_session s) (chat_list s) (current_chat_id s)
    (persistent_memory s) (journal_entries s).
Definition set_extracted_symptoms (v : list string) (s : Session) : Session :=
  mkSession (conversation s) (current_language_display s)
    (current_language_code s) (text_query_input_area s)
    (symptom_checker_active s) (symptom_checker_instance s)
    (pending_symptom_question_data s) (voice_input_stage s)
    (captured_audio_data s) (cleaned_audio_data s)
    (captured_audio_sample_rate s) v (follow_up_answers s)
    (last_advice_given s) (user_profile s) (supabase_session s) (chat_list s)
    (current_chat_id s) (persistent_memory s) (journal_entries s).
Definition set_follow_up_answers (v : list FollowUpAnswer) (s : Session) : Session :=
  mkSession (conversation s) (current_language_display s)
    (current_language_code s) (text_query_input_area s)
    (symptom_checker_active s) (symptom_checker_instance s)
    (pending_symptom_question_data s) (voice_input_stage s)
    (captured_audio_data s) (cleaned_audio_data s)
    (captured_audio_sample_rate s) (extracted_symptoms s) v
    (last_advice_given s) (user_profile s) (supabase_session s) (chat_list s)
    (current_chat_id s) (persistent_memory s) (journal_entries s).
Definition set_last_advice_given (v : string) (s : Session) : Session :=
  mkSession (conversation s) (current_language_display s)
    (current_language_code s) (text_query_input_area s)
    (symptom_checker_active s) (symptom_checker_instance s)
    (pending_symptom_question_data s) (voice_input_stage s)
    (captured_audio_data s) (cleaned_audio_data s)
    (captured_audio_sample_rate s) (extracted_symptoms s)
    (follow_up_answers s) v (user_profile s) (supabase_session s)
    (chat_list s) (current_chat_id s) (persistent_memory s)
    (journal_entries s).
Definition set_user_profile (v : gmap string string) (s : Session) : Session :=
  mkSession (conversation s) (current_language_display s)
    (current_language_code s) (text_query_input_area s)
    (symptom_checker_active s) (symptom_checker_instance s)
    (pending_symptom_question_data s) (voice_input_stage s)
    (captured_audio_data s) (cleaned_audio_data s)
    (captured_audio_sample_rate s) (extracted_symptoms s)
    (follow_up_answers s) (last_advice_given s) v (supabase_session s)
    (chat_list s) (current_chat_id s) (persistent_memory s)
    (journal_entries s).
Definition set_supabase_session (v : option SupabaseSession) (s : Session) : Session :=
  mkSession (conversation s) (current_language_display s)
    (current_language_code s) (text_query_input_area s)
    (symptom_checker_active s) (symptom_checker_instance s)
    (pending_symptom_question_data s) (voice_input_stage s)
    (captured_audio_data s) (cleaned_audio_data s)
    (captured_audio_sample_rate s) (extracted_symptoms s)
    (follow_up_answers s) (last_advice_given s) (user_profile s) v
    (chat_list s) (current_chat_id s) (persistent_memory s)
    (journal_entries s).
Definition set_chat_list (v : list Chat) (s : Session) : Session :=
  mkSession (conversation s) (current_language_display s)
    (current_language_code s) (text_query_input_area s)
    (symptom_checker_active s) (symptom_checker_instance s)
    (pending_symptom_question_data s) (voice_input_stage s)
    (captured_audio_data s) (cleaned_audio_data s)
    (captured_audio_sample_rate s) (extracted_symptoms s)
    (follow_up_answers s) (last_advice_given s) (user_profile s)
    (supabase_session s) v (current_chat_id s) (persistent_memory s)
    (journal_entries s).
Definition set_current_chat_id (v : option string) (s : Session) : Session :=
  mkSession (conversation s) (current_language_display s)
    (current_language_code s) (text_query_input_area s)
    (symptom_checker_active s) (symptom_checker_instance s)
    (pending_symptom_question_data s) (voice_input_stage s)
    (captured_audio_data s) (cleaned_audio_data s)
    (captured_audio_sample_rate s) (extracted_symptoms s)
    (follow_up_answers s) (last_advice_given s) (user_profile s)
    (supabase_session s) (chat_list s) v (persistent_memory s)
    (journal_entries s).
Definition set_persistent_memory (v : gmap string string) (s : Session) : Session :=
  mkSession (conversation s) (current_language_display s)
    (current_language_code s) (text_query_input_area s)
    (symptom_checker_active s) (symptom_checker_instance s)
    (pending_symptom_question_data s) (voice_input_stage s)
    (captured_audio_data s) (cleaned_audio_data s)
    (captured_audio_sample_rate s) (extracted_symptoms s)
    (follow_up_answers s) (last_advice_given s) (user_profile s)
    (supabase_session s) (chat_list s) (current_chat_id s) v
    (journal_entries s).
Definition set_journal_entries (v : list JournalEntry) (s : Session) : Session :=
  mkSession (conversation s) (current_language_display s)
    (current_language_code s) (text_query_input_area s)
    (symptom_checker_active s) (symptom_checker_instance s)
    (pending_symptom_question_data s) (voice_input_stage s)
    (captured_audio_data s) (cleaned_audio_data s)
    (captured_audio_sample_rate s) (extracted_symptoms s)
    (follow_up_answers s) (last_advice_given s) (user_profile s)
    (supabase_session s) (chat_list s) (current_chat_id s)
    (persistent_memory s) v.


Definition initial_session : Session :=
  mkSession [] "English" "en-IN" EmptyString false None None None None None
    48000%Z [] [] EmptyString ∅ None [] None ∅ [].

(** ** Collaborators *)

(** A call to a stateless collaborator: it may raise, and it may change the
    outside world. *)
Definition Ext (A : Type) : Type := W -> (Exn + A) * W.

(** A method of the symptom-checker object: it may also change the object,
    whether or not it raises. *)
Definition Method (A : Type) : Type := Checker -> W -> (Exn + A) * Checker * W.

(** What [ui.py] imports. [SARVAM_API_KEY] is the module-level constant;
    [is_supabase_configured] only reads the configuration; [json_dumps] is
    [json.dumps(assessment, indent=2)], which raises on a payload it cannot
    serialize; every other entry is a remote or stateful service. The cached
    service objects ([_get_nlu_processor] and the like) are taken to be
    constructed without error. *)
Record Env := mkEnv {
  SARVAM_API_KEY : string;
  is_supabase_configured : W -> bool;
  process_transcription : string -> string -> Ext NLUResult;
  generate_response : string -> NLUResult -> SessionContext -> Ext string;
  translate_text : string -> string -> Ext string;
  translate_text_to_english : string -> Ext string;
  transcribe_audio : Samples -> Z -> string -> Ext SttResult;
  sf_read : list Byte.byte -> Ext (Samples * Z);
  get_cleaned_audio : Samples -> Z -> Ext (Samples * Z);
  SymptomChecker : NLUResult -> string -> Ext Checker;
  prepare_follow_up_questions : Method unit;
  get_next_question : Method (option Question);
  record_answer : string -> string -> string -> Method unit;
  generate_preliminary_assessment : Method Assessment;
  collected_symptom_details : Checker -> list string;
  json_dumps : Assessment -> Exn + string;
  chat_create : option string -> string -> Ext (option string);
  chats_list : option string -> Ext (list Chat);
  messages_list : string -> Ext (list Message);
  message_insert : string -> string -> string -> Ext bool;
  user_memory_upsert : option string -> string -> string -> Ext bool;
  get_recent_messages_from_other_chats :
    option string -> string -> nat -> Ext (list Message);
  user_memory_get_all : option string -> Ext (gmap string string);
  user_profile_get : option string -> Ext (option (gmap string string));
  user_profile_upsert : option string -> gmap string string -> Ext bool;
  auth_set_session_from_tokens : string -> string -> Ext unit;
  auth_sign_out : Ext unit
}.

(** ** The execution monad: session state, outside world, exceptions *)

Record World := mkWorld { sess : Session; ext : W; calls : list Event }.

(** A Python statement either completes or raises; the mutations made so
    far persist in both cases. *)
Inductive Outcome (A : Type) :=
| Ok (a : A) (w : World)
| Raised (e : Exn) (w : World).
Arguments Ok {A} a w.
Arguments Raised {A} e w.

Definition M (A : Type) : Type := World -> Outcome A.

Definition final {A} (o : Outcome A) : World :=
  match o with Ok _ w => w | Raised _ w => w end.

Definition ret {A} (a : A) : M A := fun w => Ok a w.

Definition bind {A B} (m : M A) (k : A -> M B) : M B :=
  fun w => match m w with
           | Ok a w' => k a w'
           | Raised e w' => Raised e w'
           end.

Definition raise {A} (e : Exn) : M A := fun w => Raised e w.

(** [try: body / except Exception as e: handler e] *)
Definition try_except {A} (body : M A) (handler : Exn -> M A) : M A :=
  fun w => match body w with
           | Ok a w' => Ok a w'
           | Raised e w' => handler e w'
           end.

(** [try: body / finally: cleanup] *)
Definition try_finally {A} (body : M A) (cleanup : M unit) : M A :=
  fun w => match body w with
           | Ok a w' =>
               match cleanup w' with
               | Ok _ w'' => Ok a w''
               | Raised e w'' => Raised e w''
               end
           | Raised e w' =>
               match cleanup w' with
               | Ok _ w'' => Raised e w''
               | Raised e' w'' => Raised e' w''
               end
           end.

Definition get_state {A} (f : Session -> A) : M A := fun w => Ok (f (sess w)) w.

Definition assign (f : Session -> Session) : M unit :=
  fun w => Ok tt (mkWorld (f (sess w)) (ext w) (calls w)).

Definition read_world {A} (f : W -> A) : M A := fun w => Ok (f (ext w)) w.

Definition emit (ev : Event) : M unit :=
  fun w => Ok tt (mkWorld (sess w) (ext w) (calls w ++ [ev])).

Definition call {A} (ev : Event) (op : Ext A) : M A :=
  fun w =>
    let '(r, x) := op (ext w) in
    let w' := mkWorld (sess w) x (calls w ++ [ev]) in
    match r with
    | inl e => Raised e w'
    | inr a => Ok a w'
    end.

(** A method call on [st.session_state.symptom_checker_instance]; on [None]
    Python raises AttributeError. The object is shared, so its new state is
    what the session holds afterwards. *)
Definition call_instance {A} (ev : Event) (op : Method A) : M A :=
  fun w =>
    match symptom_checker_instance (sess w) with
    | None => Raised (Exception "'NoneType' object has no attribute") w
    | Some c =>
        let '(r, c', x) := op c (ext w) in
        let w' := mkWorld (set_symptom_checker_instance (Some c') (sess w)) x
                    (calls w ++ [ev]) in
        match r with
        | inl e => Raised e w'
        | inr a => Ok a w'
        end
    end.

Notation "x <- m ;; k" := (bind m (fun x => k))
  (at level 100, m at next level, right associativity).
Notation "m ;; k" := (bind m (fun _ => k))
  (at level 100, right associativity).

Variable E : Env.

(** ** Helper functions of the source *)

Definition st_error (msg : string) : M unit := emit (EvStError msg).
Definition st_warning (msg : string) : M unit := emit (EvStWarning msg).
Definition st_rerun : M unit := emit EvStRerun.

(** [_get_nlu_processor], [_get_response_generator], [_get_utils]: [None]
    when the key is empty, the cached service otherwise. *)
Definition _get_nlu_processor (api_key : string) : option unit :=
  if negb (Py.truthy api_key) then None else Some tt.
Definition _get_response_generator (api_key : string) : option unit :=
  if negb (Py.truthy api_key) then None else Some tt.
Definition _get_utils (api_key : string) : option unit :=
  if negb (Py.truthy api_key) then None else Some tt.

(** A method call on [util = _get_utils(SARVAM_API_KEY)]. *)
Definition util_call {A} (ev : Event) (op : Ext A) : M A :=
  match _get_utils (SARVAM_API_KEY E) with
  | None => raise (Exception "'NoneType' object has no attribute")
  | Some _ => call ev op
  end.

Definition util_translate_text (t target : string) : M string :=
  util_call (EvTranslateText t target) (translate_text E t target).

Definition util_translate_text_to_english (t : string) : M string :=
  util_call (EvTranslateTextToEnglish t) (translate_text_to_english E t).

(** The dictionary built by [add_message_to_conversation]: the language tag
    is kept only on user messages, and only when it is non-empty. *)
Definition new_message
  (role : string) (content : string) (lang_code : option string) : Message :=
  match lang_code with
  | Some l =>
      if Py.truthy l && String.eqb role "user"
      then mkMessage role content (Some l)
      else mkMessage role content None
  | None => mkMessage role content None
  end.

Definition add_message_to_conversation
  (role : string) (content : string) (lang_code : option string) : M unit :=
  assign (fun s => set_conversation
                     (conversation s ++ [new_message role content lang_code]) s).

(** [bool(cid)] for a chat id that may be [None]. *)
Definition truthy_id (cid : option string) : bool :=
  match cid with Some c => Py.truthy c | None => false end.

Definition _persist_message_to_db (role content : string) : M unit :=
  configured <- read_world (is_supabase_configured E) ;;
  session <- get_state supabase_session ;;
  match configured, session with
  | true, Some sb =>
      try_except
        (let uid := user_id sb in
         cid0 <- get_state current_chat_id ;;
         cid <- match cid0 with
                | None =>
                    let title :=
                      if (50 <? String.length content)%nat
                      then Py.slice_to 50 content +:+ "‚Ä¶"
                      else if Py.truthy content then content else "Chat" in
                    created <- call (EvChatCreate title) (chat_create E uid title) ;;
                    (if truthy_id created
                     then assign (set_current_chat_id created) ;;
                          l <- call EvChatsList (chats_list E uid) ;;
                          assign (set_chat_list l)
                     else ret tt) ;;
                    ret created
                | Some c => ret (Some c)
                end ;;
         match cid with
         | Some c =>
             if Py.truthy c
             then call (EvMessageInsert c role content)
                    (message_insert E c role content) ;;
                  ret tt
             else ret tt
         | None => ret tt
         end)
        (fun _ => ret tt)
  | _, _ => ret tt
  end.

Definition _save_health_context_to_memory : M unit :=
  configured <- read_world (is_supabase_configured E) ;;
  session <- get_state supabase_session ;;
  match configured, session with
  | true, Some sb =>
      try_except
        (let uid := user_id sb in
         symptoms <- get_state extracted_symptoms ;;
         last <- get_state last_advice_given ;;
         let advice := Py.slice_to 800 last in
         (match symptoms with
          | [] => ret tt
          | _ :: _ =>
              let val := Py.join ", " (take 20 symptoms) in
              call (EvUserMemoryUpsert "last_symptoms" val)
                (user_memory_upsert E uid "last_symptoms" val) ;;
              assign (fun s => set_persistent_memory
                                 (<["last_symptoms" := val]> (persistent_memory s)) s)
          end) ;;
         (if Py.truthy advice
          then call (EvUserMemoryUpsert "last_advice" advice)
                 (user_memory_upsert E uid "last_advice" advice) ;;
               assign (fun s => set_persistent_memory
                                  (<["last_advice" := advice]> (persistent_memory s)) s)
          else ret tt))
        (fun _ => ret tt)
  | _, _ => ret tt
  end.

(** The loop body shared by both places that add to [extracted_symptoms]:
    [if s and s not in extracted_symptoms: extracted_symptoms.append(s)]. *)
Definition append_if_new (xs : list string) (s : string) : list string :=
  if Py.truthy s && negb (bool_decide (s ∈ xs)) then xs ++ [s] else xs.

Definition record_symptoms (names : list string) : M unit :=
  assign (fun s => set_extracted_symptoms
                     (fold_left append_if_new names (extracted_symptoms s)) s).


(** ** Assessment rendering (the [try] body of [generate_and_display_assessment]) *)

(** [for item in items: assessment_str += f"- {translate(item)}\n"] *)
Fixpoint append_bullets (items : list string) (user_lang acc : string) : M string :=
  match items with
  | [] => ret acc
  | item :: rest =>
      t <- util_translate_text item user_lang ;;
      append_bullets rest user_lang (acc +:+ "- " +:+ t +:+ Py.newline)
  end.

Definition get_default (v : option string) (dflt : string) : string :=
  match v with Some x => x | None => dflt end.

Definition render_assessment (a : Assessment) (user_lang : string) : M string :=
  let nl := Py.newline in
  heading <- util_translate_text "Preliminary Health Assessment" user_lang ;;
  let s0 := "<h4> " +:+ heading +:+ ":</h4>" +:+ nl +:+ nl in
  l_summary <- util_translate_text "Summary" user_lang ;;
  v_summary <- util_translate_text (get_default (assessment_summary a) "N/A") user_lang ;;
  let s1 := s0 +:+ "**" +:+ l_summary +:+ ":** " +:+ v_summary +:+ nl +:+ nl in
  l_severity <- util_translate_text "Suggested Severity" user_lang ;;
  v_severity <- util_translate_text (get_default (suggested_severity a) "N/A") user_lang ;;
  let s2 := s1 +:+ "**" +:+ l_severity +:+ ":** " +:+ v_severity +:+ nl +:+ nl in
  l_steps <- util_translate_text "Recommended Next Steps" user_lang ;;
  let s3 := s2 +:+ "**" +:+ l_steps +:+ ":**" +:+ nl in
  let next_steps :=
    match recommended_next_steps a with
    | Some v => v
    | None => StepsText "N/A"
    end in
  s4 <- match next_steps with
        | StepsList steps => append_bullets steps user_lang s3
        | StepsText steps =>
            let sentences := Py.split_sentences (Py.strip steps) in
            let temp_steps := Py.strip (Py.join (nl +:+ "- ") sentences) in
            let temp_steps := Py.lstrip_dash_space temp_steps in
            t <- util_translate_text temp_steps user_lang ;;
            ret (s3 +:+ t +:+ nl)
        | StepsOther =>
            t <- util_translate_text "N/A" user_lang ;;
            ret (s3 +:+ "- " +:+ t +:+ nl)
        end ;;
  s5 <- match potential_warnings a with
        | Some ((_ :: _) as warnings) =>
            l_warn <- util_translate_text "Potential Warnings" user_lang ;;
            append_bullets warnings user_lang
              (s4 +:+ nl +:+ "**" +:+ l_warn +:+ ":**" +:+ nl)
        | _ => ret s4
        end ;;
  s6 <- match relevant_kb_triage_points a with
        | Some ((_ :: _) as kb_points) =>
            l_kb <- util_translate_text
                      "Relevant Triage Points from Knowledge Base" user_lang ;;
            append_bullets kb_points user_lang
              (s5 +:+ nl +:+ "**" +:+ l_kb +:+ ":**" +:+ nl)
        | _ => ret s5
        end ;;
  l_disclaimer <- util_translate_text "Disclaimer" user_lang ;;
  v_disclaimer <- util_translate_text
                    (get_default (disclaimer a)
                       "Always consult a doctor for medical advice.") user_lang ;;
  ret (s6 +:+ nl +:+ nl +:+ "**" +:+ l_disclaimer +:+ ":** " +:+ v_disclaimer).

(** ** The follow-up loop and the turn router *)

Definition clear_symptom_session (s : Session) : Session :=
  set_pending_symptom_question_data None
    (set_symptom_checker_instance None
       (set_symptom_checker_active false s)).

Definition generate_and_display_assessment : M unit :=
  user_lang <- get_state current_language_code ;;
  instance <- get_state symptom_checker_instance ;;
  match instance with
  | Some _ =>
      assessment <- call_instance EvGeneratePreliminaryAssessment
                      (generate_preliminary_assessment E) ;;
      sc <- get_state symptom_checker_instance ;;
      record_symptoms
        (match sc with
         | Some c => collected_symptom_details E c
         | None => []
         end) ;;
      try_except
        (assessment_str <- render_assessment assessment user_lang ;;
         add_message_to_conversation "assistant" assessment_str None ;;
         _persist_message_to_db "assistant" assessment_str ;;
         let summary := get_default (assessment_summary assessment) EmptyString in
         _save_health_context_to_memory ;;
         assign (set_last_advice_given
                   (Py.slice_to 800
                      (if Py.truthy summary then summary
                       else Py.slice_to 800 assessment_str))))
        (fun e =>
           st_error ("Error formatting assessment: " +:+ str_exn e) ;;
           try_except
             (raw_assessment_json <-
                match json_dumps E assessment with
                | inr raw => ret raw
                | inl json_e => raise json_e
                end ;;
              add_message_to_conversation "assistant"
                ("Could not format assessment. Raw data:" +:+ Py.newline
                 +:+ "```json" +:+ Py.newline +:+ raw_assessment_json
                 +:+ Py.newline +:+ "```") None ;;
              _persist_message_to_db "assistant"
                (Py.slice_to 2000 raw_assessment_json))
             (fun json_e =>
                add_message_to_conversation "assistant"
                  ("Could not format or serialize assessment: "
                   +:+ str_exn json_e) None ;;
                _persist_message_to_db "assistant"
                  (Py.slice_to 500 (str_exn json_e)))) ;;
      assign clear_symptom_session
  | None => ret tt
  end ;;
  assign (set_voice_input_stage None).

Definition is_symptom_query (i : HealthIntent) : bool :=
  match i with SYMPTOM_QUERY => true | OTHER_INTENT _ => false end.

(** The two statements shared by both places that deliver a follow-up
    question; the text path and the follow-up path join the two translated
    parts in opposite orders. *)
Definition translate_question (q : Question) (user_lang : string)
  : M (string * string) :=
  question_to_ask_translated <- util_translate_text (question q) user_lang ;;
  symptom_context_translated <- util_translate_text (symptom_name q) user_lang ;;
  ret (question_to_ask_translated, symptom_context_translated).

Definition build_session_context : M SessionContext :=
  xs <- get_state extracted_symptoms ;;
  fu <- get_state follow_up_answers ;;
  last <- get_state last_advice_given ;;
  profile <- get_state user_profile ;;
  memory <- get_state persistent_memory ;;
  configured <- read_world (is_supabase_configured E) ;;
  session <- get_state supabase_session ;;
  cid <- get_state current_chat_id ;;
  past <- match configured, session, cid with
          | true, Some sb, Some c =>
              if Py.truthy c
              then try_except
                     (call EvGetRecentMessages
                        (get_recent_messages_from_other_chats E (user_id sb) c 8))
                     (fun _ => ret [])
              else ret []
          | _, _, _ => ret []
          end ;;
  ret (mkSessionContext xs fu (Py.slice_to 800 last)
         (if bool_decide (profile = ∅) then None else Some profile)
         (if bool_decide (memory = ∅) then None else Some memory)
         past).

(** The statements under [try:] in [process_and_display_response]. *)
Definition response_body (user_query_text lang_code user_lang : string) : M unit :=
  nlu_output <- call (EvProcessTranscription user_query_text lang_code)
                  (process_transcription E user_query_text lang_code) ;;
  let symptom_entities :=
    map text (filter (fun e => entity_type e = "symptom") (entities nlu_output)) in
  record_symptoms symptom_entities ;;
  if is_symptom_query (intent nlu_output) && negb (is_emergency nlu_output)
  then
    assign (set_symptom_checker_active true) ;;
    checker <- call EvSymptomChecker
                 (SymptomChecker E nlu_output (SARVAM_API_KEY E)) ;;
    assign (set_symptom_checker_instance (Some checker)) ;;
    call_instance EvPrepareFollowUpQuestions (prepare_follow_up_questions E) ;;
    next <- call_instance EvGetNextQuestion (get_next_question E) ;;
    assign (set_pending_symptom_question_data next) ;;
    match next with
    | Some q =>
        tq <- translate_question q user_lang ;;
        let msg := fst tq +:+ ": " +:+ snd tq in
        add_message_to_conversation "assistant" msg None ;;
        _persist_message_to_db "assistant" msg
    | None => generate_and_display_assessment
    end
  else
    session_context <- build_session_context ;;
    bot_response <- call (EvGenerateResponse user_query_text)
                      (generate_response E user_query_text nlu_output
                         session_context) ;;
    translated_bot_response <- util_translate_text bot_response user_lang ;;
    add_message_to_conversation "assistant" translated_bot_response None ;;
    _persist_message_to_db "assistant" translated_bot_response ;;
    assign (set_last_advice_given (Py.slice_to 800 translated_bot_response)) ;;
    assign (set_symptom_checker_active false) ;;
    _save_health_context_to_memory.

Definition response_error_notice : string :=
  "Sorry, an error occurred while processing your request. Please try rephrasing or try again later.".

(** The statements under [except Exception as e:]. *)
Definition response_handler (e : Exn) : M unit :=
  st_error "Something went wrong while processing your message. Please try again or rephrase your question." ;;
  add_message_to_conversation "system" response_error_notice None ;;
  assign clear_symptom_session.

Definition process_and_display_response (user_query_text lang_code : string)
  : M unit :=
  if negb (Py.truthy (SARVAM_API_KEY E)) then
    st_error "API Key not configured." ;;
    add_message_to_conversation "system" "Error: API Key not configured." None ;;
    assign (set_voice_input_stage None)
  else
    match _get_nlu_processor (SARVAM_API_KEY E),
          _get_response_generator (SARVAM_API_KEY E),
          _get_utils (SARVAM_API_KEY E) with
    | Some _, Some _, Some _ =>
        user_lang <- get_state current_language_code ;;
        try_finally
          (try_except
             (response_body user_query_text lang_code user_lang)
             response_handler)
          (assign (set_voice_input_stage None))
    | _, _, _ =>
        st_error "Could not initialize services. Please check API key." ;;
        assign (set_voice_input_stage None)
    end.

Definition handle_follow_up_answer (answer_text : string) : M unit :=
  user_lang <- get_state current_language_code ;;
  instance <- get_state symptom_checker_instance ;;
  pending <- get_state pending_symptom_question_data ;;
  match instance, pending with
  | Some _, Some p =>
      add_message_to_conversation "user" answer_text
        (Some (Py.before_dash user_lang)) ;;
      _persist_message_to_db "user" answer_text ;;
      let question_asked := question p in
      let symptom := symptom_name p in
      assign (fun s => set_follow_up_answers
                         (follow_up_answers s
                          ++ [mkFollowUpAnswer symptom question_asked answer_text]) s) ;;
      call_instance (EvRecordAnswer symptom question_asked answer_text)
        (record_answer E symptom question_asked answer_text) ;;
      next <- call_instance EvGetNextQuestion (get_next_question E) ;;
      assign (set_pending_symptom_question_data next) ;;
      match next with
      | Some q =>
          tq <- translate_question q user_lang ;;
          let msg := snd tq +:+ ": " +:+ fst tq in
          add_message_to_conversation "assistant" msg None ;;
          _persist_message_to_db "assistant" msg
      | None => generate_and_display_assessment
      end
  | _, _ =>
      st_warning "No pending question to answer or symptom checker not active." ;;
      assign (set_symptom_checker_active false)
  end ;;
  assign (set_voice_input_stage None).

(** Whether the router takes the follow-up path:
    [symptom_checker_active and pending_symptom_question_data]. *)
Definition follow_up_pending (s : Session) : bool :=
  symptom_checker_active s && bool_decide (is_Some (pending_symptom_question_data s)).

Definition handle_text_submission : M unit :=
  raw <- get_state text_query_input_area ;;
  let user_input := Py.strip raw in
  current_lang_code <- get_state current_language_code ;;
  if negb (Py.truthy user_input) then ret tt
  else
    route_follow_up <- get_state follow_up_pending ;;
    (if route_follow_up
     then handle_follow_up_answer user_input
     else
       add_message_to_conversation "user" user_input
         (Some (Py.before_dash current_lang_code)) ;;
       _persist_message_to_db "user" user_input ;;
       active <- get_state symptom_checker_active ;;
       (if active then assign clear_symptom_session else ret tt) ;;
       process_and_display_response user_input current_lang_code) ;;
    assign (set_text_query_input_area EmptyString).


(** ** The voice pipeline (the two blocks of [main_ui] after the handlers) *)

(** [if st.session_state.captured_audio_data is not None: ...] *)
Definition capture_and_clean : M unit :=
  captured <- get_state captured_audio_data ;;
  match captured with
  | Some bytes =>
      decoded <- call EvSfRead (sf_read E bytes) ;;
      cleaned <- call EvGetCleanedAudio
                   (get_cleaned_audio E (fst decoded) (snd decoded)) ;;
      assign (set_cleaned_audio_data (Some (fst cleaned))) ;;
      assign (set_captured_audio_sample_rate (snd cleaned)) ;;
      assign (set_voice_input_stage (Some processing_stt))
  | None => ret tt
  end.

(** Lines 1182-1190: transcribe, then translate when the detected language
    differs from the session language. *)
Definition transcribed_text (audio : Samples) (lang_for_stt : string) : M string :=
  sample_rate <- get_state captured_audio_sample_rate ;;
  stt_result <- util_call (EvTranscribeAudio lang_for_stt)
                  (transcribe_audio E audio sample_rate lang_for_stt) ;;
  let t := transcription stt_result in
  if negb (String.eqb lang_for_stt (language_detected stt_result)) then
    if String.eqb lang_for_stt "en-IN"
    then util_translate_text_to_english t
    else util_translate_text t lang_for_stt
  else ret t.

Definition stt_failed_message : string :=
  "‚ö†Ô∏è STT failed to transcribe audio or returned empty. Please try again.".

(** [if st.session_state.voice_input_stage == "processing_stt": ...] *)
Definition process_stt : M unit :=
  stage <- get_state voice_input_stage ;;
  match stage with
  | Some processing_stt =>
      cleaned <- get_state cleaned_audio_data ;;
      match cleaned with
      | Some audio =>
          lang_for_stt <- get_state current_language_code ;;
          try_except
            (t <- transcribed_text audio lang_for_stt ;;
             if Py.truthy t && Py.truthy (Py.strip t)
             then
               add_message_to_conversation "user" t
                 (Some (Py.before_dash lang_for_stt)) ;;
               _persist_message_to_db "user" t ;;
               process_and_display_response t lang_for_stt
             else
               add_message_to_conversation "system" stt_failed_message None)
            (fun e =>
               st_error ("STT Error: " +:+ str_exn e) ;;
               add_message_to_conversation "system"
                 ("Sorry, an error occurred during voice transcription. Please try again. (Details: "
                  +:+ str_exn e +:+ ")") None) ;;
          assign (set_captured_audio_data None) ;;
          assign (set_cleaned_audio_data None) ;;
          assign (set_voice_input_stage None) ;;
          st_rerun
      | None =>
          assign (set_voice_input_stage None) ;;
          st_rerun
      end
  | _ => ret tt
  end.

Definition voice_pipeline : M unit := capture_and_clean ;; process_stt.

(** ** The other session-state writers of [main_ui] *)

Definition LANGUAGE_MAP : list (string * string) :=
  [("English", "en-IN");
   ("‡§π‡§ø‡§®‡•ç‡§¶‡•Ä (Hindi)", "hi-IN");
   ("‡¶¨‡¶æ‡¶Ç‡¶≤‡¶æ (Bengali)", "bn-IN");
   ("‡§Æ‡§∞‡§æ‡§†‡•Ä (Marathi)", "mr-IN");
   ("‡≤ï‡≤®‡≥ç‡≤®‡≤° (Kannada)", "kn-IN");
   ("‡Æ§‡ÆÆ‡Æø‡Æ¥‡Øç (Tamil)", "ta-IN");
   ("‡∞§‡±Ü‡∞≤‡±Å‡∞ó‡±Å (Telugu)", "te-IN");
   ("‡¥Æ‡¥≤‡¥Ø‡¥æ‡¥≥‡¥Ç (Malayalam)", "ml-IN")].

Fixpoint language_code (display : string) (m : list (string * string))
  : option string :=
  match m with
  | [] => None
  | (k, v) :: rest => if String.eqb k display then Some v else language_code display rest
  end.

(** The language selector block (lines 854-867). *)
Definition language_change (selected_lang_display : string) : M unit :=
  current <- get_state current_language_display ;;
  if negb (String.eqb selected_lang_display current) then
    assign (set_current_language_display selected_lang_display) ;;
    code <- match language_code selected_lang_display LANGUAGE_MAP with
            | Some c => ret c
            | None => raise (Exception "KeyError")
            end ;;
    assign (set_current_language_code code) ;;
    assign (set_conversation []) ;;
    assign clear_symptom_session ;;
    assign (set_voice_input_stage None) ;;
    assign (set_extracted_symptoms []) ;;
    assign (set_follow_up_answers []) ;;
    assign (set_last_advice_given EmptyString) ;;
    assign (set_user_profile ∅) ;;
    st_rerun
  else ret tt.

(** The "clear session" button of the settings page. *)
Definition clear_session : M unit :=
  assign (set_conversation []) ;;
  assign (set_journal_entries []) ;;
  assign (set_extracted_symptoms []) ;;
  assign (set_follow_up_answers []) ;;
  assign (set_last_advice_given EmptyString) ;;
  assign (set_user_profile ∅) ;;
  assign clear_symptom_session ;;
  st_rerun.

(** The block that reloads chats, memory and profile of a signed-in user at
    the start of every run (lines 764-778). *)
Definition login_refresh : M unit :=
  configured <- read_world (is_supabase_configured E) ;;
  session <- get_state supabase_session ;;
  match configured, session with
  | true, Some sb =>
      call EvAuthSetSession
        (auth_set_session_from_tokens E (access_token sb) (refresh_token sb)) ;;
      try_except
        (let uid := user_id sb in
         if truthy_id uid then
           l <- call EvChatsList (chats_list E uid) ;;
           assign (set_chat_list l) ;;
           memory <- call EvUserMemoryGetAll (user_memory_get_all E uid) ;;
           assign (set_persistent_memory memory) ;;
           loaded <- call EvUserProfileGet (user_profile_get E uid) ;;
           assign (set_user_profile
                     (match loaded with Some p => p | None => ∅ end))
         else ret tt)
        (fun _ => ret tt)
  | _, _ => ret tt
  end.

Definition new_chat : M unit :=
  assign (set_current_chat_id None) ;;
  assign (set_conversation []) ;;
  st_rerun.

Definition open_chat (c : Chat) : M unit :=
  try_except
    (msgs <- call (EvMessagesList (chat_id c)) (messages_list E (chat_id c)) ;;
     assign (set_conversation
               (map (fun m => mkMessage (role m) (content m) None) msgs)) ;;
     assign (set_current_chat_id (Some (chat_id c))) ;;
     st_rerun)
    (fun _ => ret tt).

Definition sign_in (sb : SupabaseSession) : M unit :=
  assign (set_supabase_session (Some sb)) ;;
  st_rerun.

Definition logout : M unit :=
  call EvAuthSignOut (auth_sign_out E) ;;
  assign (set_supabase_session None) ;;
  assign (set_chat_list []) ;;
  assign (set_current_chat_id None) ;;
  assign (set_conversation []) ;;
  assign (set_persistent_memory ∅) ;;
  st_rerun.

Definition save_profile (profile_dict : gmap string string) : M unit :=
  assign (set_user_profile profile_dict) ;;
  configured <- read_world (is_supabase_configured E) ;;
  session <- get_state supabase_session ;;
  match configured, session with
  | true, Some sb =>
      if truthy_id (user_id sb)
      then call EvUserProfileUpsert
             (user_profile_upsert E (user_id sb) profile_dict) ;;
           st_rerun
      else st_rerun
  | _, _ => st_rerun
  end.

(** ** One user interaction *)

Inductive Action :=
| SubmitText (typed : string)
| RecordAudio (bytes : list Byte.byte)
| SelectLanguage (display : string)
| ClearSession
| NewChat
| OpenChat (c : Chat)
| SignIn (sb : SupabaseSession)
| Logout
| SaveProfile (profile_dict : gmap string string)
| Rerun.

(** What one run of the script does to the session besides drawing. *)
Definition script_run : M unit := login_refresh ;; voice_pipeline.

(** The widget effect of an interaction, followed by the run it triggers.
    An exception that escapes stops the run; the session keeps what was
    written before it. *)
Definition interaction (a : Action) : M unit :=
  match a with
  | SubmitText typed =>
      assign (set_text_query_input_area typed) ;;
      handle_text_submission ;;
      script_run
  | RecordAudio bytes =>
      assign (set_captured_audio_data (Some bytes)) ;;
      st_rerun ;;
      script_run
  | SelectLanguage display => login_refresh ;; language_change display ;; script_run
  | ClearSession => clear_session ;; script_run
  | NewChat => login_refresh ;; new_chat ;; script_run
  | OpenChat c => login_refresh ;; open_chat c ;; script_run
  | SignIn sb => sign_in sb ;; script_run
  | Logout => logout ;; script_run
  | SaveProfile p => login_refresh ;; save_profile p ;; script_run
  | Rerun => script_run
  end.

Definition step (a : Action) (w : World) : World := final (interaction a w).

Definition run_actions (actions : list Action) (w : World) : World :=
  fold_left (fun w a => step a w) actions w.

Definition initial_world (x : W) : World := mkWorld initial_session x [].

(** A world the application can be in: the initial session, any state of
    the outside world, then any interactions. *)
Definition reachable (w : World) : Prop :=
  exists x actions, w = run_actions actions (initial_world x).

End Orchestrator.

Arguments Ok {W Checker Samples A} a w.
Arguments Raised {W Checker Samples A} e w.
Arguments _persist_message_to_db : simpl never.
Arguments _save_health_context_to_memory : simpl never.
Arguments render_assessment : simpl never.
Arguments generate_and_display_assessment : simpl never.
Arguments process_and_display_response : simpl never.
Arguments response_body : simpl never.
Arguments handle_follow_up_answer : simpl never.
Arguments handle_text_submission : simpl never.
Arguments translate_question : simpl never.
Arguments transcribed_text : simpl never.
Arguments build_session_context : simpl never.
Arguments util_translate_text : simpl never.
Arguments util_translate_text_to_english : simpl never.
Arguments new_message : simpl never.

(** * Specification vocabulary *)

(** Text on which both emptiness tests of the source fail. *)
Fixpoint is_blank (s : string) : bool :=
  match s with
  | EmptyString => true
  | String c s' => Py.isspace c && is_blank s'
  end.


Section Vocabulary.

Context {W Checker Samples : Type}.

Abbreviation World := (@World W Checker Samples).
Abbreviation Session := (@Session Checker Samples).
Abbreviation M := (@M W Checker Samples).

(** A computation respects a relation between worlds when the world it
    ends in, returning or raising, is related to the one it started in. *)
Definition respects (R : World -> World -> Prop) {A} (m : M A) : Prop :=
  forall w, R w (final (m w)).

(** A computation that always returns. *)
Definition never_raises {A} (m : M A) : Prop :=
  forall w, exists a w', m w = Ok a w'.

Definition is_user (m : Message) : Prop := role m = "user".

(** The system-role messages of a conversation log. *)
Definition system_messages (log : list Message) : list Message :=
  filter (fun m => role m = "system") log.

(** The conversation only grew, and by no user-role message. *)
Definition appends_no_user (w w' : World) : Prop :=
  exists tail,
    conversation (sess w') = conversation (sess w) ++ tail
    /\ Forall (fun m => ~ is_user m) tail.

(** Exactly one user-role message, [m], was appended, before anything else
    the turn appended. *)
Definition appends_one_user (m : Message) (w w' : World) : Prop :=
  is_user m
  /\ exists tail,
      conversation (sess w') = conversation (sess w) ++ m :: tail
      /\ Forall (fun m' => ~ is_user m') tail.

(** The conversation log (and with it every message in it) is untouched. *)
Definition same_conversation (w w' : World) : Prop :=
  conversation (sess w') = conversation (sess w).

(** The session is untouched (only the outside world and the call log
    may have moved). *)
Definition same_session (w w' : World) : Prop := sess w' = sess w.

(** A pending question always comes with the checker object that asked it. *)
Definition pending_has_checker (s : Session) : Prop :=
  pending_symptom_question_data s <> None -> symptom_checker_instance s <> None.

Definition keeps_pending_has_checker (w w' : World) : Prop :=
  pending_has_checker (sess w) -> pending_has_checker (sess w').

Definition keeps_symptoms_distinct (w w' : World) : Prop :=
  NoDup (extracted_symptoms (sess w)) -> NoDup (extracted_symptoms (sess w')).

(** Symptom names were only added, at the end. *)
Definition grows_symptoms (w w' : World) : Prop :=
  extracted_symptoms (sess w) `prefix_of` extracted_symptoms (sess w').

Definition is_checker_call (ev : Event) : bool :=
  match ev with
  | EvSymptomChecker | EvPrepareFollowUpQuestions | EvGetNextQuestion
  | EvRecordAnswer _ _ _ | EvGeneratePreliminaryAssessment => true
  | _ => false
  end.

(** What translation and persistence may do on the side: the call log
    gains no call to the symptom checker, and of the session only the chat
    bookkeeping and the memory cache may differ. *)
Definition aside (w w' : World) : Prop :=
  sess w'
  = set_chat_list (chat_list (sess w'))
      (set_current_chat_id (current_chat_id (sess w'))
         (set_persistent_memory (persistent_memory (sess w')) (sess w)))
  /\ exists evs,
      calls w' = calls w ++ evs
      /\ Forall (fun ev => is_checker_call ev = false) evs.

(** The utterances handed to the NLU engine so far. *)
Fixpoint nlu_requests (log : list Event) : list string :=
  match log with
  | [] => []
  | EvProcessTranscription text _ :: rest => text :: nlu_requests rest
  | _ :: rest => nlu_requests rest
  end.

(** Number of assessments requested from the checker so far. *)
Fixpoint assessments (log : list Event) : nat :=
  match log with
  | [] => 0
  | EvGeneratePreliminaryAssessment :: rest => S (assessments rest)
  | _ :: rest => assessments rest
  end.

(** Number of answers handed to the checker so far. *)
Fixpoint answers_recorded (log : list Event) : nat :=
  match log with
  | [] => 0
  | EvRecordAnswer _ _ _ :: rest => S (answers_recorded rest)
  | _ :: rest => answers_recorded rest
  end.

(** No further answer was handed to the checker. *)
Definition records_no_answer (w w' : World) : Prop :=
  answers_recorded (calls w') = answers_recorded (calls w).

End Vocabulary.

Section AssessmentVocabulary.

Context {W Checker Samples : Type}.
Variable E : @Env W Checker Samples.

(** The world in which the assessment is rendered: the checker has produced
    it (leaving the object in state [c'] and the outside world in [x']) and
    the symptom names it collected have been merged. *)
Definition assessed (w : @World W Checker Samples) (c' : Checker) (x' : W)
  : @World W Checker Samples :=
  mkWorld
    (set_extracted_symptoms
       (fold_left append_if_new (collected_symptom_details E c')
          (extracted_symptoms (sess w)))
       (set_symptom_checker_instance (Some c') (sess w)))
    x' (calls w ++ [EvGeneratePreliminaryAssessment]).

(** The text of the assistant message for an assessment, by how rendering
    went: the rendered text, or the raw payload when rendering raised, or
    the serialization error when that raised too. *)
Definition assessment_reply (a : Assessment)
  (rendering : @Outcome W Checker Samples string) : string :=
  match rendering with
  | Ok rendered _ => rendered
  | Raised _ _ =>
      match json_dumps E a with
      | inr raw =>
          "Could not format assessment. Raw data:" +:+ Py.newline
          +:+ "```json" +:+ Py.newline +:+ raw +:+ Py.newline +:+ "```"
      | inl json_e =>
          "Could not format or serialize assessment: " +:+ str_exn json_e
      end
  end.

(** The checker in state [c], having asked [p], will take any answer to
    it and then ask the questions [rest] one by one, take any answer to
    each, report that none is left, and produce an assessment; none of
    these calls raises. *)
Fixpoint supplies (c : Checker) (p : Question) (rest : list Question) : Prop :=
  forall (a : string) (x : W),
  exists c1 x1 c2 x2,
    record_answer E (symptom_name p) (question p) a c x = (inr tt, c1, x1)
    /\ match rest with
       | [] =>
           get_next_question E c1 x1 = (inr None, c2, x2)
           /\ exists asmt c3 x3,
               generate_preliminary_assessment E c2 x2 = (inr asmt, c3, x3)
       | q :: rest' =>
           get_next_question E c1 x1 = (inr (Some q), c2, x2)
           /\ supplies c2 q rest'
       end.

(** Actions that empty [extracted_symptoms] on purpose. *)
Definition resets_symptoms (a : Action) : bool :=
  match a with
  | SelectLanguage _ | ClearSession => true
  | _ => false
  end.

(** Typing [typed] into the text area and pressing Send. *)
Definition submit (typed : string) (w : @World W Checker Samples)
  : @World W Checker Samples :=
  final (bind (assign (set_text_query_input_area typed))
           (fun _ => handle_text_submission E) w).

Definition answer_all (answers : list string) (w : @World W Checker Samples)
  : @World W Checker Samples :=
  fold_left (fun w a => submit a w) answers w.

(** What one answered round leaves behind: one more recorded answer; if
    questions remain, the session still active with the next one pending
    and no assessment requested; if none remains, one assessment requested,
    the user answer and one assistant message appended, and the symptom
    session closed. *)
Definition round_outcome (w : @World W Checker Samples) (typed : string)
  (rest : list Question) (w' : @World W Checker Samples) : Prop :=
  answers_recorded (calls w') = S (answers_recorded (calls w))
  /\ match rest with
     | [] =>
         symptom_checker_active (sess w') = false
         /\ symptom_checker_instance (sess w') = None
         /\ pending_symptom_question_data (sess w') = None
         /\ assessments (calls w') = S (assessments (calls w))
         /\ exists reply,
             conversation (sess w')
             = conversation (sess w)
               ++ [new_message "user" (Py.strip typed)
                     (Some (Py.before_dash (current_language_code (sess w))));
                   mkMessage "assistant" reply None]
     | q :: rest' =>
         symptom_checker_active (sess w') = true
         /\ pending_symptom_question_data (sess w') = Some q
         /\ assessments (calls w') = assessments (calls w)
         /\ exists c2,
             symptom_checker_instance (sess w') = Some c2
             /\ supplies c2 q rest'
     end.

End AssessmentVocabulary.

Arguments round_outcome : simpl never.

(** ** Test doubles for the collaborators

    Concrete environments on which the orchestration code can be run: the
    outside world has no state, every backend is unconfigured, translation
    is the identity. *)

Module Demo.

Definition reply {A} (a : A) : unit -> (Exn + A) * unit :=
  fun x => (inr a, x).

Definition failure {A} (msg : string) : unit -> (Exn + A) * unit :=
  fun x => (inl (Exception msg), x).

Definition fever_question : Question :=
  mkQuestion "How long have you had it?" "fever".

Definition pain_question : Question :=
  mkQuestion "Is the pain constant?" "headache".

Definition fever_assessment : Assessment :=
  mkAssessment (Some "Likely a viral fever.") (Some "Low")
    (Some (StepsText "Rest. Drink fluids."))
    None None (Some "This is not a diagnosis.").

(** The NLU double: two utterances are symptom reports, everything else is
    a general question. *)
Definition nlu (text : string) : NLUResult :=
  if String.eqb text "I have a fever"
  then mkNLUResult SYMPTOM_QUERY false [mkEntity "fever" "symptom"]
  else if String.eqb text "fever and fever again"
  then mkNLUResult SYMPTOM_QUERY false
         [mkEntity "fever" "symptom"; mkEntity "fever" "symptom"]
  else mkNLUResult (OTHER_INTENT "general_question") false [].

(** Modelled from the spec: the symptom checker ([src/symptom_checker.py] is
    not among the sources). Following its contract, the object holds the
    questions still to ask; [get_next_question] hands out the first of them
    or none; [record_answer] stores nothing the orchestrator reads and, in
    the failing double, raises. *)
Definition checker_next (c : list Question)
  : unit -> (Exn + option Question) * list Question * unit :=
  fun x => match c with
           | [] => (inr None, [], x)
           | q :: rest => (inr (Some q), rest, x)
           end.

Definition checker_record (fails : bool) (symptom question answer : string)
  (c : list Question) : unit -> (Exn + unit) * list Question * unit :=
  fun x => if fails then (inl (Exception "record_answer failed"), c, x)
           else (inr tt, c, x).

Definition translate (fails : bool) (text : string)
  : unit -> (Exn + string) * unit :=
  if fails then failure "translation unavailable" else reply text.

Definition env (questions : list Question) (record_fails translation_fails : bool)
  (stt : SttResult) : @Env unit (list Question) unit :=
  mkEnv "test-key"
    (fun _ => false)
    (fun text _ => reply (nlu text))
    (fun _ _ _ => reply "Drink water and rest.")
    (fun text _ => translate translation_fails text)
    (fun text => translate translation_fails text)
    (fun _ _ _ => reply stt)
    (fun _ => reply (tt, 48000%Z))
    (fun _ _ => reply (tt, 16000%Z))
    (fun _ _ => reply questions)
    (fun c x => (inr tt, c, x))
    checker_next
    (checker_record record_fails)
    (fun c x => (inr fever_assessment, c, x))
    (fun _ => ["fever"])
    (fun _ => inr "{}")
    (fun _ _ => reply None)
    (fun _ => reply [])
    (fun _ => reply [])
    (fun _ _ _ => reply false)
    (fun _ _ _ => reply false)
    (fun _ _ _ => reply [])
    (fun _ => reply ∅)
    (fun _ => reply None)
    (fun _ _ => reply false)
    (fun _ _ => reply tt)
    (reply tt).

Definition heard (t : string) : SttResult := mkSttResult t "en-IN".

(** The session in which the voice branch is about to transcribe. *)
Definition listening : @World unit (list Question) unit :=
  mkWorld
    (set_voice_input_stage (Some processing_stt)
       (set_cleaned_audio_data (Some tt) initial_session))
    tt [].

(** Two follow-up questions, nothing fails, and the microphone hears [t]. *)
Definition clinic (t : string) : @Env unit (list Question) unit :=
  env [fever_question; pain_question] false false (heard t).

(** The same, but [record_answer] raises. *)
Definition broken_checker : @Env unit (list Question) unit :=
  env [fever_question; pain_question] true false (heard "three days").

(** The same as [clinic], but every translation raises. *)
Definition no_translator : @Env unit (list Question) unit :=
  env [fever_question; pain_question] false true (heard "three days").

Definition start : @World unit (list Question) unit := initial_world tt.

(** The user has typed a symptom report and the first follow-up question
    is pending. *)
Definition asked (E : @Env unit (list Question) unit)
  : @World unit (list Question) unit :=
  step E (SubmitText "I have a fever") start.

End Demo.

(** * Further vocabulary *)

Section MoreVocabulary.

Context {W Checker Samples : Type}.

Abbreviation World := (@World W Checker Samples).

(** Number of calls made to the symptom checker so far (construction
    included). *)
Fixpoint checker_calls (log : list Event) : nat :=
  match log with
  | [] => 0
  | ev :: rest =>
      if is_checker_call ev then S (checker_calls rest) else checker_calls rest
  end.

(** The recording waiting to be decoded and the conversation are as they
    were. *)
Definition keeps_recording (w w' : World) : Prop :=
  captured_audio_data (sess w') = captured_audio_data (sess w)
  /\ conversation (sess w') = conversation (sess w).

(** The remembered advice fits the bound the code cuts it to. *)
Definition advice_is_short (s : @Session Checker Samples) : Prop :=
  String.length (last_advice_given s) <= 800.

Definition keeps_advice_short (w w' : World) : Prop :=
  advice_is_short (sess w) -> advice_is_short (sess w').

(** The language code of the session is one of the codes of
    [LANGUAGE_MAP], and it is the code of the selected display name. *)
Definition language_is_supported (s : @Session Checker Samples) : Prop :=
  In (current_language_code s) (map snd LANGUAGE_MAP)
  /\ forall c,
      language_code (current_language_display s) LANGUAGE_MAP = Some c ->
      current_language_code s = c.

Definition keeps_language_supported (w w' : World) : Prop :=
  language_is_supported (sess w) -> language_is_supported (sess w').

(** Between two runs the voice branch holds nothing: no stage, no cleaned
    audio. *)
Definition voice_is_idle (s : @Session Checker Samples) : Prop :=
  voice_input_stage s = None /\ cleaned_audio_data s = None.

Definition keeps_voice_idle (w w' : World) : Prop :=
  voice_is_idle (sess w) -> voice_is_idle (sess w').

(** Calls that read or write the data of a user in the backend, or send the
    tokens of a user to it. *)
Definition is_data_call (ev : Event) : bool :=
  match ev with
  | EvChatCreate _ | EvChatsList | EvMessageInsert _ _ _
  | EvUserMemoryUpsert _ _ | EvGetRecentMessages | EvUserMemoryGetAll
  | EvUserProfileGet | EvUserProfileUpsert | EvMessagesList _
  | EvAuthSetSession => true
  | _ => false
  end.

(** While nobody is signed in, nobody gets signed in and no call about user
    data is made. *)
Definition quiet_while_signed_out (w w' : World) : Prop :=
  supabase_session (sess w) = None ->
  supabase_session (sess w') = None
  /\ exists evs,
      calls w' = calls w ++ evs
      /\ Forall (fun ev => is_data_call ev = false) evs.

(** The interactions a user who is not signed in can make: all but opening
    a stored chat, whose buttons are drawn only for a signed-in user (line
    833), and signing in, which ends the signed-out state. *)
Definition offered_signed_out (a : @Action) : bool :=
  match a with
  | SignIn _ | OpenChat _ => false
  | _ => true
  end.

End MoreVocabulary.

(** The title [_persist_message_to_db] gives a chat it creates: the message
    itself, cut after 50 characters with an ellipsis, or "Chat" for an
    empty message. *)
Definition chat_title_for (content : string) : string :=
  if (50 <? String.length content)%nat
  then Py.slice_to 50 content +:+ "‚Ä¶"
  else if Py.truthy content then content else "Chat".

(** ** Text helpers of the chat display *)

(** More Python string primitives, on the same model of strings as [Py]. *)
Module PyStr.

(** [c in s] for a one-character string [c]. *)
Fixpoint contains (c : ascii) (s : string) : bool :=
  match s with
  | EmptyString => false
  | String a s' => Ascii.eqb a c || contains c s'
  end.

(** [s.split(c, 1)] for a one-character string [c] that occurs in [s]: the
    text before its first occurrence and the text after it. *)
Fixpoint split_once (c : ascii) (s : string) : option (string * string) :=
  match s with
  | EmptyString => None
  | String a s' =>
      if Ascii.eqb a c then Some (EmptyString, s')
      else match split_once c s' with
           | Some (l, r) => Some (String a l, r)
           | None => None
           end
  end.

(** [s.split()]: the maximal runs of characters that are not whitespace. *)
Fixpoint split_ws (s : string) : list string :=
  match s with
  | EmptyString => []
  | String a s' =>
      if Py.isspace a then split_ws s'
      else match s' with
           | EmptyString => [String a EmptyString]
           | String b _ =>
               if Py.isspace b then String a EmptyString :: split_ws s'
               else match split_ws s' with
                    | word :: rest => String a word :: rest
                    | [] => [String a EmptyString]
                    end
           end
  end.

(** [s.replace(c, new)] for a one-character string [c]. *)
Fixpoint replace (c : ascii) (new : string) (s : string) : string :=
  match s with
  | EmptyString => EmptyString
  | String a s' =>
      if Ascii.eqb a c then new +:+ replace c new s'
      else String a (replace c new s')
  end.

End PyStr.

(** [clean_assistant_text] (lines 581-595): drops a short label before the
    first colon of an assistant message. The last case is not reached: the
    text holds a colon there. *)
Definition clean_assistant_text (text : string) : string :=
  if negb (Py.truthy text) || negb (PyStr.contains ":" text) then text
  else
    match PyStr.split_once ":" text with
    | Some (left_, right_) =>
        if (length (PyStr.split_ws (Py.strip left_)) <=? 2)%nat
        then Py.strip right_
        else Py.strip text
    | None => text
    end.

(** The escaping of a message before it is put into the page (lines
    1232-1238; line 1230 applies the same chain to assistant messages). *)
Definition content_safe (content : string) : string :=
  PyStr.replace "010" "<br>"
    (PyStr.replace ">" "&gt;"
       (PyStr.replace "<" "&lt;"
          (PyStr.replace "&" "&amp;" content))).

(** What escaping is meant to do, one character at a time; [content_safe]
    is compared with it. *)
Definition escaped (c : ascii) : string :=
  if Ascii.eqb c "&" then "&amp;"
  else if Ascii.eqb c "<" then "&lt;"
  else if Ascii.eqb c ">" then "&gt;"
  else if Ascii.eqb c "010" then "<br>"
  else String c EmptyString.


Fixpoint escape_each (s : string) : string :=
  match s with
  | EmptyString => EmptyString
  | String c s' => escaped c +:+ escape_each s'
  end.

(** A string that does not start with whitespace. *)
Definition starts_clean (s : string) : Prop :=
  match s with
  | EmptyString => True
  | String c _ => Py.isspace c = false
  end.

(** [_get_secret] (lines 96-105). [environ] is [os.environ.get]; [secrets]
    is the lookup in [st.secrets], which raises when no secrets file exists
    or the value is not a string, and answers [None] when the store is
    empty or lacks the name. *)
Definition _get_secret (environ : string -> option string)
  (secrets : string -> Exn + option string) (name : string) : string :=
  let v := Py.strip (get_default (environ name) EmptyString) in
  let v :=
    if negb (Py.truthy v)
    then match secrets name with
         | inr found => Py.strip (get_default found EmptyString)
         | inl _ => v
         end
    else v in
  if Py.truthy v then v else EmptyString.

(** ** More test doubles *)

Module Demo2.

(** [E] with another decoder for recordings. *)
Definition with_decoder {W Checker Samples : Type} (E : @Env W Checker Samples)
  (decoder : list Byte.byte -> W -> (Exn + (Samples * Z)) * W)
  : @Env W Checker Samples :=
  mkEnv (SARVAM_API_KEY E) (is_supabase_configured E)
    (process_transcription E) (generate_response E) (translate_text E)
    (translate_text_to_english E) (transcribe_audio E) decoder
    (get_cleaned_audio E) (SymptomChecker E) (prepare_follow_up_questions E)
    (get_next_question E) (record_answer E)
    (generate_preliminary_assessment E) (collected_symptom_details E)
    (json_dumps E) (chat_create E) (chats_list E) (messages_list E)
    (message_insert E) (user_memory_upsert E)
    (get_recent_messages_from_other_chats E) (user_memory_get_all E)
    (user_profile_get E) (user_profile_upsert E)
    (auth_set_session_from_tokens E) (auth_sign_out E).

(** [E] with a configured backend: [chat_create] answers [created],
    [message_insert] raises when [insert_fails]. *)
Definition with_backend {W Checker Samples : Type} (E : @Env W Checker Samples)
  (created : option string) (insert_fails : bool)
  : @Env W Checker Samples :=
  mkEnv (SARVAM_API_KEY E) (fun _ => true)
    (process_transcription E) (generate_response E) (translate_text E)
    (translate_text_to_english E) (transcribe_audio E) (sf_read E)
    (get_cleaned_audio E) (SymptomChecker E) (prepare_follow_up_questions E)
    (get_next_question E) (record_answer E)
    (generate_preliminary_assessment E) (collected_symptom_details E)
    (json_dumps E)
    (fun _ _ x => (inr created, x))
    (fun _ x => (inr (match created with
                      | Some c => [mkChat c (Some "Chat")]
                      | None => []
                      end), x))
    (messages_list E)
    (fun _ _ _ x => if insert_fails
                    then (inl (Exception "insert failed"), x)
                    else (inr true, x))
    (fun _ _ _ x => (inr true, x))
    (fun _ _ _ x => (inl (Exception "backend unavailable"), x))
    (user_memory_get_all E)
    (user_profile_get E) (user_profile_upsert E)
    (auth_set_session_from_tokens E) (auth_sign_out E).

(** A recording that cannot be decoded is waiting. *)
Definition broken_recording : @World unit (list Question) unit :=
  mkWorld (set_captured_audio_data (Some []) initial_session) tt [].

Definition no_decoder : @Env unit (list Question) unit :=
  with_decoder (Demo.clinic "hello")
    (fun _ x => (inl (Exception "not a sound file"), x)).

(** The microphone hears Hindi while the session language is English, and
    no translation is available. *)
Definition foreign_speech : @Env unit (list Question) unit :=
  Demo.env [Demo.fever_question] false true (mkSttResult "namaste" "hi-IN").


(** [E] with another translator out of English. *)
Definition with_translator {W Checker Samples : Type}
  (E : @Env W Checker Samples)
  (translator : string -> string -> W -> (Exn + string) * W)
  : @Env W Checker Samples :=
  mkEnv (SARVAM_API_KEY E) (is_supabase_configured E)
    (process_transcription E) (generate_response E) translator
    (translate_text_to_english E) (transcribe_audio E) (sf_read E)
    (get_cleaned_audio E) (SymptomChecker E) (prepare_follow_up_questions E)
    (get_next_question E) (record_answer E)
    (generate_preliminary_assessment E) (collected_symptom_details E)
    (json_dumps E) (chat_create E) (chats_list E) (messages_list E)
    (message_insert E) (user_memory_upsert E)
    (get_recent_messages_from_other_chats E) (user_memory_get_all E)
    (user_profile_get E) (user_profile_upsert E)
    (auth_set_session_from_tokens E) (auth_sign_out E).

(** An assessment with two warnings and a triage point. *)
Definition chest_assessment : Assessment :=
  mkAssessment (Some "Likely a viral fever.") (Some "Low")
    (Some (StepsList ["Rest"]))
    (Some ["Chest pain"; "Fainting"]) (Some ["Seek care"]) None.

(** A translator that fails on one text only. *)
Definition fails_on (bad : string) : @Env unit (list Question) unit :=
  with_translator (Demo.clinic "hello")
    (fun text _ => if String.eqb text bad
                   then Demo.failure "translation unavailable"
                   else Demo.reply text).



(** A recording is waiting to be decoded. *)
Definition recorded : @World unit (list Question) unit :=
  mkWorld (set_captured_audio_data (Some []) initial_session) tt [].

Definition signed_in (cid : option string)
  : @World unit (list Question) unit :=
  mkWorld
    (set_current_chat_id cid
       (set_supabase_session
          (Some (mkSupabaseSession (Some "user-1") "access" "refresh"))
          initial_session))
    tt [].

End Demo2.

(** * Properties *)

(** ** Facts about the string primitives *)

Lemma lstrip_blank (s : string) : is_blank s = true -> Py.lstrip s = EmptyString.
Proof.
  induction s as [|c s IH]; simpl; [reflexivity|].
  intros [Hc Hs]%andb_prop. rewrite Hc. auto.
Qed.

Lemma strip_blank (s : string) : is_blank s = true -> Py.strip s = EmptyString.
Proof. intros H. unfold Py.strip. rewrite lstrip_blank by assumption. reflexivity. Qed.

Lemma rstrip_empty_blank (s : string) :
  Py.rstrip s = EmptyString -> is_blank s = true.
Proof.
  induction s as [|c s IH]; simpl; [reflexivity|].
  destruct (Py.rstrip s); [|discriminate].
  destruct (Py.isspace c); [auto | discriminate].
Qed.

Lemma lstrip_suffix_blank (s : string) :
  is_blank (Py.lstrip s) = true -> is_blank s = true.
Proof.
  induction s as [|c s IH]; simpl; [reflexivity|].
  destruct (Py.isspace c) eqn:Hc; simpl; [auto|].
  rewrite Hc. discriminate.
Qed.

(** The test [if not user_input] of the callback, and the test
    [transcribed_text and transcribed_text.strip()] of the voice branch,
    both fail exactly on blank text. *)
Lemma strip_empty_iff_blank (s : string) :
  Py.strip s = EmptyString <-> is_blank s = true.
Proof.
  split; [|apply strip_blank].
  intros H. apply lstrip_suffix_blank, rstrip_empty_blank, H.
Qed.

Lemma truthy_strip_blank (s : string) :
  Py.truthy (Py.strip s) = negb (is_blank s).
Proof.
  unfold Py.truthy. destruct (is_blank s) eqn:Hb.
  - rewrite strip_blank by assumption. reflexivity.
  - destruct (Py.strip s) eqn:Hs; [|reflexivity].
    apply strip_empty_iff_blank in Hs. congruence.
Qed.

Lemma truthy_and_stripped (s : string) :
  Py.truthy s && Py.truthy (Py.strip s) = negb (is_blank s).
Proof.
  rewrite truthy_strip_blank. destruct s as [|c s]; reflexivity.
Qed.

(** ** Structural rules for [respects] *)

Section Respects.

Context {W Checker Samples : Type}.

Abbreviation World := (@World W Checker Samples).
Abbreviation M := (@M W Checker Samples).

Context (R : World -> World -> Prop) `{!PreOrder R}.

Lemma respects_ret {A} (a : A) : respects R (ret a : M A).
Proof. intros w. reflexivity. Qed.

Lemma respects_raise {A} (e : Exn) : respects R (raise e : M A).
Proof. intros w. reflexivity. Qed.

Lemma respects_get_state {A} (f : _ -> A) : respects R (get_state f : M A).
Proof. intros w. reflexivity. Qed.

Lemma respects_read_world {A} (f : W -> A) : respects R (read_world f : M A).
Proof. intros w. reflexivity. Qed.

Lemma respects_bind {A B} (m : M A) (k : A -> M B) :
  respects R m -> (forall a, respects R (k a)) -> respects R (bind m k).
Proof.
  intros Hm Hk w. unfold bind. specialize (Hm w).
  destruct (m w) as [a w'|e w']; simpl in *; [|assumption].
  etransitivity; [eassumption|apply Hk].
Qed.

Lemma respects_try_except {A} (body : M A) (handler : Exn -> M A) :
  respects R body -> (forall e, respects R (handler e)) ->
  respects R (try_except body handler).
Proof.
  intros Hb Hh w. unfold try_except. specialize (Hb w).
  destruct (body w) as [a w'|e w']; simpl in *; [assumption|].
  etransitivity; [eassumption|apply Hh].
Qed.

Lemma respects_try_finally {A} (body : M A) (cleanup : M unit) :
  respects R body -> respects R cleanup -> respects R (try_finally body cleanup).
Proof.
  intros Hb Hc w. unfold try_finally. specialize (Hb w).
  destruct (body w) as [a w'|e w']; simpl in *;
    specialize (Hc w'); destruct (cleanup w') as [u w''|e' w'']; simpl in *;
    etransitivity; eassumption.
Qed.

Lemma respects_assign (f : _ -> _) :
  (forall w : World, R w (mkWorld (f (sess w)) (ext w) (calls w))) ->
  respects R (assign f).
Proof. intros H w. apply H. Qed.

Lemma respects_emit (ev : Event) :
  (forall w : World, R w (mkWorld (sess w) (ext w) (calls w ++ [ev]))) ->
  respects R (emit ev).
Proof. intros H w. apply H. Qed.

Lemma respects_call {A} (ev : Event) (op : Ext A) :
  (forall (w : World) x, R w (mkWorld (sess w) x (calls w ++ [ev]))) ->
  respects R (call ev op).
Proof.
  intros H w. unfold call.
  destruct (op (ext w)) as [[e|a] x]; simpl; apply H.
Qed.

Lemma respects_call_instance {A} (ev : Event) (op : Method A) :
  (forall (w : World) c c' x,
      symptom_checker_instance (sess w) = Some c ->
      R w (mkWorld (set_symptom_checker_instance (Some c') (sess w)) x
             (calls w ++ [ev]))) ->
  respects R (call_instance ev op).
Proof.
  intros H w. unfold call_instance.
  destruct (symptom_checker_instance (sess w)) as [c|] eqn:Hc; simpl; [|reflexivity].
  destruct (op c (ext w)) as [[[e|a] c'] x]; simpl; eapply H; eassumption.
Qed.

End Respects.

Ltac respects_step :=
  lazymatch goal with
  | |- respects ?R (bind _ _) => apply (respects_bind R); [|intros ?]
  | |- respects ?R (ret _) => apply (respects_ret R)
  | |- respects ?R (raise _) => apply (respects_raise R)
  | |- respects ?R (get_state _) => apply (respects_get_state R)
  | |- respects ?R (read_world _) => apply (respects_read_world R)
  | |- respects ?R (try_except _ _) => apply (respects_try_except R); [|intros ?]
  | |- respects ?R (try_finally _ _) => apply (respects_try_finally R)
  | |- respects _ (match ?x with _ => _ end) => destruct x
  | |- respects _ (let _ := _ in _) => cbv zeta
  end.

Ltac respects_prim tac :=
  lazymatch goal with
  | |- respects ?R (assign _) => apply (respects_assign R); intros ?; tac
  | |- respects ?R (emit _) => apply (respects_emit R); intros ?; tac
  | |- respects ?R (call _ _) => apply (respects_call R); intros ? ?; tac
  | |- respects ?R (call_instance _ _) =>
      apply (respects_call_instance R); intros ? ? ? ? ?; tac
  | |- respects _ (st_error _) => unfold st_error
  | |- respects _ (st_warning _) => unfold st_warning
  | |- respects _ st_rerun => unfold st_rerun
  | |- respects _ (util_call _ _ _) => unfold util_call
  | |- respects _ (util_translate_text _ _ _) => unfold util_translate_text
  | |- respects _ (util_translate_text_to_english _ _) =>
      unfold util_translate_text_to_english
  | |- respects _ (add_message_to_conversation _ _ _) =>
      unfold add_message_to_conversation
  | |- respects _ (record_symptoms _) => unfold record_symptoms
  end.

Create HintDb respects discriminated.

Ltac respects_auto tac :=
  repeat first [ solve [auto with respects] | respects_step | respects_prim tac ].

(** ** The persistence helpers *)

Section Persistence.

Context {W Checker Samples : Type}.
Variable E : @Env W Checker Samples.

Abbreviation World := (@World W Checker Samples).

#[global] Instance same_conversation_preorder :
  PreOrder (@same_conversation W Checker Samples).
Proof.
  split.
  - intros w. reflexivity.
  - intros w1 w2 w3 H12 H23. unfold same_conversation in *. congruence.
Qed.

Lemma persist_same_conversation (role content : string) :
  respects same_conversation (_persist_message_to_db E role content).
Proof.
  unfold _persist_message_to_db.
  respects_auto ltac:(reflexivity).
Qed.

Lemma save_memory_same_conversation :
  respects same_conversation (_save_health_context_to_memory E).
Proof.
  unfold _save_health_context_to_memory.
  respects_auto ltac:(reflexivity).
Qed.

Lemma try_except_pass_returns (body : M unit) (w : World) :
  exists w', try_except body (fun _ => ret tt) w = Ok tt w'.
Proof.
  unfold try_except. destruct (body w) as [[] w'|e w']; eauto.
Qed.

Lemma persist_returns (role content : string) (w : World) :
  exists w', _persist_message_to_db E role content w = Ok tt w'.
Proof.
  unfold _persist_message_to_db, bind, read_world, get_state.
  destruct (is_supabase_configured E (ext w)); [|eexists; reflexivity].
  destruct (supabase_session (sess w)); [|eexists; reflexivity].
  apply try_except_pass_returns.
Qed.

Lemma save_memory_returns (w : World) :
  exists w', _save_health_context_to_memory E w = Ok tt w'.
Proof.
  unfold _save_health_context_to_memory, bind, read_world, get_state.
  destruct (is_supabase_configured E (ext w)); [|eexists; reflexivity].
  destruct (supabase_session (sess w)); [|eexists; reflexivity].
  apply try_except_pass_returns.
Qed.

Lemma persist_noop (role content : string) (w : World) :
  is_supabase_configured E (ext w) = false \/ supabase_session (sess w) = None ->
  _persist_message_to_db E role content w = Ok tt w.
Proof.
  unfold _persist_message_to_db, bind, read_world, get_state.
  intros [H|H]; rewrite H; [reflexivity|].
  destruct (is_supabase_configured E (ext w)); reflexivity.
Qed.

Lemma save_memory_noop (w : World) :
  is_supabase_configured E (ext w) = false \/ supabase_session (sess w) = None ->
  _save_health_context_to_memory E w = Ok tt w.
Proof.
  unfold _save_health_context_to_memory, bind, read_world, get_state.
  intros [H|H]; rewrite H; [reflexivity|].
  destruct (is_supabase_configured E (ext w)); reflexivity.
Qed.

(** C6: the two persistence helpers always return, whatever the backend
    does (each backend call may raise); they leave the conversation log as
    it was; and when the backend is not configured or nobody is signed in
    they change nothing at all and call nothing. *)
Theorem C6_persistence_helpers_never_raise (role content : string) (w : World) :
  (exists w',
      _persist_message_to_db E role content w = Ok tt w'
      /\ conversation (sess w') = conversation (sess w)
      /\ (is_supabase_configured E (ext w) = false
          \/ supabase_session (sess w) = None -> w' = w))
  /\ (exists w',
      _save_health_context_to_memory E w = Ok tt w'
      /\ conversation (sess w') = conversation (sess w)
      /\ (is_supabase_configured E (ext w) = false
          \/ supabase_session (sess w) = None -> w' = w)).
Proof.
  split.
  - destruct (persist_returns role content w) as [w' Hrun].
    exists w'. split; [exact Hrun|]. split.
    + pose proof (persist_same_conversation role content w) as Hc.
      rewrite Hrun in Hc. exact Hc.
    + intros Hoff. rewrite persist_noop in Hrun by exact Hoff. congruence.
  - destruct (save_memory_returns w) as [w' Hrun].
    exists w'. split; [exact Hrun|]. split.
    + pose proof (save_memory_same_conversation w) as Hc.
      rewrite Hrun in Hc. exact Hc.
    + intros Hoff. rewrite save_memory_noop in Hrun by exact Hoff. congruence.
Qed.

End Persistence.

(** ** Blank input *)

Section Blank.

Context {W Checker Samples : Type}.
Variable E : @Env W Checker Samples.

(** C10: submitting empty or whitespace-only text returns at once and
    leaves the whole world as it was: no message of any role is appended,
    no collaborator is called (the call log is unchanged), and no field of
    the session changes. *)
Theorem C10_blank_submission_is_noop (w : @World W Checker Samples) :
  is_blank (text_query_input_area (sess w)) = true ->
  handle_text_submission E w = Ok tt w.
Proof.
  intros Hblank. unfold handle_text_submission, bind, get_state.
  rewrite strip_blank by exact Hblank. reflexivity.
Qed.

End Blank.

Lemma C10_blank_submission_witness :
  let w := mkWorld (set_text_query_input_area "   " initial_session) tt [] in
  is_blank (text_query_input_area (sess w)) = true
  /\ handle_text_submission (Demo.clinic "hello") w = Ok tt w.
Proof.
  split; [vm_compute; reflexivity|].
  apply (C10_blank_submission_is_noop (Demo.clinic "hello")).
  vm_compute. reflexivity.
Defined.

(** ** The voice branch on a blank transcription *)

Section VoiceBlank.

Context {W Checker Samples : Type}.
Variable E : @Env W Checker Samples.

Abbreviation World := (@World W Checker Samples).

#[global] Instance same_session_preorder :
  PreOrder (@same_session W Checker Samples).
Proof.
  split.
  - intros w. reflexivity.
  - intros w1 w2 w3 H12 H23. unfold same_session in *. congruence.
Qed.

Lemma transcribed_text_same_session (audio : Samples) (lang_for_stt : string) :
  respects same_session (transcribed_text E audio lang_for_stt).
Proof.
  unfold transcribed_text.
  respects_auto ltac:(reflexivity).
Qed.

(** When the detected language is the session language the text tested by
    the voice branch is the transcription itself. *)
Lemma transcribed_text_same_language (audio : Samples) (w : World) r x :
  Py.truthy (SARVAM_API_KEY E) = true ->
  transcribe_audio E audio (captured_audio_sample_rate (sess w))
    (current_language_code (sess w)) (ext w) = (inr r, x) ->
  language_detected r = current_language_code (sess w) ->
  transcribed_text E audio (current_language_code (sess w)) w
  = Ok (transcription r)
      (mkWorld (sess w) x
         (calls w ++ [EvTranscribeAudio (current_language_code (sess w))])).
Proof.
  intros Hkey Hstt Hlang.
  unfold transcribed_text, bind, get_state, util_call, _get_utils, call.
  rewrite Hkey. simpl. rewrite Hstt. simpl.
  rewrite Hlang, String.eqb_refl. reflexivity.
Qed.



End VoiceBlank.



(** ** What translation and persistence leave alone *)

Section Aside.

Context {W Checker Samples : Type}.
Variable E : @Env W Checker Samples.

Abbreviation World := (@World W Checker Samples).

Lemma assessments_app (l1 l2 : list Event) :
  assessments (l1 ++ l2) = assessments l1 + assessments l2.
Proof.
  induction l1 as [|ev l1 IH]; simpl; [reflexivity|].
  destruct ev; simpl; lia.
Qed.

Lemma answers_recorded_app (l1 l2 : list Event) :
  answers_recorded (l1 ++ l2) = answers_recorded l1 + answers_recorded l2.
Proof.
  induction l1 as [|ev l1 IH]; simpl; [reflexivity|].
  destruct ev; simpl; lia.
Qed.

Lemma no_checker_call_assessments (evs : list Event) :
  Forall (fun ev => is_checker_call ev = false) evs -> assessments evs = 0.
Proof.
  induction 1 as [|ev evs Hev _ IH]; simpl; [reflexivity|].
  destruct ev; simpl in *; try discriminate; exact IH.
Qed.

Lemma no_checker_call_answers (evs : list Event) :
  Forall (fun ev => is_checker_call ev = false) evs -> answers_recorded evs = 0.
Proof.
  induction 1 as [|ev evs Hev _ IH]; simpl; [reflexivity|].
  destruct ev; simpl in *; try discriminate; exact IH.
Qed.

#[global] Instance aside_preorder : PreOrder (@aside W Checker Samples).
Proof.
  split.
  - intros [[] x l]. split; [reflexivity|].
    exists []. split; [symmetry; apply app_nil_r | constructor].
  - intros w1 w2 w3 [H12 (evs1 & Hc1 & Hf1)] [H23 (evs2 & Hc2 & Hf2)]. split.
    + rewrite H23. rewrite H12. destruct (sess w1). reflexivity.
    + exists (evs1 ++ evs2). split.
      * rewrite Hc2, Hc1, app_assoc. reflexivity.
      * apply Forall_app. split; assumption.
Qed.

End Aside.

Ltac aside_leaf :=
  split;
  [ match goal with w : @World _ _ _ |- _ => destruct w as [[] ? ?] end;
    reflexivity
  | simpl;
    first [ exists []; split; [symmetry; apply app_nil_r | constructor]
          | eexists; split;
            [reflexivity | repeat constructor] ] ].

Section AsideHelpers.

Context {W Checker Samples : Type}.
Variable E : @Env W Checker Samples.

Abbreviation World := (@World W Checker Samples).

Lemma persist_aside (role content : string) :
  respects aside (_persist_message_to_db E role content).
Proof.
  unfold _persist_message_to_db.
  respects_auto ltac:(aside_leaf).
Qed.

Lemma save_memory_aside : respects aside (_save_health_context_to_memory E).
Proof.
  unfold _save_health_context_to_memory.
  respects_auto ltac:(aside_leaf).
Qed.

Lemma translate_aside (t target : string) :
  respects aside (util_translate_text E t target).
Proof. respects_auto ltac:(aside_leaf). Qed.

Lemma append_bullets_aside (items : list string) (user_lang acc : string) :
  respects aside (append_bullets E items user_lang acc).
Proof.
  revert acc. induction items as [|item items IH]; intros acc; simpl.
  - respects_auto ltac:(aside_leaf).
  - apply (respects_bind aside); [apply translate_aside|].
    intros t. apply IH.
Qed.

#[local] Hint Resolve persist_aside save_memory_aside translate_aside
  append_bullets_aside : respects.

Lemma render_aside (a : Assessment) (user_lang : string) :
  respects aside (render_assessment E a user_lang).
Proof.
  unfold render_assessment.
  respects_auto ltac:(aside_leaf).
Qed.

Lemma translate_question_aside (q : Question) (user_lang : string) :
  respects aside (translate_question E q user_lang).
Proof.
  unfold translate_question.
  respects_auto ltac:(aside_leaf).
Qed.

Lemma persist_runs (role content : string) (w : World) :
  exists w', _persist_message_to_db E role content w = Ok tt w' /\ aside w w'.
Proof.
  destruct (persist_returns E role content w) as [w' Hrun].
  exists w'. split; [exact Hrun|].
  pose proof (persist_aside role content w) as H. rewrite Hrun in H. exact H.
Qed.

Lemma save_memory_runs (w : World) :
  exists w', _save_health_context_to_memory E w = Ok tt w' /\ aside w w'.
Proof.
  destruct (save_memory_returns E w) as [w' Hrun].
  exists w'. split; [exact Hrun|].
  pose proof (save_memory_aside w) as H. rewrite Hrun in H. exact H.
Qed.

End AsideHelpers.

(** Replace a world known to be [aside] of another by its explicit form. *)
Ltac open_aside H :=
  lazymatch type of H with
  | aside ?w0 ?w1 =>
      let Hs := fresh "Hs" in
      let evs := fresh "evs" in
      let Hc := fresh "Hc" in
      let Hf := fresh "Hf" in
      let s := fresh "s" in
      let x := fresh "x" in
      let l := fresh "l" in
      destruct H as [Hs (evs & Hc & Hf)];
      destruct w1 as [s x l]; simpl in Hs, Hc;
      generalize dependent (chat_list s);
      generalize dependent (current_chat_id s);
      generalize dependent (persistent_memory s);
      intros; subst s; subst l
  end.

Ltac run_persist :=
  match goal with
  | |- context [_persist_message_to_db ?E ?r ?c ?w] =>
      let w' := fresh "w" in
      let Hr := fresh "Hr" in
      let Ha := fresh "Ha" in
      destruct (persist_runs E r c w) as (w' & Hr & Ha);
      rewrite Hr; clear Hr; open_aside Ha; simpl
  end.

Ltac run_save_memory :=
  match goal with
  | |- context [_save_health_context_to_memory ?E ?w] =>
      let w' := fresh "w" in
      let Hr := fresh "Hr" in
      let Ha := fresh "Ha" in
      destruct (save_memory_runs E w) as (w' & Hr & Ha);
      rewrite Hr; clear Hr; open_aside Ha; simpl
  end.

Ltac count_calls :=
  rewrite ?assessments_app, ?answers_recorded_app; simpl;
  repeat match goal with
         | H : Forall (fun ev => is_checker_call ev = false) ?evs |- _ =>
             rewrite ?(no_checker_call_assessments evs H),
               ?(no_checker_call_answers evs H);
             clear H
         end;
  lia.

Ltac finish_run :=
  eexists; split; [reflexivity|]; simpl;
  repeat match goal with |- _ /\ _ => split end;
  first [ reflexivity | count_calls | idtac ].

(** ** Assessment generation *)

Section AssessmentSpec.

Context {W Checker Samples : Type}.
Variable E : @Env W Checker Samples.

Abbreviation World := (@World W Checker Samples).

Lemma assessment_runs (w : World) (c c' : Checker) (a : Assessment) (x' : W) :
  symptom_checker_instance (sess w) = Some c ->
  generate_preliminary_assessment E c (ext w) = (inr a, c', x') ->
  exists w',
    generate_and_display_assessment E w = Ok tt w'
    /\ conversation (sess w')
       = conversation (sess w)
         ++ [mkMessage "assistant"
               (assessment_reply E a
                  (render_assessment E a (current_language_code (sess w))
                     (assessed E w c' x')))
               None]
    /\ symptom_checker_active (sess w') = false
    /\ symptom_checker_instance (sess w') = None
    /\ pending_symptom_question_data (sess w') = None
    /\ voice_input_stage (sess w') = None
    /\ text_query_input_area (sess w') = text_query_input_area (sess w)
    /\ current_language_code (sess w') = current_language_code (sess w)
    /\ follow_up_answers (sess w') = follow_up_answers (sess w)
    /\ extracted_symptoms (sess w')
       = fold_left append_if_new (collected_symptom_details E c')
           (extracted_symptoms (sess w))
    /\ assessments (calls w') = S (assessments (calls w))
    /\ answers_recorded (calls w') = answers_recorded (calls w).
Proof.
  intros Hinst Hgen.
  unfold generate_and_display_assessment, bind, get_state, call_instance,
    record_symptoms, assign, try_except.
  simpl. rewrite !Hinst. simpl. rewrite Hgen. simpl.
  fold (assessed E w c' x').
  pose proof (render_aside E a (current_language_code (sess w))
                (assessed E w c' x')) as Hrender.
  destruct (render_assessment E a (current_language_code (sess w))
              (assessed E w c' x')) as [rendered w1|e w1]; simpl in Hrender.
  - open_aside Hrender. unfold add_message_to_conversation, assign. simpl.
    run_persist. run_save_memory. finish_run.
  - open_aside Hrender. unfold st_error, emit, raise, ret. simpl.
    destruct (json_dumps E a) as [json_e|raw]; simpl;
      unfold add_message_to_conversation, assign; simpl;
      run_persist; finish_run.
Qed.

(** C7: once the checker has produced an assessment, exactly one assistant
    message is appended for it, however rendering goes: the rendered text
    when rendering returns; when rendering raises, the raw payload; and
    when serializing the payload raises too, the serialization error. The
    call returns normally in all three cases. *)
Theorem C7_assessment_never_dropped
  (w : World) (c c' : Checker) (a : Assessment) (x' : W) :
  symptom_checker_instance (sess w) = Some c ->
  generate_preliminary_assessment E c (ext w) = (inr a, c', x') ->
  exists w' reply,
    generate_and_display_assessment E w = Ok tt w'
    /\ conversation (sess w')
       = conversation (sess w) ++ [mkMessage "assistant" reply None]
    /\ match render_assessment E a (current_language_code (sess w))
               (assessed E w c' x') with
       | Ok rendered _ => reply = rendered
       | Raised _ _ =>
           match json_dumps E a with
           | inr raw =>
               reply = "Could not format assessment. Raw data:" +:+ Py.newline
                       +:+ "```json" +:+ Py.newline +:+ raw +:+ Py.newline
                       +:+ "```"
           | inl json_e =>
               reply = "Could not format or serialize assessment: "
                       +:+ str_exn json_e
           end
       end.
Proof.
  intros Hinst Hgen.
  destruct (assessment_runs w c c' a x' Hinst Hgen) as (w' & Hrun & Hconv & _).
  exists w'. eexists. split; [exact Hrun|]. split; [exact Hconv|].
  unfold assessment_reply.
  destruct (render_assessment E a (current_language_code (sess w))
              (assessed E w c' x')); [reflexivity|].
  destruct (json_dumps E a); reflexivity.
Qed.

End AssessmentSpec.

(** ** One round of the follow-up loop *)

Section FollowUpLoop.

Context {W Checker Samples : Type}.
Variable E : @Env W Checker Samples.

Abbreviation World := (@World W Checker Samples).

Lemma follow_up_round (w : World) (c : Checker) (p : Question)
  (rest : list Question) (typed : string) :
  symptom_checker_active (sess w) = true ->
  symptom_checker_instance (sess w) = Some c ->
  pending_symptom_question_data (sess w) = Some p ->
  supplies E c p rest ->
  is_blank typed = false ->
  round_outcome E w typed rest (submit E typed w).
Proof.
  intros Hactive Hinst Hpend Hsup Hblank.
  unfold submit, handle_text_submission, bind, get_state, assign. simpl.
  rewrite truthy_strip_blank, Hblank. simpl.
  unfold follow_up_pending. simpl. rewrite Hactive, Hpend. simpl.
  unfold handle_follow_up_answer, bind, get_state, assign. simpl.
  rewrite Hinst, Hpend. simpl.
  unfold add_message_to_conversation, assign. simpl.
  run_persist.
  unfold call_instance. simpl. rewrite Hinst.
  destruct rest as [|q rest'].
  - destruct (Hsup (Py.strip typed) x)
      as (c1 & x1 & c2 & x2 & Hrec & Hnext & asmt & c3 & x3 & Hgen).
    rewrite Hrec. simpl. rewrite Hnext. simpl.
    match goal with
    | |- context [generate_and_display_assessment E ?w0] =>
        destruct (assessment_runs E w0 c2 c3 asmt x3 eq_refl Hgen)
          as (w' & Hrun & Hconv & Hact & Hin & Hpe & _ & _ & _ & _ & _ & Has & Han)
    end.
    rewrite Hrun. simpl. simpl in *.
    unfold round_outcome. simpl.
    rewrite Han, Has, Hconv, Hact, Hin, Hpe.
    split; [count_calls|]. repeat split; [count_calls|].
    eexists. rewrite <- app_assoc. reflexivity.
  - destruct (Hsup (Py.strip typed) x)
      as (c1 & x1 & c2 & x2 & Hrec & Hnext & Hsup').
    rewrite Hrec. simpl. rewrite Hnext. simpl.
    match goal with
    | |- context [translate_question E ?q ?l ?w0] =>
        pose proof (translate_question_aside E q l w0) as Htr;
        destruct (translate_question E q l w0) as [tq w1|e w1]
    end; simpl in Htr; open_aside Htr; simpl.
    + run_persist. unfold round_outcome. simpl. rewrite Hactive.
      split; [count_calls|]. repeat split; [count_calls|].
      exists c2. split; [reflexivity|exact Hsup'].
    + unfold round_outcome. simpl. rewrite Hactive.
      split; [count_calls|]. repeat split; [count_calls|].
      exists c2. split; [reflexivity|exact Hsup'].
Qed.

(** C4: from a state in which the symptom session is active with a
    question pending, and for a checker that supplies the further questions
    [rest] and then none, answering with any non-blank texts takes exactly
    [1 + length rest] rounds: after each of the first [length rest] answers
    the session is still waiting for an answer to the next question of the
    checker and no assessment has been requested; the last answer requests
    exactly one assessment, appends the answer and exactly one assistant
    message for the assessment, and leaves the symptom session inactive
    with checker instance and pending question cleared. *)
Theorem C4_follow_up_loop_terminates
  (rest : list Question) (w : World) (c : Checker) (p : Question)
  (answers : list string) :
  symptom_checker_active (sess w) = true ->
  symptom_checker_instance (sess w) = Some c ->
  pending_symptom_question_data (sess w) = Some p ->
  supplies E c p rest ->
  length answers = S (length rest) ->
  Forall (fun a => is_blank a = false) answers ->
  (forall k, k <= length rest ->
     let wk := answer_all E (take k answers) w in
     follow_up_pending (sess wk) = true
     /\ pending_symptom_question_data (sess wk) = (p :: rest) !! k
     /\ assessments (calls wk) = assessments (calls w)
     /\ answers_recorded (calls wk) = answers_recorded (calls w) + k)
  /\ (let wn := answer_all E answers w in
      let wlast := answer_all E (take (length rest) answers) w in
      symptom_checker_active (sess wn) = false
      /\ symptom_checker_instance (sess wn) = None
      /\ pending_symptom_question_data (sess wn) = None
      /\ assessments (calls wn) = S (assessments (calls w))
      /\ answers_recorded (calls wn)
         = answers_recorded (calls w) + length answers
      /\ exists last reply,
          answers !! length rest = Some last
          /\ conversation (sess wn)
             = conversation (sess wlast)
               ++ [new_message "user" (Py.strip last)
                     (Some (Py.before_dash (current_language_code (sess wlast))));
                   mkMessage "assistant" reply None]).
Proof.
  revert w c p answers.
  induction rest as [|q rest' IH]; intros w c p answers Hact Hinst Hpend Hsup Hlen Hall.
  - destruct answers as [|a [|? ?]]; try discriminate.
    apply Forall_cons in Hall as [Ha _].
    destruct (follow_up_round w c p [] a Hact Hinst Hpend Hsup Ha)
      as (Hrec & Hact' & Hinst' & Hpend' & Hass & reply & Hconv).
    split.
    + intros k Hk. assert (k = 0) as -> by (simpl in Hk; lia). simpl.
      unfold follow_up_pending. rewrite Hact, Hpend. simpl.
      split; [reflexivity|]. split; [reflexivity|]. split; [reflexivity|lia].
    + simpl. split; [exact Hact'|]. split; [exact Hinst'|].
      split; [exact Hpend'|]. split; [exact Hass|]. split; [lia|].
      exists a, reply. split; [reflexivity|exact Hconv].
  - destruct answers as [|a answers']; [discriminate|].
    apply Forall_cons in Hall as [Ha Hall'].
    destruct (follow_up_round w c p (q :: rest') a Hact Hinst Hpend Hsup Ha)
      as (Hrec & Hact' & Hpend' & Hass & c2 & Hinst' & Hsup').
    simpl in Hlen.
    destruct (IH (submit E a w) c2 q answers' Hact' Hinst' Hpend' Hsup'
                ltac:(lia) Hall') as [IHmid IHend].
    split.
    + intros [|k] Hk.
      * simpl. unfold follow_up_pending. rewrite Hact, Hpend. simpl.
        split; [reflexivity|]. split; [reflexivity|]. split; [reflexivity|lia].
      * simpl in Hk.
        destruct (IHmid k ltac:(lia)) as (Hfp & Hpk & Hak & Hrk).
        simpl. split; [exact Hfp|]. split; [exact Hpk|]. split; lia.
    + simpl. simpl in IHend.
      destruct IHend as (H1 & H2 & H3 & H4 & H5 & last & reply & Hlast & Hconv).
      split; [exact H1|]. split; [exact H2|]. split; [exact H3|].
      split; [lia|]. split; [lia|].
      exists last, reply. split; assumption.
Qed.

End FollowUpLoop.

(** ** Relations preserved by every statement *)

Section Relations.

Context {W Checker Samples : Type}.

Abbreviation World := (@World W Checker Samples).

#[global] Instance appends_no_user_preorder :
  PreOrder (@appends_no_user W Checker Samples).
Proof.
  split.
  - intros w. exists []. split; [symmetry; apply app_nil_r | constructor].
  - intros w1 w2 w3 (t1 & H1 & F1) (t2 & H2 & F2).
    exists (t1 ++ t2). split.
    + rewrite H2, H1, app_assoc. reflexivity.
    + apply Forall_app. split; assumption.
Qed.

#[global] Instance keeps_pending_has_checker_preorder :
  PreOrder (@keeps_pending_has_checker W Checker Samples).
Proof.
  split.
  - intros w H. exact H.
  - intros w1 w2 w3 H12 H23 H. apply H23, H12, H.
Qed.

#[global] Instance keeps_symptoms_distinct_preorder :
  PreOrder (@keeps_symptoms_distinct W Checker Samples).
Proof.
  split.
  - intros w H. exact H.
  - intros w1 w2 w3 H12 H23 H. apply H23, H12, H.
Qed.

#[global] Instance grows_symptoms_preorder :
  PreOrder (@grows_symptoms W Checker Samples).
Proof.
  split.
  - intros w. unfold grows_symptoms. reflexivity.
  - intros w1 w2 w3 H12 H23. unfold grows_symptoms in *. etransitivity; eassumption.
Qed.

Lemma aside_appends_no_user (w w' : World) : aside w w' -> appends_no_user w w'.
Proof.
  intros [Hs _]. exists []. split; [|constructor].
  rewrite Hs. simpl. symmetry. apply app_nil_r.
Qed.

Lemma aside_keeps_pending_has_checker (w w' : World) :
  aside w w' -> keeps_pending_has_checker w w'.
Proof.
  intros [Hs _] H. unfold pending_has_checker in *. rewrite Hs. simpl. exact H.
Qed.

Lemma aside_keeps_symptoms_distinct (w w' : World) :
  aside w w' -> keeps_symptoms_distinct w w'.
Proof.
  intros [Hs _] H. rewrite Hs. simpl. exact H.
Qed.

Lemma aside_grows_symptoms (w w' : World) : aside w w' -> grows_symptoms w w'.
Proof.
  intros [Hs _]. unfold grows_symptoms. rewrite Hs. simpl. reflexivity.
Qed.

Lemma respects_weaken (R R' : World -> World -> Prop) {A} (m : @M W Checker Samples A) :
  (forall w w', R w w' -> R' w w') -> respects R m -> respects R' m.
Proof. intros Hsub Hm w. apply Hsub, Hm. Qed.

Lemma role_new_message (r c : string) (l : option string) :
  role (new_message r c l) = r.
Proof.
  unfold new_message. destruct l as [l|]; [|reflexivity].
  destruct (Py.truthy l && String.eqb r "user"); reflexivity.
Qed.

Lemma content_new_message (r c : string) (l : option string) :
  content (new_message r c l) = c.
Proof.
  unfold new_message. destruct l as [l|]; [|reflexivity].
  destruct (Py.truthy l && String.eqb r "user"); reflexivity.
Qed.

(** The membership test before each append keeps the list duplicate-free
    and never disturbs what is already there. *)
Lemma append_if_new_distinct (xs : list string) (s : string) :
  NoDup xs -> NoDup (append_if_new xs s).
Proof.
  intros Hxs. unfold append_if_new.
  destruct (Py.truthy s); simpl; [|exact Hxs].
  destruct (bool_decide (s ∈ xs)) eqn:Hin; simpl; [exact Hxs|].
  apply bool_decide_eq_false in Hin.
  apply NoDup_app. split; [exact Hxs|]. split.
  - intros y Hy Hy'. apply list_elem_of_singleton in Hy'. subst y. contradiction.
  - apply NoDup_singleton.
Qed.

Lemma merge_symptoms_distinct (names xs : list string) :
  NoDup xs -> NoDup (fold_left append_if_new names xs).
Proof.
  revert xs. induction names as [|n names IH]; intros xs Hxs; simpl; [exact Hxs|].
  apply IH, append_if_new_distinct, Hxs.
Qed.

Lemma append_if_new_prefix (xs : list string) (s : string) :
  xs `prefix_of` append_if_new xs s.
Proof.
  unfold append_if_new.
  destruct (Py.truthy s && negb (bool_decide (s ∈ xs))); [|reflexivity].
  apply prefix_app_r. reflexivity.
Qed.

Lemma merge_symptoms_prefix (names xs : list string) :
  xs `prefix_of` fold_left append_if_new names xs.
Proof.
  revert xs. induction names as [|n names IH]; intros xs; simpl; [reflexivity|].
  etransitivity; [apply append_if_new_prefix | apply IH].
Qed.

Lemma appends_one_user_intro (m : Message) (w w' : World) (tail : list Message) :
  is_user m ->
  conversation (sess w') = (conversation (sess w) ++ [m]) ++ tail ->
  Forall (fun m' => ~ is_user m') tail ->
  appends_one_user m w w'.
Proof.
  intros Hm Hconv Htail. split; [exact Hm|].
  exists tail. split; [|exact Htail].
  rewrite Hconv, <- app_assoc. reflexivity.
Qed.

#[global] Instance records_no_answer_preorder :
  PreOrder (@records_no_answer W Checker Samples).
Proof.
  split.
  - intros w. reflexivity.
  - intros w1 w2 w3 H12 H23. unfold records_no_answer in *. congruence.
Qed.

Lemma aside_records_no_answer (w w' : World) : aside w w' -> records_no_answer w w'.
Proof.
  intros [_ (evs & Hc & Hf)]. unfold records_no_answer.
  rewrite Hc, answers_recorded_app, (no_checker_call_answers evs Hf). lia.
Qed.

End Relations.

Create HintDb aside_facts discriminated.

#[global] Hint Resolve persist_aside save_memory_aside translate_aside
  append_bullets_aside render_aside translate_question_aside : aside_facts.

#[global] Hint Extern 1 (respects appends_no_user _) =>
  (eapply (respects_weaken aside);
   [exact aside_appends_no_user | solve [auto with aside_facts]]) : respects.
#[global] Hint Extern 1 (respects keeps_pending_has_checker _) =>
  (eapply (respects_weaken aside);
   [exact aside_keeps_pending_has_checker | solve [auto with aside_facts]])
  : respects.
#[global] Hint Extern 1 (respects keeps_symptoms_distinct _) =>
  (eapply (respects_weaken aside);
   [exact aside_keeps_symptoms_distinct | solve [auto with aside_facts]])
  : respects.
#[global] Hint Extern 1 (respects grows_symptoms _) =>
  (eapply (respects_weaken aside);
   [exact aside_grows_symptoms | solve [auto with aside_facts]]) : respects.

#[global] Hint Extern 1 (respects records_no_answer _) =>
  (eapply (respects_weaken aside);
   [exact aside_records_no_answer | solve [auto with aside_facts]]) : respects.

Ltac no_answer_leaf :=
  unfold records_no_answer; simpl;
  rewrite ?answers_recorded_app; simpl; lia.

Ltac no_user_leaf :=
  simpl;
  first [ exists []; split; [simpl; symmetry; apply app_nil_r | constructor]
        | eexists [_]; split;
          [ simpl; reflexivity
          | repeat constructor; unfold is_user; rewrite role_new_message;
            discriminate ] ].

Ltac checker_leaf :=
  unfold keeps_pending_has_checker, pending_has_checker, clear_symptom_session;
  simpl;
  let Hinv := fresh "Hinv" in
  let Hp := fresh "Hp" in
  intros Hinv Hp; first [ exact (Hinv Hp) | congruence ].

Ltac distinct_leaf :=
  unfold keeps_symptoms_distinct, clear_symptom_session; simpl;
  let H := fresh "H" in
  intros H;
  first [ exact H | apply merge_symptoms_distinct; exact H | apply NoDup_nil_2 ].

Ltac grows_leaf :=
  unfold grows_symptoms, clear_symptom_session; simpl;
  first [ reflexivity | apply merge_symptoms_prefix ].

Section Handlers.

Context {W Checker Samples : Type}.
Variable E : @Env W Checker Samples.

Abbreviation World := (@World W Checker Samples).
Abbreviation M := (@M W Checker Samples).

(** Storing the question just fetched keeps the invariant, since the fetch
    itself went through the checker object. *)
Lemma respects_fetch_pending {A} (ev : Event) (op : Method (option Question))
  (k : option Question -> M A) :
  (forall next, respects keeps_pending_has_checker (k next)) ->
  respects keeps_pending_has_checker
    (bind (call_instance ev op)
       (fun next =>
          bind (assign (set_pending_symptom_question_data next))
            (fun _ => k next))).
Proof.
  intros Hk w. unfold bind, call_instance, assign.
  destruct (symptom_checker_instance (sess w)) as [c|] eqn:Hc; simpl;
    [|intros H; exact H].
  destruct (op c (ext w)) as [[[e|next] c'] x]; simpl.
  - checker_leaf.
  - match goal with
    | |- context [k next ?w0] => specialize (Hk next w0)
    end.
    intros _. apply Hk. checker_leaf.
Qed.

End Handlers.

Ltac checker_auto :=
  repeat first [ solve [auto with respects]
               | apply respects_fetch_pending; intros ?
               | respects_step
               | respects_prim ltac:(checker_leaf) ].

(** ** Every handler and every interaction preserves the relations *)

Lemma assessment_appends_no_user {W Checker Samples : Type} (E : @Env W Checker Samples) :
  respects appends_no_user (generate_and_display_assessment E).
Proof.
  unfold generate_and_display_assessment; respects_auto ltac:(no_user_leaf).
Qed.

#[global] Hint Resolve assessment_appends_no_user : respects.

Lemma assessment_keeps_pending_has_checker {W Checker Samples : Type} (E : @Env W Checker Samples) :
  respects keeps_pending_has_checker (generate_and_display_assessment E).
Proof.
  unfold generate_and_display_assessment; checker_auto.
Qed.

#[global] Hint Resolve assessment_keeps_pending_has_checker : respects.

Lemma assessment_keeps_symptoms_distinct {W Checker Samples : Type} (E : @Env W Checker Samples) :
  respects keeps_symptoms_distinct (generate_and_display_assessment E).
Proof.
  unfold generate_and_display_assessment; respects_auto ltac:(distinct_leaf).
Qed.

#[global] Hint Resolve assessment_keeps_symptoms_distinct : respects.

Lemma assessment_grows_symptoms {W Checker Samples : Type} (E : @Env W Checker Samples) :
  respects grows_symptoms (generate_and_display_assessment E).
Proof.
  unfold generate_and_display_assessment; respects_auto ltac:(grows_leaf).
Qed.

#[global] Hint Resolve assessment_grows_symptoms : respects.

Lemma session_context_aside {W Checker Samples : Type} (E : @Env W Checker Samples) :
  respects aside (build_session_context E).
Proof.
  unfold build_session_context; respects_auto ltac:(aside_leaf).
Qed.

#[global] Hint Resolve session_context_aside : aside_facts.

Lemma response_appends_no_user {W Checker Samples : Type} (E : @Env W Checker Samples) (user_query_text lang_code : string) :
  respects appends_no_user (process_and_display_response E user_query_text lang_code).
Proof.
  unfold process_and_display_response, response_body, response_handler;
    respects_auto ltac:(no_user_leaf).
Qed.

#[global] Hint Resolve response_appends_no_user : respects.

Lemma response_keeps_pending_has_checker {W Checker Samples : Type} (E : @Env W Checker Samples) (user_query_text lang_code : string) :
  respects keeps_pending_has_checker (process_and_display_response E user_query_text lang_code).
Proof.
  unfold process_and_display_response, response_body, response_handler;
    checker_auto.
Qed.

#[global] Hint Resolve response_keeps_pending_has_checker : respects.

Lemma response_keeps_symptoms_distinct {W Checker Samples : Type} (E : @Env W Checker Samples) (user_query_text lang_code : string) :
  respects keeps_symptoms_distinct (process_and_display_response E user_query_text lang_code).
Proof.
  unfold process_and_display_response, response_body, response_handler;
    respects_auto ltac:(distinct_leaf).
Qed.

#[global] Hint Resolve response_keeps_symptoms_distinct : respects.

Lemma response_grows_symptoms {W Checker Samples : Type} (E : @Env W Checker Samples) (user_query_text lang_code : string) :
  respects grows_symptoms (process_and_display_response E user_query_text lang_code).
Proof.
  unfold process_and_display_response, response_body, response_handler;
    respects_auto ltac:(grows_leaf).
Qed.

#[global] Hint Resolve response_grows_symptoms : respects.

Lemma follow_up_keeps_pending_has_checker {W Checker Samples : Type} (E : @Env W Checker Samples) (answer_text : string) :
  respects keeps_pending_has_checker (handle_follow_up_answer E answer_text).
Proof.
  unfold handle_follow_up_answer; checker_auto.
Qed.

#[global] Hint Resolve follow_up_keeps_pending_has_checker : respects.

Lemma follow_up_keeps_symptoms_distinct {W Checker Samples : Type} (E : @Env W Checker Samples) (answer_text : string) :
  respects keeps_symptoms_distinct (handle_follow_up_answer E answer_text).
Proof.
  unfold handle_follow_up_answer; respects_auto ltac:(distinct_leaf).
Qed.

#[global] Hint Resolve follow_up_keeps_symptoms_distinct : respects.

Lemma follow_up_grows_symptoms {W Checker Samples : Type} (E : @Env W Checker Samples) (answer_text : string) :
  respects grows_symptoms (handle_follow_up_answer E answer_text).
Proof.
  unfold handle_follow_up_answer; respects_auto ltac:(grows_leaf).
Qed.

#[global] Hint Resolve follow_up_grows_symptoms : respects.

Lemma submission_keeps_pending_has_checker {W Checker Samples : Type} (E : @Env W Checker Samples) :
  respects keeps_pending_has_checker (handle_text_submission E).
Proof.
  unfold handle_text_submission; checker_auto.
Qed.

#[global] Hint Resolve submission_keeps_pending_has_checker : respects.

Lemma submission_keeps_symptoms_distinct {W Checker Samples : Type} (E : @Env W Checker Samples) :
  respects keeps_symptoms_distinct (handle_text_submission E).
Proof.
  unfold handle_text_submission; respects_auto ltac:(distinct_leaf).
Qed.

#[global] Hint Resolve submission_keeps_symptoms_distinct : respects.

Lemma submission_grows_symptoms {W Checker Samples : Type} (E : @Env W Checker Samples) :
  respects grows_symptoms (handle_text_submission E).
Proof.
  unfold handle_text_submission; respects_auto ltac:(grows_leaf).
Qed.

#[global] Hint Resolve submission_grows_symptoms : respects.

Lemma capture_keeps_pending_has_checker {W Checker Samples : Type} (E : @Env W Checker Samples) :
  respects keeps_pending_has_checker (capture_and_clean E).
Proof.
  unfold capture_and_clean; checker_auto.
Qed.

#[global] Hint Resolve capture_keeps_pending_has_checker : respects.

Lemma capture_keeps_symptoms_distinct {W Checker Samples : Type} (E : @Env W Checker Samples) :
  respects keeps_symptoms_distinct (capture_and_clean E).
Proof.
  unfold capture_and_clean; respects_auto ltac:(distinct_leaf).
Qed.

#[global] Hint Resolve capture_keeps_symptoms_distinct : respects.

Lemma capture_grows_symptoms {W Checker Samples : Type} (E : @Env W Checker Samples) :
  respects grows_symptoms (capture_and_clean E).
Proof.
  unfold capture_and_clean; respects_auto ltac:(grows_leaf).
Qed.

#[global] Hint Resolve capture_grows_symptoms : respects.

Lemma transcribed_text_aside {W Checker Samples : Type} (E : @Env W Checker Samples) (audio : Samples) (lang_for_stt : string) :
  respects aside (transcribed_text E audio lang_for_stt).
Proof.
  unfold transcribed_text; respects_auto ltac:(aside_leaf).
Qed.

#[global] Hint Resolve transcribed_text_aside : aside_facts.

Lemma stt_keeps_pending_has_checker {W Checker Samples : Type} (E : @Env W Checker Samples) :
  respects keeps_pending_has_checker (process_stt E).
Proof.
  unfold process_stt; checker_auto.
Qed.

#[global] Hint Resolve stt_keeps_pending_has_checker : respects.

Lemma stt_keeps_symptoms_distinct {W Checker Samples : Type} (E : @Env W Checker Samples) :
  respects keeps_symptoms_distinct (process_stt E).
Proof.
  unfold process_stt; respects_auto ltac:(distinct_leaf).
Qed.

#[global] Hint Resolve stt_keeps_symptoms_distinct : respects.

Lemma stt_grows_symptoms {W Checker Samples : Type} (E : @Env W Checker Samples) :
  respects grows_symptoms (process_stt E).
Proof.
  unfold process_stt; respects_auto ltac:(grows_leaf).
Qed.

#[global] Hint Resolve stt_grows_symptoms : respects.

Lemma voice_pipeline_keeps_pending_has_checker {W Checker Samples : Type} (E : @Env W Checker Samples) :
  respects keeps_pending_has_checker (voice_pipeline E).
Proof.
  unfold voice_pipeline; checker_auto.
Qed.

#[global] Hint Resolve voice_pipeline_keeps_pending_has_checker : respects.

Lemma voice_pipeline_keeps_symptoms_distinct {W Checker Samples : Type} (E : @Env W Checker Samples) :
  respects keeps_symptoms_distinct (voice_pipeline E).
Proof.
  unfold voice_pipeline; respects_auto ltac:(distinct_leaf).
Qed.

#[global] Hint Resolve voice_pipeline_keeps_symptoms_distinct : respects.

Lemma voice_pipeline_grows_symptoms {W Checker Samples : Type} (E : @Env W Checker Samples) :
  respects grows_symptoms (voice_pipeline E).
Proof.
  unfold voice_pipeline; respects_auto ltac:(grows_leaf).
Qed.

#[global] Hint Resolve voice_pipeline_grows_symptoms : respects.

Lemma login_refresh_keeps_pending_has_checker {W Checker Samples : Type} (E : @Env W Checker Samples) :
  respects keeps_pending_has_checker (login_refresh E).
Proof.
  unfold login_refresh; checker_auto.
Qed.

#[global] Hint Resolve login_refresh_keeps_pending_has_checker : respects.

Lemma login_refresh_keeps_symptoms_distinct {W Checker Samples : Type} (E : @Env W Checker Samples) :
  respects keeps_symptoms_distinct (login_refresh E).
Proof.
  unfold login_refresh; respects_auto ltac:(distinct_leaf).
Qed.

#[global] Hint Resolve login_refresh_keeps_symptoms_distinct : respects.

Lemma login_refresh_grows_symptoms {W Checker Samples : Type} (E : @Env W Checker Samples) :
  respects grows_symptoms (login_refresh E).
Proof.
  unfold login_refresh; respects_auto ltac:(grows_leaf).
Qed.

#[global] Hint Resolve login_refresh_grows_symptoms : respects.

Lemma language_change_keeps_pending_has_checker {W Checker Samples : Type} (display : string) :
  respects keeps_pending_has_checker (@language_change W Checker Samples display).
Proof.
  unfold language_change; checker_auto.
Qed.

#[global] Hint Resolve language_change_keeps_pending_has_checker : respects.

Lemma language_change_keeps_symptoms_distinct {W Checker Samples : Type} (display : string) :
  respects keeps_symptoms_distinct (@language_change W Checker Samples display).
Proof.
  unfold language_change; respects_auto ltac:(distinct_leaf).
Qed.

#[global] Hint Resolve language_change_keeps_symptoms_distinct : respects.

Lemma clear_session_keeps_pending_has_checker {W Checker Samples : Type} :
  respects keeps_pending_has_checker (@clear_session W Checker Samples).
Proof.
  unfold clear_session; checker_auto.
Qed.

#[global] Hint Resolve clear_session_keeps_pending_has_checker : respects.

Lemma clear_session_keeps_symptoms_distinct {W Checker Samples : Type} :
  respects keeps_symptoms_distinct (@clear_session W Checker Samples).
Proof.
  unfold clear_session; respects_auto ltac:(distinct_leaf).
Qed.

#[global] Hint Resolve clear_session_keeps_symptoms_distinct : respects.

Lemma new_chat_keeps_pending_has_checker {W Checker Samples : Type} :
  respects keeps_pending_has_checker (@new_chat W Checker Samples).
Proof.
  unfold new_chat; checker_auto.
Qed.

#[global] Hint Resolve new_chat_keeps_pending_has_checker : respects.

Lemma new_chat_keeps_symptoms_distinct {W Checker Samples : Type} :
  respects keeps_symptoms_distinct (@new_chat W Checker Samples).
Proof.
  unfold new_chat; respects_auto ltac:(distinct_leaf).
Qed.

#[global] Hint Resolve new_chat_keeps_symptoms_distinct : respects.

Lemma new_chat_grows_symptoms {W Checker Samples : Type} :
  respects grows_symptoms (@new_chat W Checker Samples).
Proof.
  unfold new_chat; respects_auto ltac:(grows_leaf).
Qed.

#[global] Hint Resolve new_chat_grows_symptoms : respects.

Lemma open_chat_keeps_pending_has_checker {W Checker Samples : Type} (E : @Env W Checker Samples) (c : Chat) :
  respects keeps_pending_has_checker (open_chat E c).
Proof.
  unfold open_chat; checker_auto.
Qed.

#[global] Hint Resolve open_chat_keeps_pending_has_checker : respects.

Lemma open_chat_keeps_symptoms_distinct {W Checker Samples : Type} (E : @Env W Checker Samples) (c : Chat) :
  respects keeps_symptoms_distinct (open_chat E c).
Proof.
  unfold open_chat; respects_auto ltac:(distinct_leaf).
Qed.

#[global] Hint Resolve open_chat_keeps_symptoms_distinct : respects.

Lemma open_chat_grows_symptoms {W Checker Samples : Type} (E : @Env W Checker Samples) (c : Chat) :
  respects grows_symptoms (open_chat E c).
Proof.
  unfold open_chat; respects_auto ltac:(grows_leaf).
Qed.

#[global] Hint Resolve open_chat_grows_symptoms : respects.

Lemma sign_in_keeps_pending_has_checker {W Checker Samples : Type} (sb : SupabaseSession) :
  respects keeps_pending_has_checker (@sign_in W Checker Samples sb).
Proof.
  unfold sign_in; checker_auto.
Qed.

#[global] Hint Resolve sign_in_keeps_pending_has_checker : respects.

Lemma sign_in_keeps_symptoms_distinct {W Checker Samples : Type} (sb : SupabaseSession) :
  respects keeps_symptoms_distinct (@sign_in W Checker Samples sb).
Proof.
  unfold sign_in; respects_auto ltac:(distinct_leaf).
Qed.

#[global] Hint Resolve sign_in_keeps_symptoms_distinct : respects.

Lemma sign_in_grows_symptoms {W Checker Samples : Type} (sb : SupabaseSession) :
  respects grows_symptoms (@sign_in W Checker Samples sb).
Proof.
  unfold sign_in; respects_auto ltac:(grows_leaf).
Qed.

#[global] Hint Resolve sign_in_grows_symptoms : respects.

Lemma logout_keeps_pending_has_checker {W Checker Samples : Type} (E : @Env W Checker Samples) :
  respects keeps_pending_has_checker (logout E).
Proof.
  unfold logout; checker_auto.
Qed.

#[global] Hint Resolve logout_keeps_pending_has_checker : respects.

Lemma logout_keeps_symptoms_distinct {W Checker Samples : Type} (E : @Env W Checker Samples) :
  respects keeps_symptoms_distinct (logout E).
Proof.
  unfold logout; respects_auto ltac:(distinct_leaf).
Qed.

#[global] Hint Resolve logout_keeps_symptoms_distinct : respects.

Lemma logout_grows_symptoms {W Checker Samples : Type} (E : @Env W Checker Samples) :
  respects grows_symptoms (logout E).
Proof.
  unfold logout; respects_auto ltac:(grows_leaf).
Qed.

#[global] Hint Resolve logout_grows_symptoms : respects.

Lemma save_profile_keeps_pending_has_checker {W Checker Samples : Type} (E : @Env W Checker Samples) (profile_dict : gmap string string) :
  respects keeps_pending_has_checker (save_profile E profile_dict).
Proof.
  unfold save_profile; checker_auto.
Qed.

#[global] Hint Resolve save_profile_keeps_pending_has_checker : respects.

Lemma save_profile_keeps_symptoms_distinct {W Checker Samples : Type} (E : @Env W Checker Samples) (profile_dict : gmap string string) :
  respects keeps_symptoms_distinct (save_profile E profile_dict).
Proof.
  unfold save_profile; respects_auto ltac:(distinct_leaf).
Qed.

#[global] Hint Resolve save_profile_keeps_symptoms_distinct : respects.

Lemma save_profile_grows_symptoms {W Checker Samples : Type} (E : @Env W Checker Samples) (profile_dict : gmap string string) :
  respects grows_symptoms (save_profile E profile_dict).
Proof.
  unfold save_profile; respects_auto ltac:(grows_leaf).
Qed.

#[global] Hint Resolve save_profile_grows_symptoms : respects.

Lemma script_run_keeps_pending_has_checker {W Checker Samples : Type} (E : @Env W Checker Samples) :
  respects keeps_pending_has_checker (script_run E).
Proof.
  unfold script_run; checker_auto.
Qed.

#[global] Hint Resolve script_run_keeps_pending_has_checker : respects.

Lemma script_run_keeps_symptoms_distinct {W Checker Samples : Type} (E : @Env W Checker Samples) :
  respects keeps_symptoms_distinct (script_run E).
Proof.
  unfold script_run; respects_auto ltac:(distinct_leaf).
Qed.

#[global] Hint Resolve script_run_keeps_symptoms_distinct : respects.

Lemma script_run_grows_symptoms {W Checker Samples : Type} (E : @Env W Checker Samples) :
  respects grows_symptoms (script_run E).
Proof.
  unfold script_run; respects_auto ltac:(grows_leaf).
Qed.

#[global] Hint Resolve script_run_grows_symptoms : respects.

Lemma interaction_keeps_pending_has_checker {W Checker Samples : Type} (E : @Env W Checker Samples) (a : Action) :
  respects keeps_pending_has_checker (interaction E a).
Proof.
  destruct a; unfold interaction; checker_auto.
Qed.

#[global] Hint Resolve interaction_keeps_pending_has_checker : respects.

Lemma interaction_keeps_symptoms_distinct {W Checker Samples : Type} (E : @Env W Checker Samples) (a : Action) :
  respects keeps_symptoms_distinct (interaction E a).
Proof.
  destruct a; unfold interaction; respects_auto ltac:(distinct_leaf).
Qed.

#[global] Hint Resolve interaction_keeps_symptoms_distinct : respects.

Lemma assessment_records_no_answer {W Checker Samples : Type}
  (E : @Env W Checker Samples) :
  respects records_no_answer (generate_and_display_assessment E).
Proof.
  unfold generate_and_display_assessment; respects_auto ltac:(no_answer_leaf).
Qed.

#[global] Hint Resolve assessment_records_no_answer : respects.

Lemma response_records_no_answer {W Checker Samples : Type}
  (E : @Env W Checker Samples) (user_query_text lang_code : string) :
  respects records_no_answer
    (process_and_display_response E user_query_text lang_code).
Proof.
  unfold process_and_display_response, response_body, response_handler;
    respects_auto ltac:(no_answer_leaf).
Qed.

#[global] Hint Resolve response_records_no_answer : respects.

(** The voice branch never hands an answer to the checker, whatever the
    session holds when the recording arrives. *)
Lemma stt_records_no_answer {W Checker Samples : Type}
  (E : @Env W Checker Samples) :
  respects records_no_answer (process_stt E).
Proof.
  unfold process_stt; respects_auto ltac:(no_answer_leaf).
Qed.

(** ** Invariants of reachable worlds *)

Section Reachable.

Context {W Checker Samples : Type}.
Variable E : @Env W Checker Samples.

Abbreviation World := (@World W Checker Samples).

Lemma run_actions_pending_has_checker (actions : list Action) (w : World) :
  pending_has_checker (sess w) ->
  pending_has_checker (sess (run_actions E actions w)).
Proof.
  revert w. induction actions as [|a actions IH]; intros w Hw; simpl; [exact Hw|].
  apply IH. apply (interaction_keeps_pending_has_checker E a w), Hw.
Qed.

Lemma run_actions_symptoms_distinct (actions : list Action) (w : World) :
  NoDup (extracted_symptoms (sess w)) ->
  NoDup (extracted_symptoms (sess (run_actions E actions w))).
Proof.
  revert w. induction actions as [|a actions IH]; intros w Hw; simpl; [exact Hw|].
  apply IH. apply (interaction_keeps_symptoms_distinct E a w), Hw.
Qed.

(** In every reachable world a pending question comes with the checker
    object that asked it: the follow-up path never finds the instance
    missing. *)
Lemma reachable_pending_has_checker (w : World) :
  reachable E w -> pending_has_checker (sess w).
Proof.
  intros (x & actions & ->). apply run_actions_pending_has_checker.
  intros H. contradiction.
Qed.

Lemma reachable_symptoms_distinct (w : World) :
  reachable E w -> NoDup (extracted_symptoms (sess w)).
Proof.
  intros (x & actions & ->). apply run_actions_symptoms_distinct.
  apply NoDup_nil_2.
Qed.

Lemma reachable_step (w : World) (a : Action) :
  reachable E w -> reachable E (step E a w).
Proof.
  intros (x & actions & ->). exists x, (actions ++ [a]).
  unfold run_actions. rewrite fold_left_app. reflexivity.
Qed.

End Reachable.

(** ** One user message per submission *)

Ltac close_one_user :=
  first
    [ eapply (appends_one_user_intro _ _ _ []);
      [ apply role_new_message
      | simpl; rewrite app_nil_r; reflexivity
      | constructor ]
    | eapply (appends_one_user_intro _ _ _ [_]);
      [ apply role_new_message
      | simpl; reflexivity
      | repeat constructor; unfold is_user; simpl; rewrite ?role_new_message;
        discriminate ] ].

Ltac close_one_user_with Hconv Htail :=
  eapply appends_one_user_intro;
  [ apply role_new_message | simpl; exact Hconv | exact Htail ].

Section OneUserMessage.

Context {W Checker Samples : Type}.
Variable E : @Env W Checker Samples.

Abbreviation World := (@World W Checker Samples).

Lemma submission_appends_one_user (w : World) (typed : string) :
  pending_has_checker (sess w) ->
  is_blank typed = false ->
  appends_one_user
    (new_message "user" (Py.strip typed)
       (Some (Py.before_dash (current_language_code (sess w)))))
    w (submit E typed w).
Proof.
  intros Hinv Hblank.
  unfold submit, handle_text_submission, bind, get_state, assign. simpl.
  rewrite truthy_strip_blank, Hblank. simpl.
  unfold follow_up_pending. simpl.
  destruct (symptom_checker_active (sess w)) eqn:Hactive; simpl.
  - destruct (pending_symptom_question_data (sess w)) as [p|] eqn:Hpend; simpl.
    + destruct (symptom_checker_instance (sess w)) as [c|] eqn:Hinst;
        [|exfalso; apply Hinv; [rewrite Hpend; discriminate | exact Hinst]].
      unfold handle_follow_up_answer, bind, get_state, assign. simpl.
      rewrite Hinst, Hpend. simpl.
      unfold add_message_to_conversation, assign. simpl.
      run_persist. unfold call_instance. simpl. rewrite Hinst.
      destruct (record_answer E (symptom_name p) (question p) (Py.strip typed) c x)
        as [[[e|[]] c1] x1]; simpl; [close_one_user|].
      destruct (get_next_question E c1 x1) as [[[e|next] c2] x2]; simpl;
        [close_one_user|].
      destruct next as [q|]; simpl.
      * match goal with
        | |- context [translate_question E ?q ?l ?w0] =>
            pose proof (translate_question_aside E q l w0) as Htr;
            destruct (translate_question E q l w0) as [tq w1|e w1]
        end; simpl in Htr; open_aside Htr; simpl; [run_persist|]; close_one_user.
      * match goal with
        | |- context [generate_and_display_assessment E ?w0] =>
            pose proof (assessment_appends_no_user E w0) as Hgen;
            destruct (generate_and_display_assessment E w0) as [[] w1|e w1]
        end; simpl in Hgen; destruct Hgen as (tail & Hconv & Htail);
          simpl in Hconv; close_one_user_with Hconv Htail.
    + unfold add_message_to_conversation, assign. simpl.
      run_persist. rewrite Hactive. unfold clear_symptom_session. simpl.
      match goal with
      | |- context [process_and_display_response E ?t ?l ?w0] =>
          pose proof (response_appends_no_user E t l w0) as Hresp;
          destruct (process_and_display_response E t l w0) as [[] w1|e w1]
      end; simpl in Hresp; destruct Hresp as (tail & Hconv & Htail);
        simpl in Hconv; close_one_user_with Hconv Htail.
  - unfold add_message_to_conversation, assign. simpl.
    run_persist. rewrite Hactive. unfold ret. simpl.
    match goal with
    | |- context [process_and_display_response E ?t ?l ?w0] =>
        pose proof (response_appends_no_user E t l w0) as Hresp;
        destruct (process_and_display_response E t l w0) as [[] w1|e w1]
    end; simpl in Hresp; destruct Hresp as (tail & Hconv & Htail);
      simpl in Hconv; close_one_user_with Hconv Htail.
Qed.

(** The typed sibling: with a question pending, the text goes to the
    checker as the answer to it, exactly once. *)
Lemma submission_records_answer (w : World) (typed : string) (c : Checker) :
  follow_up_pending (sess w) = true ->
  symptom_checker_instance (sess w) = Some c ->
  is_blank typed = false ->
  answers_recorded (calls (submit E typed w)) = S (answers_recorded (calls w)).
Proof.
  intros Hroute Hinst Hblank.
  unfold follow_up_pending in Hroute.
  apply andb_prop in Hroute as [Hactive Hsome].
  apply bool_decide_eq_true in Hsome as [p Hpend].
  unfold submit, handle_text_submission, bind, get_state, assign. simpl.
  rewrite truthy_strip_blank, Hblank. simpl.
  unfold follow_up_pending. simpl. rewrite Hactive, Hpend. simpl.
  unfold handle_follow_up_answer, bind, get_state, assign. simpl.
  rewrite Hinst, Hpend. simpl.
  unfold add_message_to_conversation, assign. simpl.
  run_persist. unfold call_instance. simpl. rewrite Hinst.
  destruct (record_answer E (symptom_name p) (question p) (Py.strip typed) c x)
    as [[[e|[]] c1] x1]; simpl; [count_calls|].
  destruct (get_next_question E c1 x1) as [[[e|next] c2] x2]; simpl;
    [count_calls|].
  destruct next as [q|]; simpl.
  - match goal with
    | |- context [translate_question E ?q ?l ?w0] =>
        pose proof (translate_question_aside E q l w0) as Htr;
        destruct (translate_question E q l w0) as [tq w1|e w1]
    end; simpl in Htr; open_aside Htr; simpl; [run_persist|]; count_calls.
  - match goal with
    | |- context [generate_and_display_assessment E ?w0] =>
        pose proof (assessment_records_no_answer E w0) as Hgen;
        destruct (generate_and_display_assessment E w0) as [[] w1|e w1]
    end; unfold records_no_answer in Hgen; simpl in Hgen; simpl; rewrite Hgen;
      count_calls.
Qed.

(** When [record_answer] raises, the exception leaves the callback: nothing
    on the follow-up path catches it, no diagnostic is appended and the
    symptom session stays as it was. *)
Lemma follow_up_raise_escapes (w : World) (typed : string) (c : Checker)
  (p : Question) (e : Exn) :
  symptom_checker_active (sess w) = true ->
  symptom_checker_instance (sess w) = Some c ->
  pending_symptom_question_data (sess w) = Some p ->
  is_blank typed = false ->
  (forall x, exists c1 x1,
      record_answer E (symptom_name p) (question p) (Py.strip typed) c x
      = (inl e, c1, x1)) ->
  exists w',
    bind (assign (set_text_query_input_area typed))
      (fun _ => handle_text_submission E) w = Raised e w'
    /\ system_messages (conversation (sess w'))
       = system_messages (conversation (sess w))
    /\ symptom_checker_active (sess w') = true
    /\ pending_symptom_question_data (sess w') = Some p
    /\ is_Some (symptom_checker_instance (sess w')).
Proof.
  intros Hactive Hinst Hpend Hblank Hraises.
  unfold handle_text_submission, bind, get_state, assign. simpl.
  rewrite truthy_strip_blank, Hblank. simpl.
  unfold follow_up_pending. simpl. rewrite Hactive, Hpend. simpl.
  unfold handle_follow_up_answer, bind, get_state, assign. simpl.
  rewrite Hinst, Hpend. simpl.
  unfold add_message_to_conversation, assign. simpl.
  run_persist. unfold call_instance. simpl. rewrite Hinst.
  destruct (Hraises x) as (c1 & x1 & Hrec). rewrite Hrec. simpl.
  eexists. split; [reflexivity|]. simpl.
  split; [|split; [exact Hactive|split; [exact Hpend|eexists; reflexivity]]].
  unfold system_messages. rewrite filter_app.
  rewrite (filter_cons_False _ _ []), filter_nil, app_nil_r; [reflexivity|].
  rewrite role_new_message. discriminate.
Qed.

(** A symptom report for which the checker has no question at all is
    assessed at once: one assessment requested, one assistant message, and
    the symptom session closed again. *)
Lemma symptom_query_without_questions (w : World) (text lang_code : string)
  (nlu : NLUResult) (a : Assessment) (c0 c1 c2 c3 : Checker) (x1 x2 x3 x4 x5 : W) :
  Py.truthy (SARVAM_API_KEY E) = true ->
  process_transcription E text lang_code (ext w) = (inr nlu, x1) ->
  is_symptom_query (intent nlu) = true ->
  is_emergency nlu = false ->
  SymptomChecker E nlu (SARVAM_API_KEY E) x1 = (inr c0, x2) ->
  prepare_follow_up_questions E c0 x2 = (inr tt, c1, x3) ->
  get_next_question E c1 x3 = (inr None, c2, x4) ->
  generate_preliminary_assessment E c2 x4 = (inr a, c3, x5) ->
  exists w' reply,
    process_and_display_response E text lang_code w = Ok tt w'
    /\ conversation (sess w')
       = conversation (sess w) ++ [mkMessage "assistant" reply None]
    /\ symptom_checker_active (sess w') = false
    /\ symptom_checker_instance (sess w') = None
    /\ pending_symptom_question_data (sess w') = None
    /\ assessments (calls w') = S (assessments (calls w)).
Proof.
  intros Hkey Hnlu Hsym Hemerg Hnew Hprep Hnext Hgen.
  unfold process_and_display_response, _get_nlu_processor,
    _get_response_generator, _get_utils.
  rewrite Hkey. simpl.
  unfold bind, get_state, try_finally, try_except, response_body, bind, call,
    record_symptoms, assign, call_instance.
  simpl. rewrite Hnlu. simpl. rewrite Hsym, Hemerg. simpl.
  rewrite Hnew. simpl. rewrite Hprep. simpl. rewrite Hnext. simpl.
  match goal with
  | |- context [generate_and_display_assessment E ?w0] =>
      destruct (assessment_runs E w0 c2 c3 a x5 eq_refl Hgen)
        as (w' & Hrun & Hconv & Hact & Hin & Hpe & _ & _ & _ & _ & _ & Has & _)
  end.
  rewrite Hrun. simpl. eexists. eexists. split; [reflexivity|]. simpl.
  simpl in Hconv, Has.
  rewrite Hconv, Hact, Hin, Hpe, Has.
  split; [reflexivity|]. repeat split. count_calls.
Qed.

Lemma stt_appends_one_user (w w1 : World) (audio : Samples) (t : string) :
  voice_input_stage (sess w) = Some processing_stt ->
  cleaned_audio_data (sess w) = Some audio ->
  transcribed_text E audio (current_language_code (sess w)) w = Ok t w1 ->
  is_blank t = false ->
  appends_one_user
    (new_message "user" t
       (Some (Py.before_dash (current_language_code (sess w)))))
    w (final (process_stt E w)).
Proof.
  intros Hstage Hclean Hrun Hblank.
  pose proof (transcribed_text_same_session E audio
                (current_language_code (sess w)) w) as Hsame.
  rewrite Hrun in Hsame. unfold same_session in Hsame. simpl in Hsame.
  unfold process_stt, bind, get_state, try_except.
  rewrite Hstage, Hclean, Hrun.
  rewrite truthy_and_stripped, Hblank. simpl.
  unfold add_message_to_conversation, assign. simpl. rewrite Hsame.
  run_persist.
  match goal with
  | |- context [process_and_display_response E ?t ?l ?w0] =>
      pose proof (response_appends_no_user E t l w0) as Hresp;
      destruct (process_and_display_response E t l w0) as [[] w2|e w2]
  end; simpl in Hresp; destruct Hresp as (tail & Hconv & Htail);
    simpl in Hconv; unfold st_error, emit; simpl.
  - close_one_user_with Hconv Htail.
  - eapply (appends_one_user_intro _ _ _ (tail ++ [_]));
      [apply role_new_message | simpl; rewrite Hconv, app_assoc; reflexivity|].
    apply Forall_app. split; [exact Htail|].
    repeat constructor. unfold is_user. rewrite role_new_message. discriminate.
Qed.

(** C2: a non-blank submission appends exactly one user-role message,
    before anything else the turn appends, and everything else appended in
    that turn has another role. Typed text: in every reachable world, the
    stripped text, whichever path the router takes. Voice: in every world
    in which the voice block is about to transcribe, the transcribed text
    when it is not blank; and so for a whole run that starts with a
    recording waiting, when decoding and cleaning return. Response
    processing itself never appends a user message. *)
Theorem C2_one_user_message_per_submission (w : World) :
  reachable E w ->
  (forall typed,
      is_blank typed = false ->
      appends_one_user
        (new_message "user" (Py.strip typed)
           (Some (Py.before_dash (current_language_code (sess w)))))
        w (submit E typed w))
  /\ (forall (v v1 : World) audio t,
      voice_input_stage (sess v) = Some processing_stt ->
      cleaned_audio_data (sess v) = Some audio ->
      transcribed_text E audio (current_language_code (sess v)) v = Ok t v1 ->
      is_blank t = false ->
      appends_one_user
        (new_message "user" t
           (Some (Py.before_dash (current_language_code (sess v)))))
        v (final (process_stt E v)))
  /\ (forall (v v1 : World) bytes decoded cleaned x1 x2 t,
      captured_audio_data (sess v) = Some bytes ->
      sf_read E bytes (ext v) = (inr decoded, x1) ->
      get_cleaned_audio E (fst decoded) (snd decoded) x1 = (inr cleaned, x2) ->
      transcribed_text E (fst cleaned) (current_language_code (sess v))
        (mkWorld
           (set_voice_input_stage (Some processing_stt)
              (set_captured_audio_sample_rate (snd cleaned)
                 (set_cleaned_audio_data (Some (fst cleaned)) (sess v))))
           x2 (calls v ++ [EvSfRead; EvGetCleanedAudio]))
      = Ok t v1 ->
      is_blank t = false ->
      appends_one_user
        (new_message "user" t
           (Some (Py.before_dash (current_language_code (sess v)))))
        v (final (voice_pipeline E v)))
  /\ (forall text lang_code w0,
      appends_no_user w0 (final (process_and_display_response E text lang_code w0))).
Proof.
  intros Hreach. split; [|split; [|split]].
  - intros typed Hblank. apply submission_appends_one_user; [|exact Hblank].
    apply (reachable_pending_has_checker E), Hreach.
  - intros v v1 audio t. apply stt_appends_one_user.
  - intros v v1 bytes decoded cleaned x1 x2 t Hcap Hread Hclean Hrun Hblank.
    unfold voice_pipeline, capture_and_clean, bind, get_state, call, assign.
    rewrite Hcap. simpl. rewrite Hread. simpl. rewrite Hclean. simpl.
    rewrite <- app_assoc. simpl.
    match goal with
    | |- context [process_stt E ?v0] =>
        exact (stt_appends_one_user v0 v1 (fst cleaned) t eq_refl eq_refl
                 Hrun Hblank)
    end.
  - intros text lang_code w0. apply response_appends_no_user.
Qed.

End OneUserMessage.

Lemma C2_one_user_message_witness :
  let E := Demo.clinic "hello" in
  reachable E Demo.start
  /\ appends_one_user (new_message "user" "I have a fever" (Some "en"))
       Demo.start (submit E "  I have a fever " Demo.start)
  /\ appends_one_user (new_message "user" "hello" (Some "en"))
       Demo.listening (final (process_stt E Demo.listening))
  /\ appends_one_user (new_message "user" "hello" (Some "en"))
       Demo2.recorded (final (voice_pipeline E Demo2.recorded)).
Proof.
  intros E.
  assert (reachable E Demo.start) as Hreach by (exists tt, []; reflexivity).
  destruct (C2_one_user_message_per_submission E Demo.start Hreach)
    as (Htyped & Hvoice & Hrun & _).
  split; [exact Hreach|]. split; [|split].
  - apply (Htyped "  I have a fever "). vm_compute. reflexivity.
  - apply (Hvoice Demo.listening
             (mkWorld (sess Demo.listening) tt [EvTranscribeAudio "en-IN"])
             tt "hello"); vm_compute; reflexivity.
  - apply (Hrun Demo2.recorded
             (mkWorld
                (set_voice_input_stage (Some processing_stt)
                   (set_captured_audio_sample_rate 16000%Z
                      (set_cleaned_audio_data (Some tt) (sess Demo2.recorded))))
                tt [EvSfRead; EvGetCleanedAudio; EvTranscribeAudio "en-IN"])
             [] (tt, 48000%Z) (tt, 16000%Z) tt tt "hello");
      vm_compute; reflexivity.
Defined.

(** ** Distinct symptom names *)

Section DistinctSymptoms.

Context {W Checker Samples : Type}.
Variable E : @Env W Checker Samples.

Abbreviation World := (@World W Checker Samples).


(** C8: in every reachable world [extracted_symptoms] has no duplicates;
    every interaction other than the two deliberate resets only adds names
    at the end of the list (the old list is a prefix of the new one); and
    the two resets, clearing the session and changing the language, leave
    it empty (or, when the selected language is the current one or unknown,
    untouched). *)
Theorem C8_extracted_symptoms_distinct (w : World) :
  reachable E w ->
  NoDup (extracted_symptoms (sess w))
  /\ (forall a,
      resets_symptoms a = false ->
      extracted_symptoms (sess w) `prefix_of` extracted_symptoms (sess (step E a w)))
  /\ extracted_symptoms (sess (final (clear_session w))) = []
  /\ (forall display,
      let w' := final (language_change display w) in
      extracted_symptoms (sess w') = []
      \/ extracted_symptoms (sess w') = extracted_symptoms (sess w)).
Proof.
  intros Hreach. split; [|split; [|split]].
  - apply (reachable_symptoms_distinct E), Hreach.
  - intros a Ha. unfold step.
    assert (respects grows_symptoms (interaction E a)) as Hgrow
      by (destruct a; try discriminate; unfold interaction;
          respects_auto ltac:(grows_leaf)).
    apply Hgrow.
  - reflexivity.
  - intros display. unfold language_change, bind, get_state. cbv beta iota zeta.
    destruct (negb (String.eqb display (current_language_display (sess w))));
      [|right; reflexivity].
    unfold assign. cbv beta iota.
    destruct (language_code display LANGUAGE_MAP); [left|right]; reflexivity.
Qed.

End DistinctSymptoms.

Lemma C8_extracted_symptoms_witness :
  let E := Demo.clinic "hello" in
  let w := step E (SubmitText "fever and fever again") Demo.start in
  reachable E w /\ NoDup (extracted_symptoms (sess w)).
Proof.
  intros E w.
  assert (reachable E w) as Hreach
    by (apply reachable_step; exists tt, []; reflexivity).
  split; [exact Hreach|].
  exact (proj1 (C8_extracted_symptoms_distinct E w Hreach)).
Defined.


(** ** The follow-up loop on the test double *)

Lemma clinic_supplies :
  supplies (Demo.clinic "hello") [Demo.pain_question] Demo.fever_question
    [Demo.pain_question].
Proof.
  intros a x. exists [Demo.pain_question], x, [], x.
  split; [reflexivity|]. split; [reflexivity|].
  intros a' x'. exists [], x', [], x'.
  split; [reflexivity|]. split; [reflexivity|].
  exists Demo.fever_assessment, [], x'. reflexivity.
Qed.

Lemma C4_follow_up_loop_witness :
  let E := Demo.clinic "hello" in
  let w := Demo.asked E in
  let wn := answer_all E ["three days"; "yes, all day"] w in
  supplies E [Demo.pain_question] Demo.fever_question [Demo.pain_question]
  /\ symptom_checker_active (sess wn) = false
  /\ symptom_checker_instance (sess wn) = None
  /\ pending_symptom_question_data (sess wn) = None
  /\ assessments (calls wn) = S (assessments (calls w)).
Proof.
  intros E w wn. split; [exact clinic_supplies|].
  destruct (C4_follow_up_loop_terminates E [Demo.pain_question] w
              [Demo.pain_question] Demo.fever_question
              ["three days"; "yes, all day"])
    as [_ (Hact & Hinst & Hpend & Hass & _)].
  - vm_compute. reflexivity.
  - vm_compute. reflexivity.
  - vm_compute. reflexivity.
  - exact clinic_supplies.
  - reflexivity.
  - repeat constructor.
  - repeat split; assumption.
Defined.

Lemma C7_assessment_witness :
  let E := Demo.no_translator in
  let w := mkWorld (set_symptom_checker_instance (Some []) initial_session) tt [] in
  exists w',
    generate_and_display_assessment E w = Ok tt w'
    /\ conversation (sess w')
       = [mkMessage "assistant"
            ("Could not format assessment. Raw data:" +:+ Py.newline
             +:+ "```json" +:+ Py.newline +:+ "{}" +:+ Py.newline +:+ "```")
            None].
Proof.
  intros E w.
  destruct (C7_assessment_never_dropped E w [] [] Demo.fever_assessment tt)
    as (w' & reply & Hrun & Hconv & Hreply);
    [vm_compute; reflexivity | vm_compute; reflexivity |].
  exists w'. split; [exact Hrun|].
  vm_compute in Hreply. rewrite Hconv, Hreply. reflexivity.
Defined.

(** Rendering translates and lists every warning and every triage point,
    the first of each included, in the order of the source. *)
Lemma render_lists_every_item :
  exists text w',
    render_assessment (Demo.clinic "hello") Demo2.chest_assessment "en-IN"
      Demo.start
    = Ok text w'
    /\ calls w'
       = [EvTranslateText "Preliminary Health Assessment" "en-IN";
          EvTranslateText "Summary" "en-IN";
          EvTranslateText "Likely a viral fever." "en-IN";
          EvTranslateText "Suggested Severity" "en-IN";
          EvTranslateText "Low" "en-IN";
          EvTranslateText "Recommended Next Steps" "en-IN";
          EvTranslateText "Rest" "en-IN";
          EvTranslateText "Potential Warnings" "en-IN";
          EvTranslateText "Chest pain" "en-IN";
          EvTranslateText "Fainting" "en-IN";
          EvTranslateText "Relevant Triage Points from Knowledge Base" "en-IN";
          EvTranslateText "Seek care" "en-IN";
          EvTranslateText "Disclaimer" "en-IN";
          EvTranslateText "Always consult a doctor for medical advice." "en-IN"].
Proof. eexists. eexists. split; vm_compute; reflexivity. Qed.

(** A translator that fails on the first warning, or on the first triage
    point, makes rendering raise. *)
Lemma render_raises_on_first_item :
  (exists w',
      render_assessment (Demo2.fails_on "Chest pain") Demo2.chest_assessment
        "en-IN" Demo.start
      = Raised (Exception "translation unavailable") w')
  /\ (exists w',
      render_assessment (Demo2.fails_on "Seek care") Demo2.chest_assessment
        "en-IN" Demo.start
      = Raised (Exception "translation unavailable") w').
Proof. split; eexists; vm_compute; reflexivity. Qed.

(** ** Exceptions on the new-query path *)

Section NewQueryErrors.

Context {W Checker Samples : Type}.
Variable E : @Env W Checker Samples.

Abbreviation World := (@World W Checker Samples).

(** The sibling of the follow-up handler: whatever is raised under [try:]
    in [process_and_display_response] is caught there; one system message
    is appended, the symptom session is cleared and the voice stage reset. *)
Lemma response_catches (w w1 : World) (text lang_code : string) (e : Exn) :
  Py.truthy (SARVAM_API_KEY E) = true ->
  response_body E text lang_code (current_language_code (sess w)) w = Raised e w1 ->
  process_and_display_response E text lang_code w
  = Ok tt
      (mkWorld
         (set_voice_input_stage None
            (clear_symptom_session
               (set_conversation
                  (conversation (sess w1)
                   ++ [mkMessage "system" response_error_notice None])
                  (sess w1))))
         (ext w1)
         (calls w1 ++ [EvStError "Something went wrong while processing your message. Please try again or rephrase your question."])).
Proof.
  intros Hkey Hbody.
  unfold process_and_display_response, _get_nlu_processor,
    _get_response_generator, _get_utils.
  rewrite Hkey. simpl.
  unfold bind, get_state, try_finally, try_except. rewrite Hbody.
  reflexivity.
Qed.

Lemma response_returns (w : World) (text lang_code : string) :
  exists w',
    process_and_display_response E text lang_code w = Ok tt w'
    /\ voice_input_stage (sess w') = None.
Proof.
  unfold process_and_display_response, _get_nlu_processor,
    _get_response_generator, _get_utils.
  destruct (Py.truthy (SARVAM_API_KEY E)); simpl.
  - unfold bind, get_state, try_finally, try_except.
    destruct (response_body E text lang_code (current_language_code (sess w)) w)
      as [[] w1|e w1]; simpl; eexists; split; reflexivity.
  - eexists. split; reflexivity.
Qed.

End NewQueryErrors.

(** ** Where the code departs from the specification *)

(** C3, at a failing input: a follow-up question is pending and
    [record_answer] raises. The exception leaves [handle_text_submission]
    uncaught; no system message is appended; the session is still active
    with the same question pending and the checker instance in place. *)
Theorem C3_follow_up_exception_escapes :
  let E := Demo.broken_checker in
  let w := Demo.asked E in
  follow_up_pending (sess w) = true
  /\ exists w',
      bind (assign (set_text_query_input_area "three days"))
        (fun _ => handle_text_submission E) w
      = Raised (Exception "record_answer failed") w'
      /\ system_messages (conversation (sess w')) = []
      /\ symptom_checker_active (sess w') = true
      /\ symptom_checker_instance (sess w') = Some [Demo.pain_question]
      /\ pending_symptom_question_data (sess w') = Some Demo.fever_question.
Proof.
  split; [vm_compute; reflexivity|].
  eexists. split; [vm_compute; reflexivity|].
  vm_compute. repeat split; reflexivity.
Qed.

(** C1: the voice branch does not apply the router's rule. In general, it
    never hands an answer to the checker, whatever the session holds. At a
    failing input, with a follow-up question pending: the typed answer is
    recorded as the answer to it and the NLU engine is not consulted; the
    same words arriving through the voice branch are sent to the NLU engine
    as a new query, no answer is recorded, and the pending question is left
    unanswered. *)
Theorem C1_voice_answer_bypasses_router :
  (forall (W Checker Samples : Type) (E : @Env W Checker Samples)
          (w : @World W Checker Samples),
      answers_recorded (calls (final (process_stt E w)))
      = answers_recorded (calls w))
  /\ (let E := Demo.clinic "three days" in
      let w := Demo.asked E in
      let typed := step E (SubmitText "three days") w in
      let spoken := step E (RecordAudio []) w in
      follow_up_pending (sess w) = true
      /\ follow_up_answers (sess typed)
         = [mkFollowUpAnswer "fever" "How long have you had it?" "three days"]
      /\ answers_recorded (calls typed) = 1
      /\ nlu_requests (calls typed) = ["I have a fever"]
      /\ pending_symptom_question_data (sess typed) = Some Demo.pain_question
      /\ follow_up_answers (sess spoken) = []
      /\ answers_recorded (calls spoken) = 0
      /\ nlu_requests (calls spoken) = ["I have a fever"; "three days"]
      /\ pending_symptom_question_data (sess spoken) = Some Demo.fever_question).
Proof.
  split.
  - intros W Checker Samples E w. apply (stt_records_no_answer E w).
  - vm_compute. repeat split; reflexivity.
Qed.

(** C9, at a failing input: after a typed symptom report and a spoken
    reply that the NLU engine takes for a general question, the world is
    reachable, a follow-up question is still pending, and the symptom
    session is not active. *)
Theorem C9_pending_question_without_active_session :
  let E := Demo.clinic "three days" in
  let w := step E (RecordAudio []) (step E (SubmitText "I have a fever") Demo.start) in
  reachable E w
  /\ pending_symptom_question_data (sess w) = Some Demo.fever_question
  /\ symptom_checker_active (sess w) = false
  /\ symptom_checker_instance (sess w) = Some [Demo.pain_question].
Proof.
  split.
  - apply reachable_step, reachable_step. exists tt, []. reflexivity.
  - vm_compute. repeat split; reflexivity.
Qed.

(** * Further properties of the orchestration code *)

Lemma checker_calls_app (l1 l2 : list Event) :
  checker_calls (l1 ++ l2) = checker_calls l1 + checker_calls l2.
Proof.
  induction l1 as [|ev l1 IH]; simpl; [reflexivity|].
  destruct (is_checker_call ev); simpl; lia.
Qed.

Lemma no_checker_call_count (evs : list Event) :
  Forall (fun ev => is_checker_call ev = false) evs -> checker_calls evs = 0.
Proof.
  induction 1 as [|ev evs Hev _ IH]; simpl; [reflexivity|].
  rewrite Hev. exact IH.
Qed.

Ltac count_checker_calls :=
  rewrite ?checker_calls_app; simpl;
  repeat match goal with
         | H : Forall (fun ev => is_checker_call ev = false) ?evs |- _ =>
             rewrite ?(no_checker_call_count evs H); clear H
         end;
  lia.

(** ** Response processing *)

Section ResponseProcessing.

Context {W Checker Samples : Type}.
Variable E : @Env W Checker Samples.

Abbreviation World := (@World W Checker Samples).

(** X1: [process_and_display_response] returns normally whatever the NLU
    engine, the checker, the response generator, the translator and the
    backend do, and it always leaves the voice stage idle. *)
Theorem X1_response_never_raises (w : World) (text lang_code : string) :
  exists w',
    process_and_display_response E text lang_code w = Ok tt w'
    /\ voice_input_stage (sess w') = None.
Proof. apply response_returns. Qed.

(** X2: when anything under [try:] in [process_and_display_response]
    raises, the function still returns; what the body had written stays,
    exactly one system-role notice is appended after it, the symptom session
    is cleared (flag, instance and pending question) and the voice stage is
    idle. *)
Theorem X2_response_error_recovery
  (w w1 : World) (text lang_code : string) (e : Exn) :
  Py.truthy (SARVAM_API_KEY E) = true ->
  response_body E text lang_code (current_language_code (sess w)) w = Raised e w1 ->
  exists w',
    process_and_display_response E text lang_code w = Ok tt w'
    /\ conversation (sess w')
       = conversation (sess w1) ++ [mkMessage "system" response_error_notice None]
    /\ symptom_checker_active (sess w') = false
    /\ symptom_checker_instance (sess w') = None
    /\ pending_symptom_question_data (sess w') = None
    /\ voice_input_stage (sess w') = None
    /\ extracted_symptoms (sess w') = extracted_symptoms (sess w1)
    /\ follow_up_answers (sess w') = follow_up_answers (sess w1).
Proof.
  intros Hkey Hbody. eexists.
  split; [apply (response_catches E w w1 text lang_code e Hkey Hbody)|].
  simpl. repeat split; reflexivity.
Qed.

(** X3: an utterance that the NLU engine does not classify as a
    non-emergency symptom query (another intent, or an emergency) never
    reaches the symptom checker: no checker is constructed and none of its
    methods is called, whether the rest of the turn succeeds or fails, and
    the turn ends with the symptom session inactive. *)
Theorem X3_no_interview_without_symptom_query
  (w : World) (text lang_code : string) (nlu : NLUResult) (x1 : W) :
  Py.truthy (SARVAM_API_KEY E) = true ->
  process_transcription E text lang_code (ext w) = (inr nlu, x1) ->
  is_symptom_query (intent nlu) && negb (is_emergency nlu) = false ->
  exists w',
    process_and_display_response E text lang_code w = Ok tt w'
    /\ checker_calls (calls w') = checker_calls (calls w)
    /\ symptom_checker_active (sess w') = false
    /\ voice_input_stage (sess w') = None.
Proof.
  intros Hkey Hnlu Hcond.
  unfold process_and_display_response, _get_nlu_processor,
    _get_response_generator, _get_utils.
  rewrite Hkey. simpl.
  unfold bind, get_state, try_finally, try_except, response_body, bind, call,
    record_symptoms, assign, response_handler, st_error, emit.
  simpl. rewrite Hnlu. simpl. rewrite Hcond. simpl.
  match goal with
  | |- context [build_session_context E ?w0] =>
      pose proof (session_context_aside E w0) as Hctx;
      destruct (build_session_context E w0) as [ctx w2|e w2]
  end; simpl in Hctx; open_aside Hctx; simpl;
    [|eexists; split; [reflexivity|]; simpl;
      split; [count_checker_calls | split; reflexivity]].
  destruct (generate_response E text nlu ctx x) as [[e|bot] x2]; simpl;
    [eexists; split; [reflexivity|]; simpl;
     split; [count_checker_calls | split; reflexivity]|].
  match goal with
  | |- context [util_translate_text E ?t ?l ?w0] =>
      pose proof (translate_aside E t l w0) as Htr;
      destruct (util_translate_text E t l w0) as [tr w3|e w3]
  end; simpl in Htr; open_aside Htr; simpl;
    [|eexists; split; [reflexivity|]; simpl;
      split; [count_checker_calls | split; reflexivity]].
  unfold add_message_to_conversation, assign. simpl.
  run_persist. run_save_memory.
  eexists. split; [reflexivity|]. simpl.
  split; [count_checker_calls | split; reflexivity].
Qed.

(** X4: a symptom report for which the checker has a first question opens
    the interview: with a translator that does not raise, the turn ends
    with the session active, the checker instance stored, that question
    pending, and exactly one assistant message appended, holding the
    translated question, a colon, and the translated symptom name. The
    checker is asked for no assessment and handed no answer. *)
Theorem X4_symptom_report_opens_interview
  (w : World) (text lang_code : string) (nlu : NLUResult) (q : Question)
  (c0 c1 c2 : Checker) (x1 x2 x3 x4 : W) :
  Py.truthy (SARVAM_API_KEY E) = true ->
  process_transcription E text lang_code (ext w) = (inr nlu, x1) ->
  is_symptom_query (intent nlu) = true ->
  is_emergency nlu = false ->
  SymptomChecker E nlu (SARVAM_API_KEY E) x1 = (inr c0, x2) ->
  prepare_follow_up_questions E c0 x2 = (inr tt, c1, x3) ->
  get_next_question E c1 x3 = (inr (Some q), c2, x4) ->
  (forall t l x, exists t' x', translate_text E t l x = (inr t', x')) ->
  exists w' tq ts x5 x6,
    process_and_display_response E text lang_code w = Ok tt w'
    /\ translate_text E (question q) (current_language_code (sess w)) x4
       = (inr tq, x5)
    /\ translate_text E (symptom_name q) (current_language_code (sess w)) x5
       = (inr ts, x6)
    /\ conversation (sess w')
       = conversation (sess w)
         ++ [mkMessage "assistant" (tq +:+ ": " +:+ ts) None]
    /\ symptom_checker_active (sess w') = true
    /\ symptom_checker_instance (sess w') = Some c2
    /\ pending_symptom_question_data (sess w') = Some q
    /\ assessments (calls w') = assessments (calls w)
    /\ answers_recorded (calls w') = answers_recorded (calls w).
Proof.
  intros Hkey Hnlu Hsym Hemerg Hnew Hprep Hnext Htrans.
  destruct (Htrans (question q) (current_language_code (sess w)) x4)
    as (tq & x5 & Htq).
  destruct (Htrans (symptom_name q) (current_language_code (sess w)) x5)
    as (ts & x6 & Hts).
  unfold process_and_display_response, _get_nlu_processor,
    _get_response_generator, _get_utils.
  rewrite Hkey. simpl.
  unfold bind, get_state, try_finally, try_except, response_body, bind, call,
    record_symptoms, assign, call_instance.
  simpl. rewrite Hnlu. simpl. rewrite Hsym, Hemerg. simpl.
  rewrite Hnew. simpl. rewrite Hprep. simpl. rewrite Hnext. simpl.
  unfold translate_question, util_translate_text, util_call, _get_utils, bind,
    call, ret.
  rewrite Hkey. simpl. rewrite Htq. simpl. rewrite Hts. simpl.
  unfold add_message_to_conversation, assign. simpl.
  run_persist.
  eexists. exists tq, ts, x5, x6.
  split; [reflexivity|].
  split; [first [exact Htq | reflexivity]|].
  split; [first [exact Hts | reflexivity]|]. simpl.
  split; [reflexivity|]. split; [reflexivity|]. split; [reflexivity|].
  split; [reflexivity|]. split; count_calls.
Qed.

(** X5: a symptom report for which the checker has no question at all is
    assessed in the same turn: the checker is asked for exactly one
    assessment, exactly one assistant message is appended for it (no
    question message), and the symptom session is closed again: flag false,
    instance and pending question cleared. *)
Theorem X5_symptom_report_without_questions
  (w : World) (text lang_code : string)
  (nlu : NLUResult) (a : Assessment) (c0 c1 c2 c3 : Checker) (x1 x2 x3 x4 x5 : W) :
  Py.truthy (SARVAM_API_KEY E) = true ->
  process_transcription E text lang_code (ext w) = (inr nlu, x1) ->
  is_symptom_query (intent nlu) = true ->
  is_emergency nlu = false ->
  SymptomChecker E nlu (SARVAM_API_KEY E) x1 = (inr c0, x2) ->
  prepare_follow_up_questions E c0 x2 = (inr tt, c1, x3) ->
  get_next_question E c1 x3 = (inr None, c2, x4) ->
  generate_preliminary_assessment E c2 x4 = (inr a, c3, x5) ->
  exists w' reply,
    process_and_display_response E text lang_code w = Ok tt w'
    /\ conversation (sess w')
       = conversation (sess w) ++ [mkMessage "assistant" reply None]
    /\ symptom_checker_active (sess w') = false
    /\ symptom_checker_instance (sess w') = None
    /\ pending_symptom_question_data (sess w') = None
    /\ assessments (calls w') = S (assessments (calls w)).
Proof. apply symptom_query_without_questions. Qed.

End ResponseProcessing.

Lemma X2_response_error_recovery_witness :
  exists w',
    process_and_display_response Demo.no_translator "I have a fever" "en-IN"
      Demo.start = Ok tt w'
    /\ conversation (sess w')
       = [mkMessage "system" response_error_notice None]
    /\ symptom_checker_instance (sess w') = None.
Proof.
  destruct (X2_response_error_recovery Demo.no_translator Demo.start
              (final (response_body Demo.no_translator "I have a fever" "en-IN"
                        "en-IN" Demo.start))
              "I have a fever" "en-IN" (Exception "translation unavailable"))
    as (w' & Hrun & Hconv & _ & Hinst & _);
    [vm_compute; reflexivity | vm_compute; reflexivity |].
  exists w'. split; [exact Hrun|]. split; [|exact Hinst].
  rewrite Hconv. vm_compute. reflexivity.
Defined.

Lemma X3_no_interview_witness :
  exists w',
    process_and_display_response (Demo.clinic "hello") "what is a fever" "en-IN"
      Demo.start = Ok tt w'
    /\ checker_calls (calls w') = 0
    /\ symptom_checker_active (sess w') = false.
Proof.
  destruct (X3_no_interview_without_symptom_query (Demo.clinic "hello")
              Demo.start "what is a fever" "en-IN"
              (Demo.nlu "what is a fever") tt)
    as (w' & Hrun & Hcalls & Hact & _);
    [vm_compute; reflexivity | vm_compute; reflexivity | vm_compute; reflexivity |].
  exists w'. split; [exact Hrun|]. split; [exact Hcalls | exact Hact].
Defined.

Lemma X4_symptom_report_witness :
  exists w',
    process_and_display_response (Demo.clinic "hello") "I have a fever" "en-IN"
      Demo.start = Ok tt w'
    /\ conversation (sess w')
       = [mkMessage "assistant" "How long have you had it?: fever" None]
    /\ pending_symptom_question_data (sess w') = Some Demo.fever_question.
Proof.
  destruct (X4_symptom_report_opens_interview (Demo.clinic "hello")
              Demo.start "I have a fever" "en-IN" (Demo.nlu "I have a fever")
              Demo.fever_question
              [Demo.fever_question; Demo.pain_question]
              [Demo.fever_question; Demo.pain_question]
              [Demo.pain_question] tt tt tt tt)
    as (w' & tq & ts & x5 & x6 & Hrun & Htq & Hts & Hconv & _ & _ & Hpend & _);
    [ vm_compute; reflexivity | vm_compute; reflexivity | vm_compute; reflexivity
    | vm_compute; reflexivity | vm_compute; reflexivity | vm_compute; reflexivity
    | vm_compute; reflexivity
    | intros t l x; exists t, x; reflexivity |].
  exists w'. split; [exact Hrun|]. split; [|exact Hpend].
  vm_compute in Htq, Hts. injection Htq as <-. injection Hts as <-.
  rewrite Hconv. reflexivity.
Defined.

Lemma X5_symptom_report_without_questions_witness :
  let E := Demo.env [] false false (Demo.heard "hello") in
  exists w',
    process_and_display_response E "I have a fever" "en-IN" Demo.start = Ok tt w'
    /\ symptom_checker_instance (sess w') = None
    /\ assessments (calls w') = 1.
Proof.
  intros E.
  destruct (X5_symptom_report_without_questions E Demo.start
              "I have a fever" "en-IN" (Demo.nlu "I have a fever")
              Demo.fever_assessment [] [] [] [] tt tt tt tt tt)
    as (w' & reply & Hrun & _ & _ & Hinst & _ & Hass);
    [ vm_compute; reflexivity | vm_compute; reflexivity | vm_compute; reflexivity
    | vm_compute; reflexivity | vm_compute; reflexivity | vm_compute; reflexivity
    | vm_compute; reflexivity | vm_compute; reflexivity |].
  exists w'. split; [exact Hrun|]. split; [exact Hinst | exact Hass].
Defined.

(** ** The voice pipeline *)

Section VoicePipeline.

Context {W Checker Samples : Type}.
Variable E : @Env W Checker Samples.

Abbreviation World := (@World W Checker Samples).

Lemma process_stt_resets (w : World) (audio : Samples) :
  voice_input_stage (sess w) = Some processing_stt ->
  cleaned_audio_data (sess w) = Some audio ->
  exists w',
    process_stt E w = Ok tt w'
    /\ voice_input_stage (sess w') = None
    /\ captured_audio_data (sess w') = None
    /\ cleaned_audio_data (sess w') = None.
Proof.
  intros Hstage Hclean.
  unfold process_stt, bind, get_state, try_except.
  rewrite Hstage, Hclean.
  destruct (transcribed_text E audio (current_language_code (sess w)) w)
    as [t w1|e w1].
  - destruct (Py.truthy t && Py.truthy (Py.strip t)).
    + unfold add_message_to_conversation, assign. simpl.
      run_persist.
      match goal with
      | |- context [process_and_display_response E ?t ?l ?w0] =>
          destruct (response_returns E w0 t l) as (w2 & Hrun & _)
      end.
      rewrite Hrun. simpl.
      eexists. split; [reflexivity|]. simpl. repeat split.
    + simpl. eexists. split; [reflexivity|]. simpl. repeat split.
  - simpl. eexists. split; [reflexivity|]. simpl. repeat split.
Qed.

(** X6: a run of the voice branch never raises and never leaves a stage
    behind. Outside the stage [processing_stt] it does nothing at all; in
    that stage it returns with the stage idle and the cleaned audio gone,
    and, when there was cleaned audio to transcribe, with the raw recording
    gone too, whether transcription, translation or the response failed or
    succeeded. *)
Theorem X6_voice_branch_always_resets (w : World) :
  exists w',
    process_stt E w = Ok tt w'
    /\ (voice_input_stage (sess w) <> Some processing_stt -> w' = w)
    /\ (voice_input_stage (sess w) = Some processing_stt ->
        voice_input_stage (sess w') = None
        /\ cleaned_audio_data (sess w') = None
        /\ (cleaned_audio_data (sess w) <> None ->
            captured_audio_data (sess w') = None)).
Proof.
  destruct (voice_input_stage (sess w)) as [stage|] eqn:Hstage.
  - destruct stage;
      try (exists w; split;
           [unfold process_stt, bind, get_state; rewrite Hstage; reflexivity|];
           split; [reflexivity | discriminate]).
    destruct (cleaned_audio_data (sess w)) as [audio|] eqn:Hclean.
    + destruct (process_stt_resets w audio Hstage Hclean)
        as (w' & Hrun & Hst & Hcap & Hcl).
      exists w'. split; [exact Hrun|]. split; [intros H; contradiction|].
      intros _. split; [exact Hst|]. split; [exact Hcl|]. intros _. exact Hcap.
    + unfold process_stt, bind, get_state, assign, st_rerun, emit.
      rewrite Hstage, Hclean. simpl.
      eexists. split; [reflexivity|]. split; [intros H; contradiction|].
      intros _. simpl. split; [reflexivity|]. split; [exact Hclean|].
      intros H. contradiction.
  - exists w. split;
      [unfold process_stt, bind, get_state; rewrite Hstage; reflexivity|].
    split; [reflexivity | discriminate].
Qed.

(** X7: when transcription (or the translation of a transcription in
    another language) raises, the voice branch catches it: exactly one
    system-role message carrying the error text is appended, no user
    message is added, nothing is sent to the NLU engine or the backend, the
    buffers are cleared and the stage is idle; the symptom session is left
    as it was. *)
Theorem X7_transcription_error_is_reported
  (w w1 : World) (audio : Samples) (e : Exn) :
  voice_input_stage (sess w) = Some processing_stt ->
  cleaned_audio_data (sess w) = Some audio ->
  transcribed_text E audio (current_language_code (sess w)) w = Raised e w1 ->
  process_stt E w
  = Ok tt
      (mkWorld
         (set_voice_input_stage None
            (set_cleaned_audio_data None
               (set_captured_audio_data None
                  (set_conversation
                     (conversation (sess w)
                      ++ [mkMessage "system"
                            ("Sorry, an error occurred during voice transcription. Please try again. (Details: "
                             +:+ str_exn e +:+ ")") None])
                     (sess w)))))
         (ext w1)
         (calls w1 ++ [EvStError ("STT Error: " +:+ str_exn e); EvStRerun])).
Proof.
  intros Hstage Hclean Hrun.
  pose proof (transcribed_text_same_session E audio
                (current_language_code (sess w)) w) as Hsame.
  rewrite Hrun in Hsame. unfold same_session in Hsame. simpl in Hsame.
  unfold process_stt, bind, get_state, try_except.
  rewrite Hstage, Hclean, Hrun.
  unfold st_error, st_rerun, emit, add_message_to_conversation, assign, new_message.
  simpl. rewrite Hsame, <- app_assoc. reflexivity.
Qed.

(** X8: the two voice blocks in sequence. A recording that decodes and
    cleans without error is consumed by the same run: the pipeline returns
    normally with the recording and the cleaned audio cleared and the stage
    idle, whatever transcription and response processing do. *)
Theorem X8_recording_is_consumed
  (w : World) (bytes : list Byte.byte) (data cleaned : Samples) (sr csr : Z)
  (x1 x2 : W) :
  captured_audio_data (sess w) = Some bytes ->
  sf_read E bytes (ext w) = (inr (data, sr), x1) ->
  get_cleaned_audio E data sr x1 = (inr (cleaned, csr), x2) ->
  exists w',
    voice_pipeline E w = Ok tt w'
    /\ captured_audio_data (sess w') = None
    /\ cleaned_audio_data (sess w') = None
    /\ voice_input_stage (sess w') = None.
Proof.
  intros Hcap Hread Hclean.
  unfold voice_pipeline, capture_and_clean, bind, get_state, call, assign.
  rewrite Hcap. simpl. rewrite Hread. simpl. rewrite Hclean. simpl.
  match goal with
  | |- context [process_stt E ?w0] =>
      destruct (process_stt_resets w0 cleaned eq_refl eq_refl)
        as (w' & Hrun & Hst & Hca & Hcl)
  end.
  exists w'. split; [exact Hrun|]. split; [exact Hca|]. split; [exact Hcl|exact Hst].
Qed.

End VoicePipeline.

#[global] Instance keeps_recording_preorder {W Checker Samples : Type} :
  PreOrder (@keeps_recording W Checker Samples).
Proof.
  split.
  - intros w. split; reflexivity.
  - intros w1 w2 w3 [H1 H2] [H3 H4]. split; congruence.
Qed.

Lemma login_refresh_keeps_recording {W Checker Samples : Type}
  (E : @Env W Checker Samples) :
  respects keeps_recording (login_refresh E).
Proof.
  unfold login_refresh;
    respects_auto ltac:(unfold keeps_recording; simpl; split; reflexivity).
Qed.

Section StuckRecording.

Context {W Checker Samples : Type}.
Variable E : @Env W Checker Samples.

Abbreviation World := (@World W Checker Samples).

Lemma rerun_keeps_broken_recording (w : World) (bytes : list Byte.byte) (e : Exn) :
  (forall x, exists x', sf_read E bytes x = (inl e, x')) ->
  captured_audio_data (sess w) = Some bytes ->
  keeps_recording w (step E Rerun w)
  /\ exists e', interaction E Rerun w = Raised e' (step E Rerun w).
Proof.
  intros Hread Hcap.
  unfold step, interaction, script_run, bind.
  pose proof (login_refresh_keeps_recording E w) as Hlogin.
  destruct (login_refresh E w) as [[] w1|e1 w1]; simpl in Hlogin.
  - destruct Hlogin as [Hc Hconv].
    unfold voice_pipeline, capture_and_clean, bind, get_state, call.
    rewrite Hc, Hcap.
    destruct (Hread (ext w1)) as [x' Hx]. rewrite Hx. simpl.
    split; [split; assumption|]. eexists. reflexivity.
  - simpl. split; [exact Hlogin|]. eexists. reflexivity.
Qed.

(** X9: the decode step of the voice pipeline runs outside any [try]. When
    the recording cannot be decoded, the exception ends the run and the
    recording stays in [captured_audio_data]; so every later run of the
    script raises again, with the recording still waiting and the
    conversation unchanged: no message is appended to it for the failure. *)
Theorem X9_undecodable_recording_stays
  (w : World) (bytes : list Byte.byte) (e : Exn) (n : nat) :
  (forall x, exists x', sf_read E bytes x = (inl e, x')) ->
  captured_audio_data (sess w) = Some bytes ->
  let w' := run_actions E (repeat Rerun n) w in
  captured_audio_data (sess w') = Some bytes
  /\ conversation (sess w') = conversation (sess w)
  /\ exists e', interaction E Rerun w' = Raised e' (step E Rerun w').
Proof.
  intros Hread. revert w. induction n as [|n IH]; intros w Hcap; simpl.
  - split; [exact Hcap|]. split; [reflexivity|].
    apply (rerun_keeps_broken_recording w bytes e Hread Hcap).
  - destruct (rerun_keeps_broken_recording w bytes e Hread Hcap)
      as [[Hc Hconv] _].
    destruct (IH (step E Rerun w)) as (H1 & H2 & H3); [congruence|].
    split; [exact H1|]. split; [congruence | exact H3].
Qed.

End StuckRecording.

Lemma X7_transcription_error_witness :
  exists w',
    process_stt Demo2.foreign_speech Demo.listening = Ok tt w'
    /\ conversation (sess w')
       = [mkMessage "system"
            "Sorry, an error occurred during voice transcription. Please try again. (Details: translation unavailable)"
            None]
    /\ voice_input_stage (sess w') = None.
Proof.
  eexists. split.
  - apply (X7_transcription_error_is_reported Demo2.foreign_speech Demo.listening
             (final (transcribed_text Demo2.foreign_speech tt "en-IN" Demo.listening))
             tt (Exception "translation unavailable"));
      vm_compute; reflexivity.
  - vm_compute. split; reflexivity.
Defined.

Lemma X8_recording_is_consumed_witness :
  exists w',
    voice_pipeline (Demo.clinic "hello")
      (mkWorld (set_captured_audio_data (Some []) initial_session) tt [])
    = Ok tt w'
    /\ captured_audio_data (sess w') = None
    /\ voice_input_stage (sess w') = None.
Proof.
  destruct (X8_recording_is_consumed (Demo.clinic "hello")
              (mkWorld (set_captured_audio_data (Some []) initial_session) tt [])
              [] tt tt 48000%Z 16000%Z tt tt)
    as (w' & Hrun & Hcap & _ & Hstage);
    [vm_compute; reflexivity | vm_compute; reflexivity | vm_compute; reflexivity |].
  exists w'. split; [exact Hrun|]. split; [exact Hcap | exact Hstage].
Defined.

Lemma X9_undecodable_recording_witness :
  let w' := run_actions Demo2.no_decoder (repeat Rerun 3) Demo2.broken_recording in
  captured_audio_data (sess w') = Some []
  /\ conversation (sess w') = [].
Proof.
  destruct (X9_undecodable_recording_stays Demo2.no_decoder
              Demo2.broken_recording [] (Exception "not a sound file") 3)
    as (Hcap & Hconv & _).
  - intros x. exists x. reflexivity.
  - reflexivity.
  - split; [exact Hcap | exact Hconv].
Defined.

(** ** The remembered advice stays bounded *)

Lemma slice_to_length (n : nat) (s : string) :
  String.length (Py.slice_to n s) <= n.
Proof.
  unfold Py.slice_to. revert s. induction n as [|n IH]; intros s.
  - destruct s; simpl; lia.
  - destruct s as [|c s]; simpl; [lia|]. specialize (IH s). lia.
Qed.

#[global] Instance keeps_advice_short_preorder {W Checker Samples : Type} :
  PreOrder (@keeps_advice_short W Checker Samples).
Proof.
  split.
  - intros w H. exact H.
  - intros w1 w2 w3 H12 H23 H. apply H23, H12, H.
Qed.

Lemma aside_keeps_advice_short {W Checker Samples : Type}
  (w w' : @World W Checker Samples) :
  aside w w' -> keeps_advice_short w w'.
Proof.
  intros [Hs _] H. unfold advice_is_short in *. rewrite Hs. simpl. exact H.
Qed.

#[global] Hint Extern 1 (respects keeps_advice_short _) =>
  (eapply (respects_weaken aside);
   [exact aside_keeps_advice_short | solve [auto with aside_facts]]) : respects.

Ltac advice_leaf :=
  unfold keeps_advice_short, advice_is_short, clear_symptom_session; simpl;
  let H := fresh "H" in
  intros H;
  first [ exact H | apply slice_to_length | lia ].

Lemma interaction_keeps_advice_short {W Checker Samples : Type}
  (E : @Env W Checker Samples) (a : Action) :
  respects keeps_advice_short (interaction E a).
Proof.
  destruct a;
    unfold interaction, script_run, voice_pipeline, capture_and_clean,
      process_stt, login_refresh, language_change, clear_session, new_chat,
      open_chat, sign_in, logout, save_profile, handle_text_submission,
      handle_follow_up_answer, process_and_display_response, response_body,
      response_handler, generate_and_display_assessment;
    respects_auto ltac:(advice_leaf).
Qed.

Section AdviceBound.

Context {W Checker Samples : Type}.
Variable E : @Env W Checker Samples.

(** X10: in every reachable world [last_advice_given] holds at most 800
    characters: both writers cut what they store (the translated response,
    the assessment summary or the rendered assessment) and every reset
    empties it. So the advice handed to the response generator and saved to
    the memory table never exceeds that length either. *)
Theorem X10_last_advice_is_bounded (w : @World W Checker Samples) :
  reachable E w ->
  String.length (last_advice_given (sess w)) <= 800.
Proof.
  intros (x & actions & ->).
  assert (forall w0 : @World W Checker Samples,
             advice_is_short (sess w0) ->
             advice_is_short (sess (run_actions E actions w0))) as Hrun.
  { induction actions as [|a actions IH]; intros w0 Hw0; simpl; [exact Hw0|].
    apply IH. apply (interaction_keeps_advice_short E a w0), Hw0. }
  apply Hrun. unfold advice_is_short. simpl. lia.
Qed.

End AdviceBound.

Lemma X10_last_advice_witness :
  let E := Demo.clinic "hello" in
  let w := step E (SubmitText "what is a fever") Demo.start in
  reachable E w /\ String.length (last_advice_given (sess w)) <= 800.
Proof.
  intros E w.
  assert (reachable E w) as Hreach
    by (apply reachable_step; exists tt, []; reflexivity).
  split; [exact Hreach|].
  exact (X10_last_advice_is_bounded E w Hreach).
Defined.

(** ** Context assembly and persistence *)

Section ContextAndPersistence.

Context {W Checker Samples : Type}.
Variable E : @Env W Checker Samples.

Abbreviation World := (@World W Checker Samples).

(** X11: assembling the context for the response generator never raises
    and never changes the session, even when the backend raises. The
    snapshot holds the session's symptoms and follow-up answers as they
    are and the last advice cut to 800 characters; the messages of other
    chats are requested only when the backend is configured, a user is
    signed in and a chat is open, and the list is empty otherwise or when
    that request raises. *)
Theorem X11_context_assembly_is_total (w : World) :
  exists ctx w',
    build_session_context E w = Ok ctx w'
    /\ sess w' = sess w
    /\ ctx_extracted_symptoms ctx = extracted_symptoms (sess w)
    /\ ctx_follow_up_answers ctx = follow_up_answers (sess w)
    /\ ctx_last_advice_given ctx = Py.slice_to 800 (last_advice_given (sess w))
    /\ (is_supabase_configured E (ext w) = false
        \/ supabase_session (sess w) = None
        \/ truthy_id (current_chat_id (sess w)) = false ->
        w' = w /\ ctx_past_messages ctx = [])
    /\ (forall sb c e x',
          supabase_session (sess w) = Some sb ->
          current_chat_id (sess w) = Some c ->
          get_recent_messages_from_other_chats E (user_id sb) c 8 (ext w)
          = (inl e, x') ->
          ctx_past_messages ctx = []).
Proof.
  unfold build_session_context, bind, get_state, read_world, try_except, call, ret.
  simpl.
  destruct (is_supabase_configured E (ext w)) eqn:Hconf;
    [|eexists; eexists; split; [reflexivity|]; simpl;
      repeat split; try (destruct w; reflexivity);
      intros; discriminate].
  destruct (supabase_session (sess w)) as [sb|] eqn:Hsb;
    [|eexists; eexists; split; [reflexivity|]; simpl;
      repeat split; try (destruct w; reflexivity);
      intros; discriminate].
  destruct (current_chat_id (sess w)) as [c|] eqn:Hcid;
    [|eexists; eexists; split; [reflexivity|]; simpl;
      repeat split; try (destruct w; reflexivity);
      intros; discriminate].
  destruct (Py.truthy c) eqn:Hc.
  - destruct (get_recent_messages_from_other_chats E (user_id sb) c 8 (ext w))
      as [[e|past] x'] eqn:Hget; simpl;
      eexists; eexists; (split; [reflexivity|]); simpl;
      (split; [reflexivity|]); (split; [reflexivity|]); (split; [reflexivity|]);
      (split; [reflexivity|]); split.
    + intros [H|[H|H]]; simpl in H; congruence.
    + reflexivity.
    + intros [H|[H|H]]; simpl in H; congruence.
    + intros sb0 c0 e x0 Hsb0 Hc0 Hraise.
      injection Hsb0 as <-. injection Hc0 as <-. congruence.
  - eexists. eexists. split; [reflexivity|]. simpl.
    repeat split; try (destruct w; reflexivity).
Qed.

(** X12: with a chat already open, persisting a message makes exactly one
    backend call, the insertion of that message into that chat; no chat is
    created, the session is left as it was, and the helper returns normally
    whether the insertion returns or raises. *)
Theorem X12_message_goes_to_open_chat
  (w : World) (role content c : string) (sb : SupabaseSession) :
  is_supabase_configured E (ext w) = true ->
  supabase_session (sess w) = Some sb ->
  current_chat_id (sess w) = Some c ->
  Py.truthy c = true ->
  _persist_message_to_db E role content w
  = Ok tt
      (mkWorld (sess w) (snd (message_insert E c role content (ext w)))
         (calls w ++ [EvMessageInsert c role content])).
Proof.
  intros Hconf Hsb Hcid Hc.
  unfold _persist_message_to_db, bind, read_world, get_state, try_except, call, ret.
  rewrite Hconf, Hsb. simpl. rewrite Hcid. simpl. rewrite Hc.
  destruct (message_insert E c role content (ext w)) as [[e|ok] x']; reflexivity.
Qed.

(** X13: the first message of a signed-in user without an open chat creates
    one. The chat is created under a title that is never empty (the message,
    cut after 50 characters, or "Chat"); when the backend returns its id and
    the refreshed chat list, the session points at the new chat, holds the
    refreshed list, and the message is inserted into that chat, in this
    order. When the backend returns no id, nothing is inserted and the
    session stays without a chat. *)
Theorem X13_first_message_creates_chat
  (w : World) (role content : string) (sb : SupabaseSession) :
  is_supabase_configured E (ext w) = true ->
  supabase_session (sess w) = Some sb ->
  current_chat_id (sess w) = None ->
  chat_title_for content <> EmptyString
  /\ (forall cid l x1 x2,
        chat_create E (user_id sb) (chat_title_for content) (ext w)
        = (inr (Some cid), x1) ->
        Py.truthy cid = true ->
        chats_list E (user_id sb) x1 = (inr l, x2) ->
        _persist_message_to_db E role content w
        = Ok tt
            (mkWorld (set_chat_list l (set_current_chat_id (Some cid) (sess w)))
               (snd (message_insert E cid role content x2))
               (calls w ++ [EvChatCreate (chat_title_for content); EvChatsList;
                            EvMessageInsert cid role content])))
  /\ (forall x1,
        chat_create E (user_id sb) (chat_title_for content) (ext w)
        = (inr None, x1) ->
        _persist_message_to_db E role content w
        = Ok tt (mkWorld (sess w) x1
                   (calls w ++ [EvChatCreate (chat_title_for content)]))).
Proof.
  intros Hconf Hsb Hcid. split; [|split].
  - unfold chat_title_for.
    destruct (50 <? String.length content)%nat eqn:Hlen.
    + apply Nat.ltb_lt in Hlen.
      destruct content as [|ch content]; [simpl in Hlen; lia|]. discriminate.
    + destruct content; discriminate.
  - intros cid l x1 x2 Hcreate Htruthy Hlist.
    unfold _persist_message_to_db, bind, read_world, get_state, try_except, call,
      ret, assign.
    rewrite Hconf, Hsb. simpl. rewrite Hcid. simpl.
    fold (chat_title_for content). rewrite Hcreate. simpl. rewrite Htruthy.
    simpl. rewrite Hlist. simpl. rewrite Htruthy. simpl.
    destruct (message_insert E cid role content x2) as [[e|ok] x3]; simpl;
      rewrite <- ?app_assoc; reflexivity.
  - intros x1 Hcreate.
    unfold _persist_message_to_db, bind, read_world, get_state, try_except, call,
      ret, assign.
    rewrite Hconf, Hsb. simpl. rewrite Hcid. simpl.
    fold (chat_title_for content). rewrite Hcreate. simpl.
    destruct w; reflexivity.
Qed.

End ContextAndPersistence.

Lemma X12_message_goes_to_open_chat_witness :
  let E := Demo2.with_backend (Demo.clinic "hello") None true in
  let w := Demo2.signed_in (Some "chat-7") in
  _persist_message_to_db E "user" "hello" w
  = Ok tt (mkWorld (sess w) tt [EvMessageInsert "chat-7" "user" "hello"]).
Proof.
  intros E w.
  rewrite (X12_message_goes_to_open_chat E w "user" "hello" "chat-7"
             (mkSupabaseSession (Some "user-1") "access" "refresh"));
    vm_compute; reflexivity.
Defined.

Lemma X13_first_message_creates_chat_witness :
  let E := Demo2.with_backend (Demo.clinic "hello") (Some "chat-1") false in
  let w := Demo2.signed_in None in
  exists w',
    _persist_message_to_db E "user" "I have a fever" w = Ok tt w'
    /\ current_chat_id (sess w') = Some "chat-1"
    /\ calls w' = [EvChatCreate "I have a fever"; EvChatsList;
                   EvMessageInsert "chat-1" "user" "I have a fever"].
Proof.
  intros E w.
  destruct (X13_first_message_creates_chat E w "user" "I have a fever"
              (mkSupabaseSession (Some "user-1") "access" "refresh"))
    as (_ & Hcreated & _);
    [vm_compute; reflexivity | vm_compute; reflexivity | vm_compute; reflexivity |].
  eexists. split.
  - apply (Hcreated "chat-1" [mkChat "chat-1" (Some "Chat")] tt tt);
      vm_compute; reflexivity.
  - vm_compute. split; reflexivity.
Defined.

(** ** Invariants of the session *)

Lemma language_code_in (display c : string) (m : list (string * string)) :
  language_code display m = Some c -> In c (map snd m).
Proof.
  induction m as [|[k v] m IH]; simpl; [discriminate|].
  destruct (String.eqb k display).
  - intros [= ->]. left. reflexivity.
  - intros H. right. apply IH, H.
Qed.

#[global] Instance keeps_language_supported_preorder {W Checker Samples : Type} :
  PreOrder (@keeps_language_supported W Checker Samples).
Proof.
  split.
  - intros w H. exact H.
  - intros w1 w2 w3 H12 H23 H. apply H23, H12, H.
Qed.

#[global] Instance keeps_voice_idle_preorder {W Checker Samples : Type} :
  PreOrder (@keeps_voice_idle W Checker Samples).
Proof.
  split.
  - intros w H. exact H.
  - intros w1 w2 w3 H12 H23 H. apply H23, H12, H.
Qed.

Lemma language_supported_ext {Checker Samples : Type}
  (s s' : @Session Checker Samples) :
  current_language_code s' = current_language_code s ->
  current_language_display s' = current_language_display s ->
  language_is_supported s -> language_is_supported s'.
Proof. unfold language_is_supported. intros -> ->. exact id. Qed.

Lemma aside_keeps_language_supported {W Checker Samples : Type}
  (w w' : @World W Checker Samples) :
  aside w w' -> keeps_language_supported w w'.
Proof.
  intros [Hs _]. unfold keeps_language_supported.
  apply language_supported_ext; rewrite Hs; reflexivity.
Qed.

Lemma aside_keeps_voice_idle {W Checker Samples : Type}
  (w w' : @World W Checker Samples) :
  aside w w' -> keeps_voice_idle w w'.
Proof.
  intros [Hs _] H. unfold voice_is_idle in *. rewrite Hs. simpl. exact H.
Qed.

#[global] Hint Extern 1 (respects keeps_language_supported _) =>
  (eapply (respects_weaken aside);
   [exact aside_keeps_language_supported | solve [auto with aside_facts]])
  : respects.

#[global] Hint Extern 1 (respects keeps_voice_idle _) =>
  (eapply (respects_weaken aside);
   [exact aside_keeps_voice_idle | solve [auto with aside_facts]]) : respects.

Ltac language_leaf :=
  unfold keeps_language_supported;
  apply language_supported_ext; reflexivity.

Ltac idle_leaf :=
  unfold keeps_voice_idle, voice_is_idle, clear_symptom_session; simpl;
  let H := fresh "H" in
  intros H; first [ exact H | split; [reflexivity | apply H] ].

Lemma language_change_keeps_supported {W Checker Samples : Type}
  (display : string) :
  respects keeps_language_supported
    (@language_change W Checker Samples display).
Proof.
  intros w.
  unfold keeps_language_supported, language_is_supported, language_change.
  pose proof (language_code_in display) as Hlookup. revert Hlookup.
  generalize LANGUAGE_MAP. intros m Hlookup [Hin Hsync].
  unfold bind, get_state, assign, raise, ret, st_rerun, emit.
  destruct (String.eqb display (current_language_display (sess w))) eqn:Heq;
    simpl; [split; assumption|].
  destruct (language_code display m) as [c|] eqn:Hcode; simpl.
  - split; [apply (Hlookup c m), Hcode | intros c' Hc'; congruence].
  - split; [exact Hin | intros c' Hc'; congruence].
Qed.

Lemma voice_pipeline_keeps_idle {W Checker Samples : Type}
  (E : @Env W Checker Samples) :
  respects keeps_voice_idle (voice_pipeline E).
Proof.
  intros w [Hstage Hclean].
  unfold voice_pipeline, capture_and_clean, bind, get_state, call, assign.
  destruct (captured_audio_data (sess w)) as [bytes|]; simpl.
  - destruct (sf_read E bytes (ext w)) as [[e|decoded] x1]; simpl;
      [split; assumption|].
    destruct (get_cleaned_audio E (fst decoded) (snd decoded) x1)
      as [[e|cleaned] x2]; simpl; [split; assumption|].
    match goal with
    | |- context [process_stt E ?w0] =>
        destruct (process_stt_resets E w0 (fst cleaned) eq_refl eq_refl)
          as (w' & Hrun & Hst & _ & Hcl)
    end.
    rewrite Hrun. simpl. split; assumption.
  - unfold process_stt, bind, get_state. rewrite Hstage. simpl.
    split; assumption.
Qed.

Lemma interaction_keeps_language_supported {W Checker Samples : Type}
  (E : @Env W Checker Samples) (a : Action) :
  respects keeps_language_supported (interaction E a).
Proof.
  pose proof (@language_change_keeps_supported W Checker Samples) as Hchange.
  destruct a;
    unfold interaction, script_run, voice_pipeline, capture_and_clean,
      process_stt, login_refresh, clear_session, new_chat,
      open_chat, sign_in, logout, save_profile, handle_text_submission,
      handle_follow_up_answer, process_and_display_response, response_body,
      response_handler, generate_and_display_assessment;
    respects_auto ltac:(language_leaf).
Qed.

Lemma interaction_keeps_voice_idle {W Checker Samples : Type}
  (E : @Env W Checker Samples) (a : Action) :
  respects keeps_voice_idle (interaction E a).
Proof.
  pose proof (voice_pipeline_keeps_idle E) as Hvoice.
  destruct a;
    unfold interaction, script_run,
      login_refresh, language_change, clear_session, new_chat,
      open_chat, sign_in, logout, save_profile, handle_text_submission,
      handle_follow_up_answer, process_and_display_response, response_body,
      response_handler, generate_and_display_assessment;
    respects_auto ltac:(idle_leaf).
Qed.

Section SessionInvariants.

Context {W Checker Samples : Type}.
Variable E : @Env W Checker Samples.

(** X14: in every reachable world the language code of the session, which
    is the code sent to speech recognition, to the NLU engine and to
    translation, is one of the eight codes of [LANGUAGE_MAP]; and whenever
    the selected display name is a key of the map, the code is the one the
    map gives for it. Only the language selector writes the two fields, and
    a failed lookup leaves the code as it was. *)
Theorem X14_language_code_is_supported (w : @World W Checker Samples) :
  reachable E w ->
  In (current_language_code (sess w)) (map snd LANGUAGE_MAP)
  /\ forall c,
      language_code (current_language_display (sess w)) LANGUAGE_MAP = Some c ->
      current_language_code (sess w) = c.
Proof.
  intros (x & actions & ->).
  assert (forall w0 : @World W Checker Samples,
             language_is_supported (sess w0) ->
             language_is_supported (sess (run_actions E actions w0))) as Hrun.
  { induction actions as [|a actions IH]; intros w0 Hw0; simpl; [exact Hw0|].
    apply IH. apply (interaction_keeps_language_supported E a w0), Hw0. }
  apply Hrun. split.
  - left. reflexivity.
  - intros c Hc. vm_compute in Hc. injection Hc as <-. reflexivity.
Qed.

(** X15: between two interactions the voice branch is idle: in every
    reachable world [voice_input_stage] is [None] and no cleaned audio is
    kept. The stage is only ever set to "processing_stt", right after the
    recording was cleaned, and the same run resets both before it ends; so
    the branch of the voice block for a stage without cleaned audio is
    never entered. *)
Theorem X15_voice_branch_is_idle_between_runs (w : @World W Checker Samples) :
  reachable E w ->
  voice_input_stage (sess w) = None
  /\ cleaned_audio_data (sess w) = None
  /\ (captured_audio_data (sess w) = None -> voice_pipeline E w = Ok tt w).
Proof.
  intros (x & actions & ->).
  assert (forall w0 : @World W Checker Samples,
             voice_is_idle (sess w0) ->
             voice_is_idle (sess (run_actions E actions w0))) as Hrun.
  { induction actions as [|a actions IH]; intros w0 Hw0; simpl; [exact Hw0|].
    apply IH. apply (interaction_keeps_voice_idle E a w0), Hw0. }
  destruct (Hrun (initial_world x)) as [Hstage Hclean]; [split; reflexivity|].
  split; [exact Hstage|]. split; [exact Hclean|].
  intros Hcap.
  unfold voice_pipeline, capture_and_clean, process_stt, bind, get_state.
  rewrite Hcap. simpl. rewrite Hstage. reflexivity.
Qed.

End SessionInvariants.

Lemma X14_language_code_witness :
  let E := Demo.clinic "hello" in
  let w := step E (SelectLanguage "Klingon") Demo.start in
  reachable E w
  /\ In (current_language_code (sess w)) (map snd LANGUAGE_MAP)
  /\ current_language_display (sess w) = "Klingon".
Proof.
  intros E w.
  assert (reachable E w) as Hreach
    by (apply reachable_step; exists tt, []; reflexivity).
  split; [exact Hreach|]. split.
  - exact (proj1 (X14_language_code_is_supported E w Hreach)).
  - vm_compute. reflexivity.
Defined.

Lemma X15_voice_branch_witness :
  let E := Demo.clinic "I have a fever" in
  let w := step E (RecordAudio []) Demo.start in
  reachable E w
  /\ voice_input_stage (sess w) = None
  /\ cleaned_audio_data (sess w) = None
  /\ length (conversation (sess w)) = 2.
Proof.
  intros E w.
  assert (reachable E w) as Hreach
    by (apply reachable_step; exists tt, []; reflexivity).
  destruct (X15_voice_branch_is_idle_between_runs E w Hreach)
    as (Hstage & Hclean & _).
  split; [exact Hreach|]. split; [exact Hstage|]. split; [exact Hclean|].
  vm_compute. reflexivity.
Defined.

(** ** Nothing about a user leaves the session while nobody is signed in *)

#[global] Instance quiet_while_signed_out_preorder {W Checker Samples : Type} :
  PreOrder (@quiet_while_signed_out W Checker Samples).
Proof.
  split.
  - intros w H. split; [exact H|]. exists []. split; [|constructor].
    symmetry. apply app_nil_r.
  - intros w1 w2 w3 H12 H23 H.
    destruct (H12 H) as (H2 & evs1 & Hc1 & Hf1).
    destruct (H23 H2) as (H3 & evs2 & Hc2 & Hf2).
    split; [exact H3|]. exists (evs1 ++ evs2). split.
    + rewrite Hc2, Hc1, <- app_assoc. reflexivity.
    + apply Forall_app. split; assumption.
Qed.

Ltac quiet_leaf :=
  unfold quiet_while_signed_out, clear_symptom_session; simpl;
  let H := fresh "H" in
  intros H;
  split; [first [exact H | reflexivity]|];
  first [ exists []; split; [symmetry; apply app_nil_r | constructor]
        | eexists [_]; split; [reflexivity | repeat constructor] ].

Section SignedOut.

Context {W Checker Samples : Type}.
Variable E : @Env W Checker Samples.

Abbreviation World := (@World W Checker Samples).

Lemma quiet_same (w : World) :
  supabase_session (sess w) = None ->
  supabase_session (sess w) = None
  /\ exists evs,
      calls w = calls w ++ evs /\ Forall (fun ev => is_data_call ev = false) evs.
Proof.
  intros H. split; [exact H|]. exists []. split; [|constructor].
  symmetry. apply app_nil_r.
Qed.

Lemma persist_quiet (role content : string) :
  respects quiet_while_signed_out (_persist_message_to_db E role content).
Proof.
  intros w H. rewrite persist_noop by (right; exact H). apply quiet_same, H.
Qed.

Lemma save_memory_quiet :
  respects quiet_while_signed_out (_save_health_context_to_memory E).
Proof.
  intros w H. rewrite save_memory_noop by (right; exact H). apply quiet_same, H.
Qed.

Lemma session_context_quiet :
  respects quiet_while_signed_out (build_session_context E).
Proof.
  intros w H. unfold build_session_context, bind, get_state, read_world.
  rewrite H. destruct (is_supabase_configured E (ext w)); apply quiet_same, H.
Qed.

Lemma login_refresh_quiet :
  respects quiet_while_signed_out (login_refresh E).
Proof.
  intros w H. unfold login_refresh, bind, get_state, read_world.
  rewrite H. destruct (is_supabase_configured E (ext w)); apply quiet_same, H.
Qed.

Lemma save_profile_quiet (profile_dict : gmap string string) :
  respects quiet_while_signed_out (save_profile E profile_dict).
Proof.
  intros w H.
  unfold save_profile, bind, get_state, read_world, assign, st_rerun, emit.
  simpl. rewrite H.
  destruct (is_supabase_configured E (ext w)); simpl;
    (split; [exact H|]; eexists [_]; split; [reflexivity | repeat constructor]).
Qed.

Lemma append_bullets_quiet (items : list string) (user_lang acc : string) :
  respects quiet_while_signed_out (append_bullets E items user_lang acc).
Proof.
  revert acc. induction items as [|item items IH]; intros acc; simpl.
  - respects_auto ltac:(quiet_leaf).
  - apply (respects_bind quiet_while_signed_out); [|intros t; apply IH].
    respects_auto ltac:(quiet_leaf).
Qed.

Lemma interaction_quiet (a : Action) :
  offered_signed_out a = true ->
  respects quiet_while_signed_out (interaction E a).
Proof.
  pose proof persist_quiet as Hpersist.
  pose proof save_memory_quiet as Hmemory.
  pose proof session_context_quiet as Hcontext.
  pose proof login_refresh_quiet as Hlogin.
  pose proof save_profile_quiet as Hprofile.
  pose proof append_bullets_quiet as Hbullets.
  destruct a; intros Hoffered; try discriminate Hoffered;
    unfold interaction, script_run, voice_pipeline, capture_and_clean,
      process_stt, transcribed_text, language_change, clear_session, new_chat,
      logout, handle_text_submission, handle_follow_up_answer,
      process_and_display_response, response_body, response_handler,
      generate_and_display_assessment, render_assessment, translate_question;
    respects_auto ltac:(quiet_leaf).
Qed.

(** X16: while nobody is signed in, the application sends nothing about the
    user to the backend. From a session without a signed-in user, any
    sequence of interactions other than signing in and opening a stored
    chat (typing, recording, changing the language, clearing the session,
    saving the profile, reruns, ...) leaves the session signed out, and
    none of the calls it makes
    creates, lists or reads chats, inserts messages, reads or writes the
    memory table or the profile, or sends tokens: every such call in the
    code sits behind the test for a signed-in session. *)
Theorem X16_no_user_data_call_while_signed_out
  (actions : list Action) (w : World) :
  supabase_session (sess w) = None ->
  Forall (fun a => offered_signed_out a = true) actions ->
  supabase_session (sess (run_actions E actions w)) = None
  /\ exists evs,
      calls (run_actions E actions w) = calls w ++ evs
      /\ Forall (fun ev => is_data_call ev = false) evs.
Proof.
  intros Hnone Hactions. revert w Hnone.
  induction Hactions as [|a actions Ha _ IH]; intros w Hnone; simpl.
  - apply quiet_same, Hnone.
  - destruct (interaction_quiet a Ha w Hnone) as (Hnone1 & evs1 & Hc1 & Hf1).
    destruct (IH (step E a w) Hnone1) as (Hnone2 & evs2 & Hc2 & Hf2).
    split; [exact Hnone2|]. exists (evs1 ++ evs2). split.
    + rewrite Hc2. unfold step. rewrite Hc1, <- app_assoc. reflexivity.
    + apply Forall_app. split; assumption.
Qed.

End SignedOut.

Lemma X16_no_user_data_call_witness :
  let E := Demo2.with_backend (Demo.clinic "three days") (Some "chat-1") false in
  let actions := [SubmitText "I have a fever"; RecordAudio [];
                  SaveProfile ∅; Rerun] in
  supabase_session (sess (run_actions E actions Demo.start)) = None
  /\ exists evs,
      calls (run_actions E actions Demo.start) = calls Demo.start ++ evs
      /\ Forall (fun ev => is_data_call ev = false) evs.
Proof.
  intros E actions.
  apply (X16_no_user_data_call_while_signed_out E actions Demo.start).
  - reflexivity.
  - repeat constructor.
Defined.

(** ** The chat display *)

Lemma append_cons (x : ascii) (a b : string) :
  String x a +:+ b = String x (a +:+ b).
Proof. reflexivity. Qed.

Lemma append_nil (b : string) : EmptyString +:+ b = b.
Proof. reflexivity. Qed.

Lemma string_app_assoc (a b c : string) : (a +:+ b) +:+ c = a +:+ (b +:+ c).
Proof.
  induction a as [|x a IH]; [reflexivity|].
  rewrite !append_cons, IH. reflexivity.
Qed.

Lemma replace_app (c : ascii) (new a b : string) :
  PyStr.replace c new (a +:+ b) = PyStr.replace c new a +:+ PyStr.replace c new b.
Proof.
  induction a as [|x a IH]; [reflexivity|].
  rewrite append_cons. simpl.
  destruct (Ascii.eqb x c); rewrite IH; [|reflexivity].
  symmetry. apply string_app_assoc.
Qed.

Lemma content_safe_app (a b : string) :
  content_safe (a +:+ b) = content_safe a +:+ content_safe b.
Proof. unfold content_safe. rewrite !replace_app. reflexivity. Qed.

Lemma content_safe_char (c : ascii) :
  content_safe (String c EmptyString) = escaped c.
Proof.
  unfold content_safe, escaped.
  destruct (Ascii.eqb_spec c "&") as [->|Hamp]; [reflexivity|].
  destruct (Ascii.eqb_spec c "<") as [->|Hlt]; [reflexivity|].
  destruct (Ascii.eqb_spec c ">") as [->|Hgt]; [reflexivity|].
  destruct (Ascii.eqb_spec c "010") as [->|Hnl]; [reflexivity|].
  apply Ascii.eqb_neq in Hamp, Hlt, Hgt, Hnl.
  simpl. rewrite Hamp. simpl. rewrite Hlt. simpl. rewrite Hgt. simpl.
  rewrite Hnl. reflexivity.
Qed.

Lemma content_safe_cons (c : ascii) (s : string) :
  content_safe (String c s) = escaped c +:+ content_safe s.
Proof.
  change (String c s) with (String c EmptyString +:+ s).
  rewrite content_safe_app, content_safe_char. reflexivity.
Qed.

Lemma content_safe_each (s : string) : content_safe s = escape_each s.
Proof.
  induction s as [|c s IH]; [reflexivity|].
  rewrite content_safe_cons, IH. reflexivity.
Qed.

Lemma contains_app (c : ascii) (a b : string) :
  PyStr.contains c (a +:+ b) = PyStr.contains c a || PyStr.contains c b.
Proof.
  induction a as [|x a IH]; [reflexivity|].
  rewrite append_cons. simpl. rewrite IH. apply orb_assoc.
Qed.

Lemma escaped_angle (c : ascii) :
  PyStr.contains "<" (escaped c) = Ascii.eqb c "010"
  /\ PyStr.contains ">" (escaped c) = Ascii.eqb c "010".
Proof.
  unfold escaped.
  destruct (Ascii.eqb_spec c "&") as [->|Hamp]; [split; reflexivity|].
  destruct (Ascii.eqb_spec c "<") as [->|Hlt]; [split; reflexivity|].
  destruct (Ascii.eqb_spec c ">") as [->|Hgt]; [split; reflexivity|].
  destruct (Ascii.eqb_spec c "010") as [->|Hnl]; [split; reflexivity|].
  apply Ascii.eqb_neq in Hlt, Hgt. simpl. rewrite Hlt, Hgt. split; reflexivity.
Qed.

Lemma escaped_inj (c d : ascii) (a b : string) :
  escaped c +:+ a = escaped d +:+ b -> c = d /\ a = b.
Proof.
  unfold escaped.
  destruct (Ascii.eqb_spec c "&") as [->|Hc1];
  [|destruct (Ascii.eqb_spec c "<") as [->|Hc2];
    [|destruct (Ascii.eqb_spec c ">") as [->|Hc3];
      [|destruct (Ascii.eqb_spec c "010") as [->|Hc4]]]];
  (destruct (Ascii.eqb_spec d "&") as [->|Hd1];
   [|destruct (Ascii.eqb_spec d "<") as [->|Hd2];
     [|destruct (Ascii.eqb_spec d ">") as [->|Hd3];
       [|destruct (Ascii.eqb_spec d "010") as [->|Hd4]]]]);
  intros H; rewrite ?append_cons, ?append_nil in H; simplify_eq;
  first [ split; reflexivity | congruence ].
Qed.

Lemma lstrip_length (s : string) : String.length (Py.lstrip s) <= String.length s.
Proof.
  induction s as [|c s IH]; simpl; [lia|].
  destruct (Py.isspace c); simpl; lia.
Qed.

Lemma rstrip_length (s : string) : String.length (Py.rstrip s) <= String.length s.
Proof.
  induction s as [|c s IH]; simpl; [lia|].
  destruct (Py.rstrip s) as [|d r]; [destruct (Py.isspace c)|]; simpl in *; lia.
Qed.

Lemma strip_length (s : string) : String.length (Py.strip s) <= String.length s.
Proof.
  unfold Py.strip. pose proof (rstrip_length (Py.lstrip s)).
  pose proof (lstrip_length s). lia.
Qed.

Lemma lstrip_starts_clean (s : string) : starts_clean (Py.lstrip s).
Proof.
  induction s as [|c s IH]; simpl; [exact I|].
  destruct (Py.isspace c) eqn:Hc; [exact IH|]. simpl. exact Hc.
Qed.

Lemma lstrip_of_clean (s : string) : starts_clean s -> Py.lstrip s = s.
Proof. destruct s as [|c s]; simpl; [reflexivity|]. intros ->. reflexivity. Qed.

Lemma rstrip_starts_clean (s : string) : starts_clean s -> starts_clean (Py.rstrip s).
Proof.
  destruct s as [|c s]; simpl; [intros _; exact I|]. intros Hc.
  destruct (Py.rstrip s); [rewrite Hc|]; simpl; exact Hc.
Qed.

Lemma rstrip_idempotent (s : string) : Py.rstrip (Py.rstrip s) = Py.rstrip s.
Proof.
  induction s as [|c s IH]; simpl; [reflexivity|].
  destruct (Py.rstrip s) as [|d r] eqn:Hr.
  - destruct (Py.isspace c) eqn:Hc; simpl; [reflexivity|]. rewrite Hc. reflexivity.
  - simpl in *. rewrite IH. reflexivity.
Qed.

Lemma strip_idempotent (s : string) : Py.strip (Py.strip s) = Py.strip s.
Proof.
  unfold Py.strip.
  rewrite (lstrip_of_clean (Py.rstrip (Py.lstrip s)))
    by apply rstrip_starts_clean, lstrip_starts_clean.
  apply rstrip_idempotent.
Qed.

Lemma split_once_app (c : ascii) (l r : string) :
  PyStr.contains c l = false ->
  PyStr.split_once c (l +:+ String c r) = Some (l, r).
Proof.
  induction l as [|x l IH]; intros H.
  - rewrite append_nil. simpl. rewrite Ascii.eqb_refl. reflexivity.
  - rewrite append_cons. simpl in *. apply orb_false_iff in H as [Hx Hl].
    rewrite Hx, (IH Hl). reflexivity.
Qed.

Lemma split_once_contains (c : ascii) (s : string) :
  PyStr.contains c s = true ->
  exists l r, PyStr.split_once c s = Some (l, r)
              /\ s = l +:+ String c r /\ PyStr.contains c l = false.
Proof.
  induction s as [|x s IH]; simpl; [discriminate|].
  destruct (Ascii.eqb_spec x c) as [->|Hx]; simpl.
  - intros _. exists EmptyString, s. repeat split; reflexivity.
  - intros H. destruct (IH H) as (l & r & Hsplit & -> & Hl).
    exists (String x l), r. rewrite Hsplit. repeat split.
    simpl. apply Ascii.eqb_neq in Hx. rewrite Hx. exact Hl.
Qed.

Lemma append_length (a b : string) :
  String.length (a +:+ b) = String.length a + String.length b.
Proof.
  induction a as [|x a IH]; [reflexivity|].
  rewrite append_cons. simpl. rewrite IH. reflexivity.
Qed.


Lemma contains_truthy (c : ascii) (s : string) :
  PyStr.contains c s = true -> Py.truthy s = true.
Proof. destruct s; [discriminate|reflexivity]. Qed.

Lemma clean_with_colon (label rest : string) :
  PyStr.contains ":" label = false ->
  clean_assistant_text (label +:+ ":" +:+ rest)
  = if (length (PyStr.split_ws (Py.strip label)) <=? 2)%nat
    then Py.strip rest else Py.strip (label +:+ ":" +:+ rest).
Proof.
  intros Hlabel. unfold clean_assistant_text.
  change (":" +:+ rest) with (String ":" rest).
  assert (PyStr.contains ":" (label +:+ String ":" rest) = true) as Hcolon.
  { rewrite contains_app. simpl. apply orb_true_r. }
  rewrite Hcolon, (contains_truthy _ _ Hcolon), (split_once_app _ _ _ Hlabel).
  reflexivity.
Qed.

Lemma escaped_nonempty (c : ascii) (s : string) : escaped c +:+ s <> EmptyString.
Proof.
  unfold escaped.
  repeat match goal with
         | |- context [Ascii.eqb ?a ?b] => destruct (Ascii.eqb a b)
         end; discriminate.
Qed.

Lemma escape_each_inj (a b : string) : escape_each a = escape_each b -> a = b.
Proof.
  revert b. induction a as [|c a IH]; intros [|d b] H; simpl in H.
  - reflexivity.
  - symmetry in H. apply escaped_nonempty in H. contradiction.
  - apply escaped_nonempty in H. contradiction.
  - apply escaped_inj in H as [-> H]. rewrite (IH b H). reflexivity.
Qed.

(** X17: the four replacements that make a message safe for the page act
    as one pass over its characters: each of the characters &, <, > becomes
    its entity and each newline a line break, exactly once (the entities
    written by an earlier replacement are not escaped again by a later one),
    so escaping distributes over concatenation. The escaped text holds an
    angle bracket only where the message holds a newline. *)
Theorem X17_content_is_escaped_in_one_pass (s : string) :
  content_safe s = escape_each s
  /\ (forall t, content_safe (s +:+ t) = content_safe s +:+ content_safe t)
  /\ PyStr.contains "<" (content_safe s) = PyStr.contains "010" s
  /\ PyStr.contains ">" (content_safe s) = PyStr.contains "010" s.
Proof.
  split; [apply content_safe_each|]. split; [intros t; apply content_safe_app|].
  rewrite content_safe_each.
  induction s as [|c s [IHlt IHgt]]; [split; reflexivity|].
  simpl. rewrite !contains_app, IHlt, IHgt.
  destruct (escaped_angle c) as [-> ->]. split; reflexivity.
Qed.

(** X18: escaping loses nothing: two different messages never have the
    same escaped text. *)
Theorem X18_escaping_loses_nothing (a b : string) :
  a <> b -> content_safe a <> content_safe b.
Proof.
  intros Hne Heq. apply Hne. rewrite !content_safe_each in Heq.
  apply escape_each_inj, Heq.
Qed.

Lemma X18_escaping_witness :
  "<" <> "&lt;" /\ content_safe "<" <> content_safe "&lt;".
Proof.
  split; [discriminate|]. apply X18_escaping_loses_nothing. discriminate.
Defined.

(** X19: what [clean_assistant_text] does to an assistant message. A text
    without a colon is returned as it is. A text with a colon is cut at the
    first one: when the part before it holds at most two words, only the
    part after it is returned, stripped; otherwise the whole text is
    returned, stripped. With a colon the result never starts or ends with
    whitespace, and in all cases it is no longer than the text. *)
Theorem X19_label_before_colon_is_dropped (text : string) :
  (PyStr.contains ":" text = false -> clean_assistant_text text = text)
  /\ (forall label rest,
        text = label +:+ ":" +:+ rest ->
        PyStr.contains ":" label = false ->
        clean_assistant_text text
        = if (length (PyStr.split_ws (Py.strip label)) <=? 2)%nat
          then Py.strip rest else Py.strip text)
  /\ (PyStr.contains ":" text = true ->
      Py.strip (clean_assistant_text text) = clean_assistant_text text)
  /\ String.length (clean_assistant_text text) <= String.length text.
Proof.
  split; [|split; [|split]].
  - intros H. unfold clean_assistant_text. rewrite H, orb_true_r. reflexivity.
  - intros label rest -> Hlabel. apply clean_with_colon, Hlabel.
  - intros H. destruct (split_once_contains _ _ H) as (l & r & _ & -> & Hl).
    change (String ":" r) with (":" +:+ r). rewrite (clean_with_colon _ _ Hl).
    destruct (length (PyStr.split_ws (Py.strip l)) <=? 2)%nat;
      apply strip_idempotent.
  - destruct (PyStr.contains ":" text) eqn:H.
    + destruct (split_once_contains _ _ H) as (l & r & _ & -> & Hl).
      change (String ":" r) with (":" +:+ r). rewrite (clean_with_colon _ _ Hl).
      destruct (length (PyStr.split_ws (Py.strip l)) <=? 2)%nat.
      * pose proof (strip_length r). rewrite append_length.
        change (":" +:+ r) with (String ":" r). simpl. lia.
      * apply strip_length.
    + unfold clean_assistant_text. rewrite H, orb_true_r. lia.
Qed.

(** X20: the secret [_get_secret] returns never starts or ends with
    whitespace. A non-blank environment variable wins: its stripped value
    is returned whatever the secrets store holds or does. When the secrets
    store raises, the result is the stripped environment value (empty when
    there is none). *)
Theorem X20_secret_is_stripped (environ : string -> option string)
  (secrets : string -> Exn + option string) (name : string) :
  Py.strip (_get_secret environ secrets name) = _get_secret environ secrets name
  /\ (forall v, environ name = Some v -> is_blank v = false ->
                _get_secret environ secrets name = Py.strip v)
  /\ (forall e, secrets name = inl e ->
                _get_secret environ secrets name
                = Py.strip (get_default (environ name) EmptyString)).
Proof.
  unfold _get_secret.
  set (v := Py.strip (get_default (environ name) EmptyString)).
  split; [|split].
  - destruct (Py.truthy v) eqn:Hv; simpl.
    + rewrite Hv. apply strip_idempotent.
    + destruct (secrets name) as [e|found].
      * rewrite Hv. reflexivity.
      * destruct (Py.truthy (Py.strip (get_default found EmptyString)));
          [apply strip_idempotent | reflexivity].
  - intros v0 Henv Hblank. subst v. rewrite Henv. simpl.
    rewrite truthy_strip_blank, Hblank. simpl.
    rewrite truthy_strip_blank, Hblank. reflexivity.
  - intros e He. rewrite He.
    destruct (Py.truthy v) eqn:Hv; simpl; rewrite Hv; [reflexivity|].
    destruct v; [reflexivity|discriminate].
Qed.

Section QuestionDisplay.

Context {W Checker Samples : Type}.
Variable E : @Env W Checker Samples.

(** X21: what the user sees after answering a follow-up question when
    the checker has another one. With a translator that does not raise,
    [handle_follow_up_answer] appends the answer and one assistant message
    made of the translated symptom name, a colon and the translated
    question (the opposite order of the first question of the interview),
    and that question is pending. When the translated symptom name holds no
    colon and at most two words, the chat display shows the question
    alone. *)
Theorem X21_next_question_is_shown_without_label
  (w : @World W Checker Samples) (answer : string) (c c1 c2 : Checker)
  (p q : Question) (tr : string -> string -> string) :
  Py.truthy (SARVAM_API_KEY E) = true ->
  symptom_checker_instance (sess w) = Some c ->
  pending_symptom_question_data (sess w) = Some p ->
  (forall x, exists x',
      record_answer E (symptom_name p) (question p) answer c x = (inr tt, c1, x')) ->
  (forall x, exists x', get_next_question E c1 x = (inr (Some q), c2, x')) ->
  (forall t l x, exists x', translate_text E t l x = (inr (tr t l), x')) ->
  exists w',
    handle_follow_up_answer E answer w = Ok tt w'
    /\ conversation (sess w')
       = conversation (sess w)
         ++ [new_message "user" answer
               (Some (Py.before_dash (current_language_code (sess w))));
             mkMessage "assistant"
               (tr (symptom_name q) (current_language_code (sess w))
                +:+ ": " +:+ tr (question q) (current_language_code (sess w)))
               None]
    /\ pending_symptom_question_data (sess w') = Some q
    /\ (PyStr.contains ":" (tr (symptom_name q) (current_language_code (sess w)))
        = false ->
        length (PyStr.split_ws
                  (Py.strip (tr (symptom_name q) (current_language_code (sess w)))))
        <= 2 ->
        clean_assistant_text
          (tr (symptom_name q) (current_language_code (sess w))
           +:+ ": " +:+ tr (question q) (current_language_code (sess w)))
        = Py.strip (tr (question q) (current_language_code (sess w)))).
Proof.
  intros Hkey Hinst Hpend Hrec Hnext Htrans.
  unfold handle_follow_up_answer, bind, get_state, assign. simpl.
  rewrite Hinst, Hpend. simpl.
  unfold add_message_to_conversation, assign. simpl.
  run_persist.
  unfold call_instance. simpl. rewrite Hinst.
  destruct (Hrec x) as (x1 & Hrec1). rewrite Hrec1. simpl.
  destruct (Hnext x1) as (x2 & Hnext1). rewrite Hnext1. simpl.
  unfold translate_question, util_translate_text, util_call, _get_utils, bind,
    call, ret.
  rewrite Hkey. simpl.
  destruct (Htrans (question q) (current_language_code (sess w)) x2)
    as (x3 & Htq).
  rewrite Htq. simpl.
  destruct (Htrans (symptom_name q) (current_language_code (sess w)) x3)
    as (x4 & Hts).
  rewrite Hts. simpl.
  unfold add_message_to_conversation, assign. simpl.
  run_persist.
  eexists. split; [reflexivity|]. simpl.
  split; [rewrite <- app_assoc; reflexivity|]. split; [reflexivity|].
  intros Hcolon Hwords.
  change (": " +:+ tr (question q) (current_language_code (sess w)))
    with (":" +:+ String " " (tr (question q) (current_language_code (sess w)))).
  rewrite (clean_with_colon _ _ Hcolon).
  apply Nat.leb_le in Hwords. rewrite Hwords. reflexivity.
Qed.

End QuestionDisplay.

Lemma X21_next_question_witness :
  let E := Demo.clinic "hello" in
  let w := Demo.asked E in
  exists w',
    handle_follow_up_answer E "three days" w = Ok tt w'
    /\ pending_symptom_question_data (sess w') = Some Demo.pain_question
    /\ clean_assistant_text "headache: Is the pain constant?"
       = "Is the pain constant?".
Proof.
  intros E w.
  destruct (X21_next_question_is_shown_without_label E w "three days"
              [Demo.pain_question] [Demo.pain_question] []
              Demo.fever_question Demo.pain_question (fun t _ => t))
    as (w' & Hrun & _ & Hpend & Hshown).
  - vm_compute. reflexivity.
  - vm_compute. reflexivity.
  - vm_compute. reflexivity.
  - intros x. exists x. reflexivity.
  - intros x. exists x. reflexivity.
  - intros t l x. exists x. reflexivity.
  - exists w'. split; [exact Hrun|]. split; [exact Hpend|].
    apply Hshown; vm_compute; [reflexivity | lia].
Defined.
